(** * bookstore_manager: a shallow embedding of [bookstore_manager.py]

    The program is a terminal point-of-sale ledger over an SQLite file with
    three tables ([member], [book], [sale]).  The embedding follows the
    source function by function:

    - a Python [str] is a Rocq [string] holding its UTF-8 encoding, so the
      message literals are the bytes of the source file; [len] counts code
      points (the bytes that are not continuation bytes);
    - a Python [int] is a [Z]; an SQLite INTEGER is a [Z] in the signed
      64-bit range, and binding a Python [int] outside that range raises
      [OverflowError] in the [sqlite3] module before the statement runs;
    - the three tables are finite maps over their primary keys, together with
      the AUTOINCREMENT counter of [sale];
    - a connection is the current view of the tables plus the snapshot taken
      when the pending transaction was opened ([sqlite3] opens one implicitly
      before INSERT, UPDATE and DELETE; [commit] forgets the snapshot,
      [rollback] restores it);
    - what the engine answers to a statement (an error text or nothing) is
      read from a list of answers carried by the world, as are the lines of
      standard input; printed text is appended to standard output;
    - the functions run in a state-and-exception monad over that world. *)

From stdpp Require Import gmap strings list fin_maps pretty.
From Stdlib Require Import ZArith String Ascii Permutation Sorted.

Local Open Scope string_scope.
Local Open Scope Z_scope.
Local Open Scope list_scope.

(** ** Python strings *)

Module PyStr.

(** A byte [10xxxxxx] continues a code point started earlier. *)
Definition is_continuation (c : ascii) : bool :=
  let n := N_of_ascii c in ((128 <=? n) && (n <? 192))%N.

(** [len(s)]: the number of code points of [s]. *)
Fixpoint len (s : string) : nat :=
  match s with
  | EmptyString => 0%nat
  | String c r => if is_continuation c then len r else S (len r)
  end.

(** [s.count(c)] for a one-byte (ASCII) character [c]. *)
Fixpoint count (c : ascii) (s : string) : nat :=
  match s with
  | EmptyString => 0%nat
  | String d r => if Ascii.eqb c d then S (count c r) else count c r
  end.

Definition nl : string := String "010" EmptyString.
Definition tab : string := String "009" EmptyString.

(** [s * n] *)
Fixpoint repeat (s : string) (n : nat) : string :=
  match n with
  | O => EmptyString
  | S k => s +:+ repeat s k
  end.

(** [f"{s:<w}"]: pad with spaces on the right up to [w] code points. *)
Definition ljust (w : nat) (s : string) : string :=
  s +:+ repeat " " (w - len s).

(** [str(z)] *)
Definition str (z : Z) : string := pretty z.

(** Digits of a natural number, least significant group first, with a comma
    between groups of three: the body of [f"{z:,}"]. *)
Fixpoint group3 (ds : list ascii) : list ascii :=
  match ds with
  | a :: b :: c :: ((_ :: _) as r) => a :: b :: c :: "," %char :: group3 r
  | _ => ds
  end.

Definition rev_string (s : string) : list ascii :=
  rev (list_ascii_of_string s).

(** [f"{z:,}"] *)
Definition comma (z : Z) : string :=
  let body :=
    string_of_list_ascii (rev (group3 (rev_string (pretty (Z.abs z))))) in
  if z <? 0 then "-" +:+ body else body.

(** ASCII lower-casing; [s.lower() == 'enter'] is decided by it, since no
    character outside ASCII lower-cases to one of e, n, t, r. *)
Definition lower_ascii (c : ascii) : ascii :=
  let n := N_of_ascii c in
  if ((65 <=? n) && (n <=? 90))%N then ascii_of_N (n + 32) else c.

Fixpoint lower (s : string) : string :=
  match s with
  | EmptyString => EmptyString
  | String c r => String (lower_ascii c) (lower r)
  end.

End PyStr.

(** [checkdate], line 7: [len(date_str) == 10 and date_str.count('-') == 2]. *)
Definition checkdate (date_str : string) : bool :=
  (PyStr.len date_str =? 10)%nat && (PyStr.count "-" date_str =? 2)%nat.

(** ** The tables *)

Record member_row := MemberRow
  { mname : string; mphone : string; memail : option string }.

Record book_row := BookRow
  { btitle : string; bprice : Z; bstock : Z }.

Record sale_row := SaleRow
  { sdate : string; sale_mid : string; sale_bid : string;
    sqty : Z; sdiscount : Z; stotal : Z }.

(** [sale_seq] is the row of [sqlite_sequence] for [sale]: the largest sale id
    handed out so far (0 before the first insert). *)
Record tables := Tables
  { member : gmap string member_row;
    book : gmap string book_row;
    sale : gmap Z sale_row;
    sale_seq : Z }.

Definition empty_tables : tables := Tables ∅ ∅ ∅ 0.

Definition with_book (f : gmap string book_row → gmap string book_row)
    (t : tables) : tables :=
  Tables (member t) (f (book t)) (sale t) (sale_seq t).

Definition with_sale (f : gmap Z sale_row → gmap Z sale_row)
    (t : tables) : tables :=
  Tables (member t) (book t) (f (sale t)) (sale_seq t).

(** ** SQLite integers *)

Definition int64_min : Z := - 2 ^ 63.
Definition int64_max : Z := 2 ^ 63 - 1.

Definition in_int64 (z : Z) : bool := (int64_min <=? z) && (z <=? int64_max).

(** The largest key of the [sale] table, if it has a row. *)
Definition max_sid (s : gmap Z sale_row) : option Z :=
  map_fold (λ k _ acc, Some (from_option (Z.max k) k acc)) None s.

(** The row id AUTOINCREMENT gives to the next row: one more than the largest
    id in the table (1 for an empty table) and one more than the counter. *)
Definition next_sid (t : tables) : Z :=
  Z.max (from_option (λ k, k + 1) 1 (max_sid (sale t))) (sale_seq t + 1).

(** ** Worlds, exceptions and the monad *)

Inductive exn :=
  | SqliteError (text : string)   (* sqlite3.Error, with its text *)
  | OverflowError                 (* Python int too large for SQLite INTEGER *)
  | ValueError                    (* int() of a string that is no integer *)
  | EOFError                      (* input() at the end of standard input *)
  | RealArithmetic.               (* not a Python exception: an SQL integer
                                     expression overflowed and the engine went
                                     on in floating point, which is outside
                                     this development *)

Record world := World
  { db : tables;                    (* what the connection sees *)
    txn : option tables;            (* tables when the pending transaction began *)
    faults : list (option string);  (* the engine's answer to each statement to come *)
    stdin : list string;
    stdout : list string }.

Inductive result (A : Type) :=
  | Ok (a : A) (w : world)
  | Raise (e : exn) (w : world).
Arguments Ok {A} a w.
Arguments Raise {A} e w.

Definition world_of {A} (r : result A) : world :=
  match r with Ok _ w => w | Raise _ w => w end.

Definition M (A : Type) : Type := world → result A.

Definition ret {A} (a : A) : M A := λ w, Ok a w.

Definition bind {A B} (m : M A) (k : A → M B) : M B :=
  λ w, match m w with
       | Ok a w' => k a w'
       | Raise e w' => Raise e w'
       end.

Definition raise {A} (e : exn) : M A := λ w, Raise e w.

Declare Scope py_scope.
Delimit Scope py_scope with py.
Notation "x <- m ;; k" := (bind m (λ x, k))
  (at level 100, m at next level, right associativity) : py_scope.
Notation "m ;;; k" := (bind m (λ _, k))
  (at level 100, right associativity) : py_scope.
Local Open Scope py_scope.

(** [try: body except sqlite3.Error as e: handler e] *)
Definition try_sqlite {A} (body : M A) (handler : string → M A) : M A :=
  λ w, match body w with
       | Raise (SqliteError e) w' => handler e w'
       | r => r
       end.

(** [try: body except ValueError: handler] *)
Definition try_value {A} (body : M A) (handler : M A) : M A :=
  λ w, match body w with
       | Raise ValueError w' => handler w'
       | r => r
       end.

Definition get_db : M tables := λ w, Ok (db w) w.

Definition put_db (t : tables) : M unit :=
  λ w, Ok tt (World t (txn w) (faults w) (stdin w) (stdout w)).

(** [print(s)] *)
Definition print (s : string) : M unit :=
  λ w, Ok tt (World (db w) (txn w) (faults w) (stdin w) (stdout w ++ [s])).

(** [input(prompt)] *)
Definition input (prompt : string) : M string :=
  λ w, match stdin w with
       | [] => Raise EOFError
                 (World (db w) (txn w) (faults w) [] (stdout w ++ [prompt]))
       | l :: ls => Ok l (World (db w) (txn w) (faults w) ls (stdout w ++ [prompt]))
       end.

(** ** The engine *)

(** The engine runs one statement: it reports the error it was going to
    report, if any (a locked or full database, an I/O error, ...).  A failed
    statement writes nothing. *)
Definition engine_step : M unit :=
  λ w, match faults w with
       | Some e :: fs =>
           Raise (SqliteError e) (World (db w) (txn w) fs (stdin w) (stdout w))
       | None :: fs => Ok tt (World (db w) (txn w) fs (stdin w) (stdout w))
       | [] => Ok tt w
       end.

(** Binding a Python [int] to a [?]: outside the signed 64-bit range the
    [sqlite3] module raises [OverflowError] (Python int too large to convert
    to SQLite INTEGER), and the statement does not run. *)
Definition bind_int (z : Z) : M unit :=
  if in_int64 z then ret tt else raise OverflowError.

(** The implicit BEGIN before INSERT, UPDATE and DELETE. *)
Definition begin_dml : M unit :=
  λ w, match txn w with
       | Some _ => Ok tt w
       | None => Ok tt (World (db w) (Some (db w)) (faults w) (stdin w) (stdout w))
       end.

(** [conn.commit()]: a COMMIT statement when a transaction is pending,
    nothing otherwise. *)
Definition commit : M unit :=
  λ w, match txn w with
       | None => Ok tt w
       | Some _ =>
           (engine_step ;;;
            λ w, Ok tt (World (db w) None (faults w) (stdin w) (stdout w))) w
       end.

(** [conn.rollback()]: back to the tables of the last commit when a
    transaction is pending, nothing otherwise.  It is taken not to fail. *)
Definition rollback : M unit :=
  λ w, match txn w with
       | Some t => Ok tt (World t None (faults w) (stdin w) (stdout w))
       | None => Ok tt w
       end.

(** [SELECT mid FROM member WHERE mid = ?] and [fetchone()] *)
Definition select_member (mid : string) : M (option string) :=
  engine_step ;;;
  t <- get_db ;;
  ret ((λ _, mid) <$> member t !! mid).

(** [SELECT bprice, bstock FROM book WHERE bid = ?] and [fetchone()] *)
Definition select_book (bid : string) : M (option (Z * Z)) :=
  engine_step ;;;
  t <- get_db ;;
  ret ((λ b, (bprice b, bstock b)) <$> book t !! bid).

(** [INSERT INTO sale (sdate, mid, bid, sqty, sdiscount, stotal) VALUES ...].
    The row id comes from AUTOINCREMENT; when the ids are used up the engine
    reports that the database is full. *)
Definition insert_sale (r : sale_row) : M unit :=
  begin_dml ;;;
  bind_int (sqty r) ;;; bind_int (sdiscount r) ;;; bind_int (stotal r) ;;;
  engine_step ;;;
  t <- get_db ;;
  let sid := next_sid t in
  if sid <=? int64_max then
    put_db (Tables (member t) (book t) (<[sid := r]> (sale t)) sid)
  else raise (SqliteError "database or disk is full").

(** [UPDATE book SET bstock = bstock - ? WHERE bid = ?] *)
Definition update_book_stock (qty : Z) (bid : string) : M unit :=
  begin_dml ;;;
  bind_int qty ;;;
  engine_step ;;;
  t <- get_db ;;
  match book t !! bid with
  | None => ret tt
  | Some b =>
      if in_int64 (bstock b - qty) then
        put_db (with_book
                  (insert bid (BookRow (btitle b) (bprice b) (bstock b - qty))) t)
      else raise RealArithmetic
  end.

(** ** [add_sale], line 85 *)

Definition msg_invalid_member (mid : string) : string :=
  "錯誤：會員編號 " +:+ mid +:+ " 無效。".

Definition msg_invalid_book (bid : string) : string :=
  "錯誤：書籍編號 " +:+ bid +:+ " 無效。".

Definition msg_insufficient_stock (stock : Z) : string :=
  "錯誤：書籍庫存不足 (現有庫存: " +:+ PyStr.str stock +:+ ")。".

Definition msg_sale_added (total : Z) : string :=
  "銷售記錄已新增！(銷售總額: " +:+ PyStr.comma total +:+ ")".

Definition msg_transaction_failed (e : string) : string :=
  "交易失敗：" +:+ e.

Definition add_sale (sdate mid bid : string) (sqty sdiscount : Z)
    : M (bool * string) :=
  try_sqlite
    (member <- select_member mid ;;
     match member with
     | None => ret (false, msg_invalid_member mid)
     | Some _ =>
         book <- select_book bid ;;
         match book with
         | None => ret (false, msg_invalid_book bid)
         | Some (price, stock) =>
             if stock <? sqty then ret (false, msg_insufficient_stock stock)
             else
               let stotal := price * sqty - sdiscount in
               insert_sale (SaleRow sdate mid bid sqty sdiscount stotal) ;;;
               update_book_stock sqty bid ;;;
               commit ;;;
               ret (true, msg_sale_added stotal)
         end
     end)
    (λ e, rollback ;;; ret (false, msg_transaction_failed e)).

(** ** [initialize_db], line 47 *)

Fixpoint executemany {A} (stmt : A → M unit) (rows : list A) : M unit :=
  match rows with
  | [] => ret tt
  | r :: rs => stmt r ;;; executemany stmt rs
  end.

(** [INSERT OR IGNORE INTO member VALUES (?, ?, ?, ?)] for one row *)
Definition insert_or_ignore_member (r : string * member_row) : M unit :=
  begin_dml ;;;
  engine_step ;;;
  t <- get_db ;;
  match member t !! r.1 with
  | Some _ => ret tt
  | None => put_db (Tables (<[r.1 := r.2]> (member t)) (book t) (sale t) (sale_seq t))
  end.

(** [INSERT OR IGNORE INTO book VALUES (?, ?, ?, ?)] for one row *)
Definition insert_or_ignore_book (r : string * book_row) : M unit :=
  begin_dml ;;;
  bind_int (bprice r.2) ;;; bind_int (bstock r.2) ;;;
  engine_step ;;;
  t <- get_db ;;
  match book t !! r.1 with
  | Some _ => ret tt
  | None => put_db (with_book (insert r.1 r.2) t)
  end.

Definition member_seed : list (string * member_row) :=
  [ ("M001", MemberRow "Alice" "0912-345678" (Some "alice@example.com"));
    ("M002", MemberRow "Bob" "0923-456789" (Some "bob@example.com"));
    ("M003", MemberRow "Cathy" "0934-567890" (Some "cathy@example.com")) ].

Definition book_seed : list (string * book_row) :=
  [ ("B001", BookRow "Python Programming" 600 50);
    ("B002", BookRow "Data Science Basics" 800 30);
    ("B003", BookRow "Machine Learning Guide" 1200 20) ].

(** [today] stands for [date.today().strftime('%Y-%m-%d')]. *)
Definition sale_seed (today : string) : list sale_row :=
  [ SaleRow today "M001" "B001" 2 100 1100;
    SaleRow today "M002" "B002" 1 50 750;
    SaleRow today "M001" "B003" 3 200 3400;
    SaleRow today "M003" "B001" 1 0 600 ].

Definition initialize_db (today : string) : M unit :=
  executemany insert_or_ignore_member member_seed ;;;
  executemany insert_or_ignore_book book_seed ;;;
  executemany insert_sale (sale_seed today).

(** [connect_db], line 15: a fresh connection on the database file, whose
    tables exist (created empty when absent) and with nothing pending. *)
Definition connect_db (file : tables) (answers : list (option string))
    (lines : list string) : world :=
  World file None answers lines [].

(** The state the first run reaches before the menu is shown: the seed rows
    are in the connection's view, and still uncommitted. *)
Definition seeded (today : string) (answers : list (option string))
    (lines : list string) : world :=
  world_of (initialize_db today (connect_db empty_tables answers lines)).

(** ** [print_sale_report], line 136 *)

(** ORDER BY s.sid: the rows of [sale] by ascending key. *)
Fixpoint insert_by_sid (x : Z * sale_row) (l : list (Z * sale_row))
    : list (Z * sale_row) :=
  match l with
  | [] => [x]
  | y :: r => if x.1 <=? y.1 then x :: l else y :: insert_by_sid x r
  end.

Definition rows_by_sid (s : gmap Z sale_row) : list (Z * sale_row) :=
  foldr insert_by_sid [] (map_to_list s).

Record report_row := ReportRow
  { r_sid : Z; r_sdate : string; r_mname : string; r_btitle : string;
    r_bprice : Z; r_sqty : Z; r_sdiscount : Z; r_stotal : Z }.

(** One row of [sale s JOIN member m ON s.mid = m.mid JOIN book b ON
    s.bid = b.bid]: there is none when either side is missing. *)
Definition join_member_book (t : tables) (x : Z * sale_row)
    : option report_row :=
  match member t !! sale_mid x.2, book t !! sale_bid x.2 with
  | Some m, Some b =>
      Some (ReportRow x.1 (sdate x.2) (mname m) (btitle b) (bprice b)
              (sqty x.2) (sdiscount x.2) (stotal x.2))
  | _, _ => None
  end.

Definition report_rows (t : tables) : list report_row :=
  omap (join_member_book t) (rows_by_sid (sale t)).

Definition select_report : M (list report_row) :=
  engine_step ;;;
  t <- get_db ;;
  ret (report_rows t).

Definition msg_no_sales : string := PyStr.nl +:+ "目前沒有銷售記錄。".

Definition report_header : string :=
  "f" +:+ PyStr.nl +:+ "==================== 銷售報表 ====================".

Definition report_columns : string :=
  PyStr.ljust 8 "單價" +:+ PyStr.tab +:+ PyStr.ljust 4 "數量" +:+ PyStr.tab
  +:+ PyStr.ljust 6 "折扣" +:+ PyStr.tab +:+ "小計".

(** The thirteen [print] calls of the loop body, lines 162 to 175. *)
Definition report_block (r : report_row) : list string :=
  [ "銷售 #" +:+ PyStr.str (r_sid r);
    "銷售編號: " +:+ PyStr.str (r_sid r);
    "銷售日期: " +:+ r_sdate r;
    "會員姓名: " +:+ r_mname r;
    "書籍標題: " +:+ r_btitle r;
    PyStr.repeat "-" 50;
    report_columns;
    PyStr.repeat "-" 50;
    PyStr.ljust 8 (PyStr.str (r_bprice r)) +:+ PyStr.tab
      +:+ PyStr.ljust 4 (PyStr.str (r_sqty r)) +:+ PyStr.tab
      +:+ PyStr.ljust 6 (PyStr.str (r_sdiscount r)) +:+ PyStr.tab
      +:+ PyStr.comma (r_stotal r);
    PyStr.repeat "-" 50;
    "銷售總額: " +:+ PyStr.comma (r_stotal r);
    PyStr.repeat "=" 50;
    "" ].

Definition print_sale_report : M unit :=
  sales <- select_report ;;
  match sales with
  | [] => print msg_no_sales
  | _ :: _ =>
      print report_header ;;;
      executemany (λ r, executemany print (report_block r)) sales
  end.

(** ** The interactive operations *)

(** [SELECT sid FROM sale WHERE sid = ?] and [fetchone()] *)
Definition select_sale (sale_id : Z) : M (option Z) :=
  bind_int sale_id ;;;
  engine_step ;;;
  t <- get_db ;;
  ret ((λ _, sale_id) <$> sale t !! sale_id).

(** A [while True] loop whose every turn starts by reading a line: as many
    turns as there are lines left, and one more that meets the end of input. *)
Definition turns : M nat := λ w, Ok (S (List.length (stdin w))) w.

Section Interactive.

(** [str.isdigit] and [int] on strings are Python's own; [py_int] gives
    [None] where [int] raises [ValueError]. *)
Variable py_isdigit : string → bool.
Variable py_int : string → option Z.

Definition int_of (s : string) : M Z :=
  match py_int s with
  | Some z => ret z
  | None => raise ValueError
  end.

(** *** [update_sale], line 178 *)

(** [sale s JOIN member m ON s.mid = m.mid], by sale id *)
Definition join_member (t : tables) (x : Z * sale_row)
    : option (Z * string * string) :=
  (λ m, (x.1, mname m, sdate x.2)) <$> member t !! sale_mid x.2.

Definition select_update_list : M (list (Z * string * string)) :=
  engine_step ;;;
  t <- get_db ;;
  ret (omap (join_member t) (rows_by_sid (sale t))).

Definition list_header : string := PyStr.nl +:+ "======== 銷售記錄列表 ========".
Definition list_footer : string := "===============================".

Definition update_list_line (r : Z * string * string) : string :=
  PyStr.str r.1.1 +:+ ". 銷售編號: " +:+ PyStr.str r.1.1 +:+ " - 會員: "
  +:+ r.1.2 +:+ " - " +:+ "日期: " +:+ r.2.

(** The first loop, line 199: [None] when the operator cancels. *)
Fixpoint ask_update_id (n : nat) : M (option Z) :=
  match n with
  | O => raise EOFError
  | S k =>
      saleid <- input "請選擇要更新的銷售編號 (輸入數字或按 Enter 取消): " ;;
      if String.eqb saleid "" then print "取消更新。" ;;; ret None
      else if py_isdigit saleid then
        sale_id <- int_of saleid ;;
        existing_sale <- select_sale sale_id ;;
        match existing_sale with
        | Some _ => ret (Some sale_id)
        | None => print "輸入的銷售編號不存在，請重新輸入。" ;;; ask_update_id k
        end
      else print "輸入無效，請輸入數字或按 Enter 取消。" ;;; ask_update_id k
  end.

(** The second loop, line 215. *)
Fixpoint ask_discount (n : nat) : M Z :=
  match n with
  | O => raise EOFError
  | S k =>
      ndiscount <- input "請輸入新的折扣金額：" ;;
      if py_isdigit ndiscount then
        newdiscount <- int_of ndiscount ;;
        if 0 <=? newdiscount then ret newdiscount
        else print "折扣金額不能為負數，請重新輸入。" ;;; ask_discount k
      else print "輸入無效，請輸入數字。" ;;; ask_discount k
  end.

(** [SELECT b.bprice, s.sqty FROM sale s JOIN book b ON s.bid = b.bid
    WHERE s.sid = ?] and [fetchone()] *)
Definition select_details (sale_id : Z) : M (option (Z * Z)) :=
  bind_int sale_id ;;;
  engine_step ;;;
  t <- get_db ;;
  ret (s ← sale t !! sale_id; b ← book t !! sale_bid s; Some (bprice b, sqty s)).

(** [UPDATE sale SET sdiscount = ?, stotal = ? WHERE sid = ?] *)
Definition update_sale_row (newdiscount nstotal sale_id : Z) : M unit :=
  begin_dml ;;;
  bind_int newdiscount ;;; bind_int nstotal ;;; bind_int sale_id ;;;
  engine_step ;;;
  t <- get_db ;;
  put_db (with_sale
            (alter (λ s, SaleRow (sdate s) (sale_mid s) (sale_bid s) (sqty s)
                           newdiscount nstotal) sale_id) t).

Definition msg_sale_updated (sale_id nstotal : Z) : string :=
  "=> 銷售編號 " +:+ PyStr.str sale_id +:+ " 已更新！(銷售總額: "
  +:+ PyStr.comma nstotal +:+ ")".

Definition msg_update_not_found : string :=
  "更新銷售記錄時發生錯誤，找不到相關銷售資訊。".

(** Lines 226 to 246: the update itself, once the sale id and the new
    discount are known (the spec's update_discount). *)
Definition update_discount (sale_id newdiscount : Z) : M unit :=
  details <- select_details sale_id ;;
  match details with
  | Some (price, qty) =>
      let nstotal := price * qty - newdiscount in
      update_sale_row newdiscount nstotal sale_id ;;;
      commit ;;;
      print (msg_sale_updated sale_id nstotal)
  | None => print msg_update_not_found
  end.

Definition update_sale : M unit :=
  sales_list <- select_update_list ;;
  match sales_list with
  | [] => print (PyStr.nl +:+ "目前沒有銷售記錄可以更新。")
  | _ :: _ =>
      print list_header ;;;
      executemany (λ r, print (update_list_line r)) sales_list ;;;
      print list_footer ;;;
      n <- turns ;;
      chosen <- ask_update_id n ;;
      match chosen with
      | None => ret tt
      | Some sale_id =>
          n <- turns ;;
          newdiscount <- ask_discount n ;;
          update_discount sale_id newdiscount
      end
  end.

(** *** [delete_sale], line 249 *)

Definition delete_list_line (r : report_row) : string :=
  PyStr.str (r_sid r) +:+ ". 銷售編號: " +:+ PyStr.str (r_sid r) +:+ " - 會員: "
  +:+ r_mname r +:+ " - " +:+ "書籍: " +:+ r_btitle r +:+ " - 日期: " +:+ r_sdate r.

(** The loop of line 273: [None] when the operator cancels. *)
Fixpoint ask_delete_id (n : nat) : M (option Z) :=
  match n with
  | O => raise EOFError
  | S k =>
      sale_id_str <- input "請選擇要刪除的銷售編號 (輸入數字或按 Enter 取消): " ;;
      if String.eqb sale_id_str "" then print "取消刪除。" ;;; ret None
      else if py_isdigit sale_id_str then
        sale_id_to_delete <- int_of sale_id_str ;;
        existing_sale <- select_sale sale_id_to_delete ;;
        match existing_sale with
        | Some _ => ret (Some sale_id_to_delete)
        | None => print "輸入的銷售編號不存在，請重新輸入。" ;;; ask_delete_id k
        end
      else print "=> 錯誤：請輸入有效的數字" ;;; ask_delete_id k
  end.

(** [DELETE FROM sale WHERE sid = ?] *)
Definition delete_sale_row (sale_id : Z) : M unit :=
  begin_dml ;;;
  bind_int sale_id ;;;
  engine_step ;;;
  t <- get_db ;;
  put_db (with_sale (delete sale_id) t).

(** Lines 290 to 292: the deletion itself, once the sale id is known. *)
Definition delete_sale_by_id (sale_id_to_delete : Z) : M unit :=
  delete_sale_row sale_id_to_delete ;;;
  commit ;;;
  print ("=> 銷售編號 " +:+ PyStr.str sale_id_to_delete +:+ " 已刪除").

Definition delete_sale : M unit :=
  sales_list <- select_report ;;
  match sales_list with
  | [] => print (PyStr.nl +:+ "目前沒有銷售記錄可以刪除。")
  | _ :: _ =>
      print list_header ;;;
      executemany (λ r, print (delete_list_line r)) sales_list ;;;
      print list_footer ;;;
      n <- turns ;;
      chosen <- ask_delete_id n ;;
      match chosen with
      | None => ret tt
      | Some sale_id_to_delete => delete_sale_by_id sale_id_to_delete
      end
  end.

(** *** [main], line 295 *)

Variable today : string.

Definition msg_bad_date : string :=
  "=> 錯誤：日期格式無效，請使用 YYYY-MM-DD 格式。".

(** Choice 1, lines 317 to 345. *)
Definition menu_add_sale : M unit :=
  sdate <- input "請輸入銷售日期 (YYYY-MM-DD): " ;;
  if negb (checkdate sdate) then print msg_bad_date
  else
    mid <- input "請輸入會員編號：" ;;
    bid <- input "請輸入書籍編號：" ;;
    try_value
      (sqty_str <- input "請輸入購買數量：" ;;
       sqty <- int_of sqty_str ;;
       if sqty <=? 0 then print "=> 錯誤：數量必須為正整數，請重新輸入"
       else
         sdiscount_str <- input "請輸入折扣金額：" ;;
         sdiscount <- int_of sdiscount_str ;;
         if sdiscount <? 0 then print "=> 錯誤：折扣金額不能為負數，請重新輸入"
         else
           r <- add_sale sdate mid bid sqty sdiscount ;;
           print ("=> " +:+ r.2))
      (print "=> 錯誤：數量或折扣必須為整數，請重新輸入").

Definition menu_text : list string :=
  [ PyStr.nl +:+ "***************選單***************";
    "1. 新增銷售記錄"; "2. 顯示銷售報表"; "3. 更新銷售記錄";
    "4. 刪除銷售記錄"; "5. 離開";
    "**********************************" ].

(** One turn of the menu loop: [true] to go round again, [false] at
    [break]. *)
Definition menu_turn : M bool :=
  executemany print menu_text ;;;
  choice <- input "請選擇功能: " ;;
  if String.eqb choice "1" then menu_add_sale ;;; ret true
  else if String.eqb choice "2" then print_sale_report ;;; ret true
  else if String.eqb choice "3" then update_sale ;;; ret true
  else if String.eqb choice "4" then delete_sale ;;; ret true
  else if String.eqb choice "5" || String.eqb (PyStr.lower choice) "enter"
  then ret false
  else print "=> 請輸入有效的選項（1-5）" ;;; ret true.

Fixpoint menu_loop (n : nat) : M unit :=
  match n with
  | O => raise EOFError
  | S k =>
      again <- menu_turn ;;
      if again then menu_loop k else ret tt
  end.

(** The member count query of line 299 *)
Definition count_members : M nat :=
  engine_step ;;;
  t <- get_db ;;
  ret (size (member t)).

(** [with conn:] commits when the block ends and rolls back when an
    exception leaves it. *)
Definition with_connection {A} (body : M A) : M A :=
  λ w, match body w with
       | Ok a w' => (commit ;;; ret a) w'
       | Raise e w' => (rollback ;;; raise e) w'
       end.

Definition main : M unit :=
  with_connection
    (member_count <- count_members ;;
     (if (member_count =? 0)%nat
      then print "資料庫為空或首次運行，正在初始化預設資料..." ;;;
           initialize_db today
      else print "檢測到現有資料，跳過預設資料初始化。") ;;;
     n <- turns ;;
     menu_loop n) ;;;
  print "感謝使用書店管理系統！".

End Interactive.

(** *** The ASCII fragment of [str.isdigit] and [int]

    Enough of the two built-ins to run the interactive functions on plain
    decimal input: an optional sign and ASCII digits. *)

Module Ascii10.

Definition digit (c : ascii) : option Z :=
  let n := N_of_ascii c in
  if ((48 <=? n) && (n <=? 57))%N then Some (Z.of_N n - 48) else None.

Fixpoint digits (acc : Z) (s : string) : option Z :=
  match s with
  | EmptyString => Some acc
  | String c r =>
      match digit c with
      | Some d => digits (10 * acc + d) r
      | None => None
      end
  end.

Definition isdigit (s : string) : bool :=
  match s with
  | EmptyString => false
  | _ => bool_decide (is_Some (digits 0 s))
  end.

Definition int (s : string) : option Z :=
  match s with
  | EmptyString => None
  | String "-" (String _ _ as r) => Z.opp <$> digits 0 r
  | String "+" (String _ _ as r) => digits 0 r
  | _ => digits 0 s
  end.

End Ascii10.

(** ** Vocabulary of the statements *)

(** The engine reports no error for the next [n] statements. *)
Fixpoint quiet (n : nat) (answers : list (option string)) : bool :=
  match n, answers with
  | O, _ => true
  | S _, [] => true
  | S k, None :: r => quiet k r
  | S _, Some _ :: _ => false
  end.

Arguments quiet : simpl never.

(** What a call leaves untouched besides the tables. *)
Definition same_console (w w' : world) : Prop :=
  stdin w' = stdin w ∧ stdout w' = stdout w.

(** The pending transaction once a writing statement has begun. *)
Definition begun (t : tables) (x : option tables) : option tables :=
  Some (default t x).

(** The three ways [add_sale] turns a call down, in the order it checks
    them, each with the text it answers. *)
Inductive validation_failure (t : tables) (mid bid : string) (sqty : Z)
    : string → Prop :=
  | unknown_member :
      member t !! mid = None →
      validation_failure t mid bid sqty (msg_invalid_member mid)
  | unknown_book (m : member_row) :
      member t !! mid = Some m →
      book t !! bid = None →
      validation_failure t mid bid sqty (msg_invalid_book bid)
  | short_stock (m : member_row) (b : book_row) :
      member t !! mid = Some m →
      book t !! bid = Some b →
      bstock b < sqty →
      validation_failure t mid bid sqty (msg_insufficient_stock (bstock b)).

Definition distinct_messages (mid bid : string) : Prop :=
  msg_invalid_member mid ≠ msg_invalid_book bid ∧
  ∀ stock : Z,
    msg_invalid_member mid ≠ msg_insufficient_stock stock ∧
    msg_invalid_book bid ≠ msg_insufficient_stock stock.


(** Every row id of an SQLite table is a 64-bit integer. *)
Definition row_ids_stored (t : tables) : bool :=
  forallb (λ r : Z * sale_row, in_int64 r.1) (map_to_list (sale t)).

(** The sale [s] with a new discount and the total recomputed from the price
    of its book. *)
Definition rediscounted (s : sale_row) (price newdiscount : Z) : sale_row :=
  SaleRow (sdate s) (sale_mid s) (sale_bid s) (sqty s) newdiscount
    (price * sqty s - newdiscount).


(** A sale whose member or book has no row. *)
Definition orphan (t : tables) (s : sale_row) : Prop :=
  member t !! sale_mid s = None ∨ book t !! sale_bid s = None.

(** What [print_sale_report] prints for the tables [t]. *)
Definition report_output (t : tables) : list string :=
  match report_rows t with
  | [] => [msg_no_sales]
  | _ :: _ => report_header :: List.concat (map report_block (report_rows t))
  end.

(** ** Stock levels along a run *)

Definition stocks_nonneg (t : tables) : Prop :=
  ∀ bid b, book t !! bid = Some b → 0 ≤ bstock b.

(** No stock is negative, neither in what the connection sees nor in what a
    rollback would bring back. *)
Definition stock_invariant (w : world) : Prop :=
  stocks_nonneg (db w) ∧ ∀ t, txn w = Some t → stocks_nonneg t.

(** From [w] to [w'] the book table was not written: it is the same, and a
    transaction begun in between remembers the same books. *)
Definition steady (w w' : world) : Prop :=
  book (db w') = book (db w) ∧
  ∀ t, txn w' = Some t → txn w = Some t ∨ book t = book (db w).

Definition steady_op {A} (m : M A) : Prop := ∀ w, steady w (world_of (m w)).

(** Hoare triples of the monad: [Q] after a normal return, [E] after a
    raise. *)
Definition hoare {A} (P : world → Prop) (m : M A)
    (Q : A → world → Prop) (E : world → Prop) : Prop :=
  ∀ w, P w → match m w with
             | Ok a w' => Q a w'
             | Raise _ w' => E w'
             end.

Definition keeps {A} (I : world → Prop) (m : M A) : Prop :=
  hoare I m (λ _, I) I.

(** The Store operations, as the menu runs them and as the spec names
    them. *)
Inductive op :=
  | AddSale (sdate mid bid : string) (sqty sdiscount : Z)
  | PrintSaleReport
  | UpdateSale                                (* reads the console *)
  | UpdateDiscount (sale_id newdiscount : Z)
  | DeleteSale                                (* reads the console *)
  | DeleteSaleById (sale_id : Z).

Definition positive_quantity (o : op) : Prop :=
  match o with
  | AddSale _ _ _ sqty _ => 0 < sqty
  | _ => True
  end.

Definition writes_stock (o : op) : bool :=
  match o with
  | AddSale _ _ _ _ _ => true
  | _ => false
  end.

Section Runs.

Variable py_isdigit : string → bool.
Variable py_int : string → option Z.

Definition run_op (o : op) : M unit :=
  match o with
  | AddSale sdate mid bid sqty sdiscount =>
      _ <- add_sale sdate mid bid sqty sdiscount ;; ret tt
  | PrintSaleReport => print_sale_report
  | UpdateSale => update_sale py_isdigit py_int
  | UpdateDiscount sale_id newdiscount => update_discount sale_id newdiscount
  | DeleteSale => delete_sale py_isdigit py_int
  | DeleteSaleById sale_id => delete_sale_by_id sale_id
  end.

(** The worlds after each operation of a sequence; an exception that
    nothing catches ends the run. *)
Fixpoint states (ops : list op) (w : world) : list world :=
  match ops with
  | [] => []
  | o :: rest =>
      match run_op o w with
      | Ok _ w' => w' :: states rest w'
      | Raise _ w' => [w']
      end
  end.

End Runs.

(** ** Reading the console *)

(** From [w] to [w'] no line was put back on standard input. *)
Definition drains (w w' : world) : Prop :=
  (List.length (stdin w') ≤ List.length (stdin w))%nat.

Definition draining {A} (m : M A) : Prop := ∀ w, drains w (world_of (m w)).

(** What matters at the end of a run of [main]. *)
Definition summary (r : result unit)
    : bool * option Z * option sale_row * option tables * option string :=
  (match r with Ok _ _ => true | Raise _ _ => false end,
   bstock <$> book (db (world_of r)) !! "B001",
   sale (db (world_of r)) !! 5,
   txn (world_of r),
   last (stdout (world_of r))).

(** ** Sample worlds *)

Definition alice : member_row :=
  MemberRow "Alice" "0912-345678" (Some "alice@example.com").

Definition python_book : book_row := BookRow "Python Programming" 600 50.

(** The first seeded sale: two units of B001 with a discount of 100. *)
Definition first_sale : sale_row :=
  SaleRow "2024-01-01" "M001" "B001" 2 100 1100.

(** The first run after seeding, with a healthy engine and no input. *)
Definition first_run : world := seeded "2024-01-01" [] [].



(** Tables whose only sale names a member that does not exist. *)
Definition orphan_tables : tables :=
  Tables ∅ (list_to_map book_seed)
    {[ 1 := SaleRow "2024-01-01" "M404" "B001" 1 0 600 ]} 1.

Definition orphan_world : world := connect_db orphan_tables [] [].


(** The spec's end-to-end scenario: a sale of two, a sale of a thousand that
    is turned down, a new discount for the first, its deletion, a report. *)
Definition scenario : list op :=
  [ AddSale "2024-01-01" "M001" "B001" 2 100;
    AddSale "2024-01-01" "M001" "B001" 1000 0;
    UpdateDiscount 5 200;
    DeleteSaleById 5;
    PrintSaleReport ].

(** The operator's keystrokes for the spec's end-to-end scenario on a first
    run: a sale of two units of B001 with a discount of 100, a sale of a
    thousand, the discount of sale 5 set to 200, sale 5 deleted, exit. *)
Definition scenario_keys : list string :=
  [ "1"; "2024-01-01"; "M001"; "B001"; "2"; "100";
    "1"; "2024-01-01"; "M001"; "B001"; "1000"; "0";
    "3"; "5"; "200";
    "4"; "5";
    "5" ].



(** ** Vocabulary of the further properties *)

(** What [add_sale] has done when it returns or raises, seen from the world
    [w] it started in. *)
Definition add_sale_outcome (sdate mid bid : string) (sqty sdiscount : Z)
    (w : world) (r : result (bool * string)) : Prop :=
  match r with
  | Ok (true, _) w' =>
      txn w' = None ∧
      ∃ b, book (db w) !! bid = Some b ∧
           sale (db w') =
             <[next_sid (db w) :=
                 SaleRow sdate mid bid sqty sdiscount
                   (bprice b * sqty - sdiscount)]> (sale (db w)) ∧
           book (db w') =
             <[bid := BookRow (btitle b) (bprice b) (bstock b - sqty)]>
               (book (db w)) ∧
           member (db w') = member (db w)
  | Ok (false, _) w' =>
      (db w' = db w ∧ txn w' = txn w) ∨
      (db w' = default (db w) (txn w) ∧ txn w' = None)
  | Raise e w' =>
      (∀ text, e ≠ SqliteError text) ∧ (e = OverflowError → db w' = db w)
  end.

(** [m] takes every world to one related to it by [R], however it ends. *)
Definition follows {A} (R : world → world → Prop) (m : M A) : Prop :=
  ∀ w, R w (world_of (m w)).

(** Nothing was written and nothing begun or ended. *)
Definition same_data (w w' : world) : Prop :=
  db w' = db w ∧ txn w' = txn w.

(** Rows were only added: every member, book and sale row of [w] is in [w']
    as it was. *)
Definition grows (w w' : world) : Prop :=
  member (db w) ⊆ member (db w') ∧
  book (db w) ⊆ book (db w') ∧
  sale (db w) ⊆ sale (db w').

(** The tables of the last commit: what the database file holds. *)
Definition committed (w : world) : tables := default (db w) (txn w).

(** Nothing was committed and nothing read from the console. *)
Definition idles (w w' : world) : Prop :=
  committed w' = committed w ∧ stdin w' = stdin w.

(** A transaction is pending in [w'] that began from the tables committed
    in [w]. *)
Definition begins (w w' : world) : Prop := txn w' = Some (committed w).

(** A pending transaction is still pending. *)
Definition still_pending (w w' : world) : Prop :=
  ∀ t, txn w = Some t → txn w' = Some t.

(** A line typed at the menu that starts no sale, update or deletion. *)
Definition browsing (choice : string) : Prop :=
  choice ≠ "1" ∧ choice ≠ "3" ∧ choice ≠ "4".

(** The result [r] of a run from [w] in which nothing was committed and
    which leaves only such lines to read. *)
Definition browsed {A} (w : world) (r : result A) : Prop :=
  committed (world_of r) = committed w ∧
  Forall browsing (stdin (world_of r)).

(** The tables are as they were, or one sale has a new discount, not
    negative, and its total recomputed from the price of its book. *)
Definition rediscounts (w w' : world) : Prop :=
  db w' = db w ∨
  ∃ k s b d,
    sale (db w) !! k = Some s ∧ book (db w) !! sale_bid s = Some b ∧ 0 ≤ d ∧
    db w' = with_sale (insert k (rediscounted s (bprice b) d)) (db w).

(** The tables are as they were, or one sale is gone. *)
Definition deletes_one (w w' : world) : Prop :=
  db w' = db w ∨
  ∃ k s, sale (db w) !! k = Some s ∧ db w' = with_sale (delete k) (db w).

(** A relation that looks at the tables of the first world only. *)
Class OnTables (R : relation world) : Prop :=
  on_tables : ∀ w1 w2 w3, same_data w1 w2 → R w2 w3 → R w1 w3.

(** The lines [update_sale] and [delete_sale] list. *)
Definition update_listing (t : tables) : list (Z * string * string) :=
  omap (join_member t) (rows_by_sid (sale t)).

Definition update_prompt : string :=
  "請選擇要更新的銷售編號 (輸入數字或按 Enter 取消): ".

Definition discount_prompt : string := "請輸入新的折扣金額：".

Definition delete_prompt : string :=
  "請選擇要刪除的銷售編號 (輸入數字或按 Enter 取消): ".

(** A line that is not empty and that [str.isdigit] refuses. *)
Definition not_a_number (py_isdigit : string → bool) (l : string) : Prop :=
  l ≠ "" ∧ py_isdigit l = false.

(** ** More sample worlds *)

(** The first run after seeding, with a healthy engine and [lines] typed. *)
Definition first_run_typing (lines : list string) : world :=
  seeded "2024-01-01" [] lines.

(** The seeded tables once committed, with an engine that fails at its next
    statement. *)
Definition failing_at_once : world :=
  World (db first_run) None [Some "disk I/O error"] [] [].

(** Tables whose only sale names a book that does not exist. *)
Definition bookless_tables : tables :=
  Tables (list_to_map member_seed) ∅
    {[ 1 := SaleRow "2024-01-01" "M001" "B404" 1 0 600 ]} 1.

Definition bookless_world : world := connect_db bookless_tables [] [].

(** [str.isdigit] is true of more than the ASCII digits [int] reads: of the
    superscript two, for one, which [int] refuses with [ValueError]. *)
Module Superscript.

Definition isdigit (s : string) : bool :=
  Ascii10.isdigit s || String.eqb s "²".

End Superscript.

(** The first run with an empty line typed at the first prompt. *)
Definition cancelling : world := first_run_typing [""; "3"].

(** The first run with lines typed at the prompts that are no numbers. *)
Definition mistyping : world := first_run_typing ["abc"; "-1"; "1"].

(** The first run with a sale id typed that no sale has. *)
Definition asking_for_99 : world := first_run_typing ["99"; ""].

(** The first run with the superscript two typed as a sale id. *)
Definition typing_superscript : world := first_run_typing ["²"].

(** The first run with a sale id of twenty digits typed. *)
Definition typing_twenty_digits : world :=
  first_run_typing ["99999999999999999999"].

(** The first run with sale 1 chosen and a discount of 200 typed. *)
Definition updating_sale_1 : world := first_run_typing ["1"; "200"].

(** The first run with sale 4, the last one, chosen for deletion. *)
Definition deleting_sale_4 : world := first_run_typing ["4"].
(** * Properties *)

(** ** The date check *)

(** C8: [checkdate] accepts "2024-01-05", rejects "2024/01/05" and "24-1-5",
    and in general accepts exactly the strings of ten code points that hold
    exactly two hyphens. *)
Theorem checkdate_shape :
  checkdate "2024-01-05" = true ∧
  checkdate "2024/01/05" = false ∧
  checkdate "24-1-5" = false ∧
  ∀ date_str : string,
    checkdate date_str = true ↔
    PyStr.len date_str = 10%nat ∧ PyStr.count "-" date_str = 2%nat.
Proof.
  do 3 (split; [reflexivity|]).
  intros date_str. unfold checkdate.
  rewrite andb_true_iff, !Nat.eqb_eq. tauto.
Qed.

(** On ASCII text the code points are the bytes. *)
Lemma len_ascii (s : string) :
  Forall (λ c, PyStr.is_continuation c = false) (list_ascii_of_string s) →
  PyStr.len s = String.length s.
Proof.
  induction s as [|c s IH]; simpl; [done|].
  intros H. inversion H as [|? ? Hc Hs]; subst.
  rewrite Hc. f_equal. by apply IH.
Qed.

(** ** Sale ids *)

Lemma in_int64_spec (z : Z) :
  in_int64 z = true ↔ - 2 ^ 63 ≤ z ≤ 2 ^ 63 - 1.
Proof.
  unfold in_int64, int64_min, int64_max.
  rewrite andb_true_iff, !Z.leb_le. tauto.
Qed.

Lemma max_sid_bound (s : gmap Z sale_row) (k : Z) (r : sale_row) :
  s !! k = Some r → ∃ m, max_sid s = Some m ∧ k ≤ m.
Proof.
  unfold max_sid. revert k r.
  apply (map_fold_weak_ind
           (λ acc (m : gmap Z sale_row),
              ∀ k r, m !! k = Some r → ∃ top, acc = Some top ∧ k ≤ top)).
  - intros k r H. by rewrite lookup_empty in H.
  - intros i x m acc Hi IH k r Hk.
    destruct (decide (i = k)) as [->|Hne].
    + destruct acc as [a|]; simpl; eexists; split; try done; lia.
    + rewrite lookup_insert_ne in Hk by done.
      destruct (IH k r Hk) as (top & -> & Hle). simpl.
      eexists; split; [done|]. lia.
Qed.

(** AUTOINCREMENT never hands out an id that is in use. *)
Lemma next_sid_fresh (t : tables) : sale t !! next_sid t = None.
Proof.
  destruct (sale t !! next_sid t) as [r|] eqn:E; [|done].
  destruct (max_sid_bound _ _ _ E) as (m & Hm & Hle).
  unfold next_sid in Hle. rewrite Hm in Hle. simpl in Hle. lia.
Qed.

Lemma next_sid_above_seq (t : tables) : sale_seq t < next_sid t.
Proof. unfold next_sid. lia. Qed.

(** ** Running the monad *)

Lemma bind_ok {A B} (m : M A) (k : A → M B) (w w' : world) (a : A) :
  m w = Ok a w' → bind m k w = k a w'.
Proof. intros H. unfold bind. by rewrite H. Qed.

Lemma bind_raise {A B} (m : M A) (k : A → M B) (w w' : world) (e : exn) :
  m w = Raise e w' → bind m k w = Raise e w'.
Proof. intros H. unfold bind. by rewrite H. Qed.

Lemma quiet_tail (n : nat) (fs : list (option string)) :
  quiet (S n) fs = true → quiet n (tail fs) = true.
Proof. destruct fs as [|[e|] fs]; try done. by destruct n. Qed.

Lemma quiet_one (n : nat) (fs : list (option string)) :
  quiet (S n) fs = true → quiet 1 fs = true.
Proof. by destruct fs as [|[e|] fs]. Qed.

Lemma engine_step_ok t x fs i o :
  quiet 1 fs = true →
  engine_step (World t x fs i o) = Ok tt (World t x (tail fs) i o).
Proof. by destruct fs as [|[e|] fs]. Qed.


Lemma bind_int_ok (z : Z) (w : world) :
  in_int64 z = true → bind_int z w = Ok tt w.
Proof. intros H. unfold bind_int. by rewrite H. Qed.

Lemma bind_int_overflow (z : Z) (w : world) :
  in_int64 z = false → bind_int z w = Raise OverflowError w.
Proof. intros H. unfold bind_int. by rewrite H. Qed.

Lemma begin_dml_ok t x fs i o :
  begin_dml (World t x fs i o) = Ok tt (World t (begun t x) fs i o).
Proof. by destruct x. Qed.

Lemma select_member_ok t x fs i o mid :
  quiet 1 fs = true →
  select_member mid (World t x fs i o)
  = Ok ((λ _, mid) <$> member t !! mid) (World t x (tail fs) i o).
Proof.
  intros H. unfold select_member.
  by erewrite bind_ok by (by apply engine_step_ok).
Qed.

Lemma select_book_ok t x fs i o bid :
  quiet 1 fs = true →
  select_book bid (World t x fs i o)
  = Ok ((λ b, (bprice b, bstock b)) <$> book t !! bid) (World t x (tail fs) i o).
Proof.
  intros H. unfold select_book.
  by erewrite bind_ok by (by apply engine_step_ok).
Qed.

(** The INSERT up to the point where the engine is asked. *)
Lemma insert_sale_bound t x fs i o r :
  in_int64 (sqty r) = true → in_int64 (sdiscount r) = true →
  in_int64 (stotal r) = true →
  insert_sale r (World t x fs i o)
  = (engine_step ;;;
     t <- get_db ;;
     let sid := next_sid t in
     if sid <=? int64_max then
       put_db (Tables (member t) (book t) (<[sid := r]> (sale t)) sid)
     else raise (SqliteError "database or disk is full"))
      (World t (begun t x) fs i o).
Proof.
  intros H1 H2 H3. unfold insert_sale.
  erewrite bind_ok by apply begin_dml_ok.
  erewrite bind_ok by (by apply bind_int_ok).
  erewrite bind_ok by (by apply bind_int_ok).
  by erewrite bind_ok by (by apply bind_int_ok).
Qed.

Lemma insert_sale_ok t x fs i o r :
  in_int64 (sqty r) = true → in_int64 (sdiscount r) = true →
  in_int64 (stotal r) = true →
  quiet 1 fs = true →
  next_sid t ≤ int64_max →
  insert_sale r (World t x fs i o)
  = Ok tt (World (Tables (member t) (book t) (<[next_sid t := r]> (sale t))
                    (next_sid t))
             (begun t x) (tail fs) i o).
Proof.
  intros H1 H2 H3 Hq Hn. rewrite insert_sale_bound by done.
  erewrite bind_ok by (by apply engine_step_ok).
  unfold bind, get_db, put_db; simpl.
  apply Z.leb_le in Hn. by rewrite Hn.
Qed.

Lemma update_book_stock_ok t x fs i o qty bid b :
  in_int64 qty = true →
  quiet 1 fs = true →
  book t !! bid = Some b →
  in_int64 (bstock b - qty) = true →
  update_book_stock qty bid (World t x fs i o)
  = Ok tt (World (with_book (insert bid (BookRow (btitle b) (bprice b)
                                           (bstock b - qty))) t)
             (begun t x) (tail fs) i o).
Proof.
  intros H1 Hq Hb H2. unfold update_book_stock.
  erewrite bind_ok by apply begin_dml_ok.
  erewrite bind_ok by (by apply bind_int_ok).
  erewrite bind_ok by (by apply engine_step_ok).
  unfold bind, get_db, put_db; simpl.
  by rewrite Hb, H2.
Qed.

Lemma commit_ok t s fs i o :
  quiet 1 fs = true →
  commit (World t (Some s) fs i o) = Ok tt (World t None (tail fs) i o).
Proof.
  intros Hq. unfold commit. simpl.
  by erewrite bind_ok by (by apply engine_step_ok).
Qed.

(** ** [add_sale] *)

(** A call that passes validation, with values the engine can store and an
    engine that reports no error. *)
Lemma add_sale_runs (w : world) (sdate mid bid : string) (sqty sdiscount : Z)
    (m : member_row) (b : book_row) :
  member (db w) !! mid = Some m →
  book (db w) !! bid = Some b →
  sqty ≤ bstock b →
  quiet 5 (faults w) = true →
  in_int64 sqty = true → in_int64 sdiscount = true →
  in_int64 (bprice b * sqty - sdiscount) = true →
  in_int64 (bstock b - sqty) = true →
  next_sid (db w) ≤ int64_max →
  add_sale sdate mid bid sqty sdiscount w
  = Ok (true, msg_sale_added (bprice b * sqty - sdiscount))
      (World
         (Tables (member (db w))
            (<[bid := BookRow (btitle b) (bprice b) (bstock b - sqty)]> (book (db w)))
            (<[next_sid (db w) :=
                 SaleRow sdate mid bid sqty sdiscount (bprice b * sqty - sdiscount)]>
               (sale (db w)))
            (next_sid (db w)))
         None (drop 5 (faults w)) (stdin w) (stdout w)).
Proof.
  intros Hm Hb Hq Hf H1 H2 H3 H4 H5.
  destruct w as [t x fs i o]. simpl in *.
  pose proof (quiet_one _ _ Hf) as Q1. apply quiet_tail in Hf.
  pose proof (quiet_one _ _ Hf) as Q2. apply quiet_tail in Hf.
  pose proof (quiet_one _ _ Hf) as Q3. apply quiet_tail in Hf.
  pose proof (quiet_one _ _ Hf) as Q4. apply quiet_tail in Hf.
  unfold add_sale, try_sqlite.
  erewrite bind_ok by (by apply select_member_ok).
  rewrite Hm. simpl.
  erewrite bind_ok by (by apply select_book_ok).
  rewrite Hb. simpl.
  destruct (Z.ltb_spec (bstock b) sqty) as [?|_]; [lia|].
  erewrite bind_ok by (by apply insert_sale_ok).
  erewrite bind_ok by (by eapply update_book_stock_ok).
  erewrite bind_ok by (by apply commit_ok).
  unfold ret, with_book. simpl. do 3 f_equal.
  by destruct fs as [|? [|? [|? [|? [|? ?]]]]].
Qed.

(** C1 (amended): with an existing member, an existing book and a quantity
    not above the stock, and as long as the quantity, the discount, the total
    and the new stock fit the engine's signed 64-bit integers and the engine
    reports no error, [add_sale] succeeds; it inserts exactly one sale row,
    under a fresh id, whose total is price × quantity − discount with no
    floor at zero; the book's stock becomes stock − quantity; nothing else
    changes, and the transaction is committed. *)
Theorem add_sale_records_sale (w : world) (sdate mid bid : string)
    (sqty sdiscount : Z) (m : member_row) (b : book_row) :
  member (db w) !! mid = Some m →
  book (db w) !! bid = Some b →
  sqty ≤ bstock b →
  quiet 5 (faults w) = true →
  in_int64 sqty = true → in_int64 sdiscount = true →
  in_int64 (bprice b * sqty - sdiscount) = true →
  in_int64 (bstock b - sqty) = true →
  next_sid (db w) ≤ int64_max →
  let total := bprice b * sqty - sdiscount in
  ∃ w',
    add_sale sdate mid bid sqty sdiscount w = Ok (true, msg_sale_added total) w' ∧
    sale (db w) !! next_sid (db w) = None ∧
    sale (db w') =
      <[next_sid (db w) := SaleRow sdate mid bid sqty sdiscount total]>
        (sale (db w)) ∧
    book (db w') =
      <[bid := BookRow (btitle b) (bprice b) (bstock b - sqty)]> (book (db w)) ∧
    member (db w') = member (db w) ∧
    txn w' = None ∧ same_console w w'.
Proof.
  intros Hm Hb Hq Hf H1 H2 H3 H4 H5 total.
  eexists. split; [by eapply add_sale_runs|].
  simpl. split; [apply next_sid_fresh|done].
Qed.

(** C9 (amended): [add_sale] asks for neither a positive quantity nor a
    non-negative discount.  Whatever their signs, under the conditions of
    [add_sale_records_sale] the sale is recorded and the stock becomes
    stock − quantity: unchanged for quantity 0, larger for a negative one. *)
Theorem add_sale_any_sign (w : world) (sdate mid bid : string)
    (sqty sdiscount : Z) (m : member_row) (b : book_row) :
  member (db w) !! mid = Some m →
  book (db w) !! bid = Some b →
  sqty ≤ bstock b →
  quiet 5 (faults w) = true →
  in_int64 sqty = true → in_int64 sdiscount = true →
  in_int64 (bprice b * sqty - sdiscount) = true →
  in_int64 (bstock b - sqty) = true →
  next_sid (db w) ≤ int64_max →
  ∃ w' b',
    add_sale sdate mid bid sqty sdiscount w
    = Ok (true, msg_sale_added (bprice b * sqty - sdiscount)) w' ∧
    sale (db w') !! next_sid (db w)
    = Some (SaleRow sdate mid bid sqty sdiscount (bprice b * sqty - sdiscount)) ∧
    book (db w') !! bid = Some b' ∧
    bstock b' = bstock b - sqty ∧
    (sqty = 0 → bstock b' = bstock b) ∧
    (sqty < 0 → bstock b < bstock b').
Proof.
  intros Hm Hb Hq Hf H1 H2 H3 H4 H5.
  eexists _, (BookRow (btitle b) (bprice b) (bstock b - sqty)).
  split; [by eapply add_sale_runs|].
  simpl. rewrite !lookup_insert_eq. simpl.
  repeat split; lia.
Qed.

(** C2: a call that fails validation (unknown member; known member but
    unknown book; both known but quantity above the stock) answers [false]
    with the text of that check, the stock text showing the current stock,
    and leaves the tables, the pending transaction and the console as they
    were.  The three texts differ from one another. *)
Theorem add_sale_rejects_without_writing (w : world) (sdate mid bid : string)
    (sqty sdiscount : Z) (msg : string) :
  validation_failure (db w) mid bid sqty msg →
  quiet 2 (faults w) = true →
  ∃ w',
    add_sale sdate mid bid sqty sdiscount w = Ok (false, msg) w' ∧
    db w' = db w ∧ txn w' = txn w ∧ same_console w w' ∧
    distinct_messages mid bid.
Proof.
  intros Hv Hf. destruct w as [t x fs i o]. simpl in *.
  pose proof (quiet_one _ _ Hf) as Q1. apply quiet_tail in Hf.
  assert (distinct_messages mid bid) as Hd.
  { split; [|intros stock; split];
      unfold msg_invalid_member, msg_invalid_book, msg_insufficient_stock;
      simpl; discriminate. }
  unfold add_sale, try_sqlite.
  erewrite bind_ok by (by apply select_member_ok).
  destruct Hv as [Hm|m Hm Hb|m b Hm Hb Hlt]; rewrite Hm; simpl.
  - by eexists.
  - erewrite bind_ok by (by apply select_book_ok).
    rewrite Hb. simpl. by eexists.
  - erewrite bind_ok by (by apply select_book_ok).
    rewrite Hb. simpl.
    destruct (Z.ltb_spec (bstock b) sqty) as [_|?]; [|lia].
    by eexists.
Qed.


(** *** [add_sale] on the seeded tables *)

(** [initialize_db] does not commit: with a healthy engine the first run
    shows the seed rows while the last commit is still the empty file. *)
Lemma seeded_is_pending (today : string) (lines : list string) :
  txn (seeded today [] lines) = Some empty_tables ∧
  size (member (db (seeded today [] lines))) = 3%nat ∧
  size (book (db (seeded today [] lines))) = 3%nat ∧
  size (sale (db (seeded today [] lines))) = 4%nat.
Proof. by vm_compute. Qed.

(** Two units of B001 with a discount of 2000: the total is −800 and the
    stock goes from 50 to 48. *)
Lemma add_sale_records_sale_witness :
  ∃ w',
    add_sale "2024-01-01" "M001" "B001" 2 2000 first_run
    = Ok (true, msg_sale_added (-800)) w' ∧
    sale (db first_run) !! next_sid (db first_run) = None ∧
    sale (db w') =
      <[next_sid (db first_run) := SaleRow "2024-01-01" "M001" "B001" 2 2000 (-800)]>
        (sale (db first_run)) ∧
    book (db w') =
      <["B001" := BookRow "Python Programming" 600 48]> (book (db first_run)) ∧
    member (db w') = member (db first_run) ∧
    txn w' = None ∧ same_console first_run w'.
Proof.
  apply (add_sale_records_sale first_run "2024-01-01" "M001" "B001" 2 2000
           alice python_book); by vm_compute.
Defined.

(** Counterexample to C1 as stated: member M001 and book B001 exist,
    1 ≤ 50 and the engine reports nothing, yet with a discount of 10^30 the
    call does not succeed.  The discount and the total cannot be bound to
    the INSERT, [OverflowError] is raised, and [add_sale] only catches
    [sqlite3.Error]. *)
Lemma add_sale_huge_discount_raises :
  member (db first_run) !! "M001" = Some alice ∧
  book (db first_run) !! "B001" = Some python_book ∧
  1 ≤ bstock python_book ∧
  quiet 5 (faults first_run) = true ∧
  add_sale "2024-01-01" "M001" "B001" 1 (10 ^ 30) first_run
  = Raise OverflowError first_run ∧
  ¬ ∃ msg w', add_sale "2024-01-01" "M001" "B001" 1 (10 ^ 30) first_run
              = Ok (true, msg) w'.
Proof.
  assert (add_sale "2024-01-01" "M001" "B001" 1 (10 ^ 30) first_run
          = Raise OverflowError first_run) as E by (by vm_compute).
  do 4 (split; [by vm_compute|]).
  split; [exact E|].
  intros (msg & w' & H). rewrite E in H. discriminate.
Qed.

(** Minus three units with a discount of −5: accepted, and the stock of
    B001 rises from 50 to 53. *)
Lemma add_sale_any_sign_witness :
  ∃ w' b',
    add_sale "2024-01-01" "M001" "B001" (-3) (-5) first_run
    = Ok (true, msg_sale_added (600 * -3 - -5)) w' ∧
    sale (db w') !! next_sid (db first_run)
    = Some (SaleRow "2024-01-01" "M001" "B001" (-3) (-5) (600 * -3 - -5)) ∧
    book (db w') !! "B001" = Some b' ∧
    bstock b' = 50 - -3 ∧
    (-3 = 0 → bstock b' = 50) ∧
    (-3 < 0 → 50 < bstock b').
Proof.
  apply (add_sale_any_sign first_run "2024-01-01" "M001" "B001" (-3) (-5)
           alice python_book); by vm_compute.
Defined.

(** Counterexample to C9 as stated, for a quantity below the stock that the
    engine cannot store: −10^19 ≤ 50, yet the call raises [OverflowError]
    instead of succeeding, and writes nothing. *)
Lemma add_sale_huge_negative_quantity_raises :
  member (db first_run) !! "M001" = Some alice ∧
  book (db first_run) !! "B001" = Some python_book ∧
  - 10 ^ 19 ≤ bstock python_book ∧
  add_sale "2024-01-01" "M001" "B001" (- 10 ^ 19) 0 first_run
  = Raise OverflowError first_run ∧
  ¬ ∃ msg w', add_sale "2024-01-01" "M001" "B001" (- 10 ^ 19) 0 first_run
              = Ok (true, msg) w'.
Proof.
  assert (add_sale "2024-01-01" "M001" "B001" (- 10 ^ 19) 0 first_run
          = Raise OverflowError first_run) as E by (by vm_compute).
  do 3 (split; [by vm_compute|]).
  split; [exact E|].
  intros (msg & w' & H). rewrite E in H. discriminate.
Qed.

(** A thousand units of B001 when fifty are in stock. *)
Lemma add_sale_rejects_without_writing_witness :
  ∃ w',
    add_sale "2024-01-01" "M001" "B001" 1000 0 first_run
    = Ok (false, msg_insufficient_stock 50) w' ∧
    db w' = db first_run ∧ txn w' = txn first_run ∧ same_console first_run w' ∧
    distinct_messages "M001" "B001".
Proof.
  apply (add_sale_rejects_without_writing first_run "2024-01-01" "M001" "B001"
           1000 0 (msg_insufficient_stock (bstock python_book))).
  - apply (short_stock _ _ _ _ alice python_book); by vm_compute.
  - by vm_compute.
Defined.



(** ** [update_sale] and [delete_sale] *)

Lemma row_id_stored (t : tables) (k : Z) (s : sale_row) :
  row_ids_stored t = true → sale t !! k = Some s → in_int64 k = true.
Proof.
  unfold row_ids_stored. rewrite forallb_forall. intros H Hs.
  apply (H (k, s)), list_elem_of_In. by apply elem_of_map_to_list.
Qed.

Lemma print_ok t x fs i o s :
  print s (World t x fs i o) = Ok tt (World t x fs i (o ++ [s])).
Proof. done. Qed.

Lemma select_details_ok t x fs i o sale_id :
  in_int64 sale_id = true →
  quiet 1 fs = true →
  select_details sale_id (World t x fs i o)
  = Ok (s ← sale t !! sale_id; b ← book t !! sale_bid s; Some (bprice b, sqty s))
      (World t x (tail fs) i o).
Proof.
  intros H1 Hq. unfold select_details.
  erewrite bind_ok by (by apply bind_int_ok).
  by erewrite bind_ok by (by apply engine_step_ok).
Qed.

Lemma update_sale_row_ok t x fs i o newdiscount nstotal sale_id :
  in_int64 newdiscount = true → in_int64 nstotal = true →
  in_int64 sale_id = true →
  quiet 1 fs = true →
  update_sale_row newdiscount nstotal sale_id (World t x fs i o)
  = Ok tt (World
             (with_sale
                (alter (λ s, SaleRow (sdate s) (sale_mid s) (sale_bid s) (sqty s)
                               newdiscount nstotal) sale_id) t)
             (begun t x) (tail fs) i o).
Proof.
  intros H1 H2 H3 Hq. unfold update_sale_row.
  erewrite bind_ok by apply begin_dml_ok.
  erewrite bind_ok by (by apply bind_int_ok).
  erewrite bind_ok by (by apply bind_int_ok).
  erewrite bind_ok by (by apply bind_int_ok).
  by erewrite bind_ok by (by apply engine_step_ok).
Qed.

Lemma delete_sale_row_ok t x fs i o sale_id :
  in_int64 sale_id = true →
  quiet 1 fs = true →
  delete_sale_row sale_id (World t x fs i o)
  = Ok tt (World (with_sale (delete sale_id) t) (begun t x) (tail fs) i o).
Proof.
  intros H1 Hq. unfold delete_sale_row.
  erewrite bind_ok by apply begin_dml_ok.
  erewrite bind_ok by (by apply bind_int_ok).
  by erewrite bind_ok by (by apply engine_step_ok).
Qed.

(** C3 (amended): for a sale whose stored total is price × quantity − old
    discount, and a new discount that, like the recomputed total, fits the
    engine's signed 64-bit integers, [update_discount] (with an engine that
    reports no error) recomputes the total from the sale's own quantity and
    its book's price: the new total is old total + old discount − new
    discount, only the discount and total of that sale change, and the
    update is committed. *)
Theorem update_discount_recomputes (w : world) (sale_id newdiscount : Z)
    (s : sale_row) (b : book_row) :
  sale (db w) !! sale_id = Some s →
  book (db w) !! sale_bid s = Some b →
  stotal s = bprice b * sqty s - sdiscount s →
  row_ids_stored (db w) = true →
  quiet 3 (faults w) = true →
  in_int64 newdiscount = true →
  in_int64 (bprice b * sqty s - newdiscount) = true →
  ∃ w',
    update_discount sale_id newdiscount w = Ok tt w' ∧
    sale (db w') = <[sale_id := rediscounted s (bprice b) newdiscount]> (sale (db w)) ∧
    stotal (rediscounted s (bprice b) newdiscount)
    = stotal s + sdiscount s - newdiscount ∧
    book (db w') = book (db w) ∧
    member (db w') = member (db w) ∧
    sale_seq (db w') = sale_seq (db w) ∧
    txn w' = None ∧
    stdin w' = stdin w ∧
    stdout w' = stdout w ++
      [msg_sale_updated sale_id (bprice b * sqty s - newdiscount)].
Proof.
  intros Hs Hb Ht Hids Hf H1 H2.
  destruct w as [t x fs i o]. simpl in *.
  pose proof (row_id_stored _ _ _ Hids Hs) as H0.
  pose proof (quiet_one _ _ Hf) as Q1. apply quiet_tail in Hf.
  pose proof (quiet_one _ _ Hf) as Q2. apply quiet_tail in Hf.
  eexists. split.
  - unfold update_discount.
    erewrite bind_ok by (by apply select_details_ok).
    rewrite Hs. simpl. rewrite Hb. simpl.
    erewrite bind_ok by (by apply update_sale_row_ok).
    erewrite bind_ok by (by apply commit_ok).
    apply print_ok.
  - simpl. rewrite alter_alt, Hs. unfold rediscounted. simpl.
    repeat split; try done. lia.
Qed.

(** C5: for an existing sale id, the deletion of lines 290 to 292 (with an
    engine that reports no error) removes the row with that id and no other
    sale row, and leaves every book row, so every stock, and every member row
    as they were; the deletion is committed. *)
Theorem delete_sale_removes_one_row (w : world) (sale_id : Z) (s : sale_row) :
  sale (db w) !! sale_id = Some s →
  row_ids_stored (db w) = true →
  quiet 2 (faults w) = true →
  ∃ w',
    delete_sale_by_id sale_id w = Ok tt w' ∧
    sale (db w') = delete sale_id (sale (db w)) ∧
    sale (db w') !! sale_id = None ∧
    (∀ k, k ≠ sale_id → sale (db w') !! k = sale (db w) !! k) ∧
    S (size (sale (db w'))) = size (sale (db w)) ∧
    book (db w') = book (db w) ∧
    member (db w') = member (db w) ∧
    txn w' = None.
Proof.
  intros Hs Hids Hf.
  destruct w as [t x fs i o]. simpl in *.
  pose proof (row_id_stored _ _ _ Hids Hs) as H0.
  pose proof (quiet_one _ _ Hf) as Q1. apply quiet_tail in Hf.
  eexists. split.
  - unfold delete_sale_by_id.
    erewrite bind_ok by (by apply delete_sale_row_ok).
    erewrite bind_ok by (by apply commit_ok).
    apply print_ok.
  - simpl. split; [done|]. split; [apply lookup_delete_eq|].
    split; [intros k Hk; by apply lookup_delete_ne|].
    split; [|done].
    rewrite <- (insert_delete_id (sale t) sale_id s) at 2 by done.
    rewrite map_size_insert_None; [done|apply lookup_delete_eq].
Qed.

(** The first seeded sale with its discount raised from 100 to 200: the
    total goes from 1100 to 1000. *)
Lemma update_discount_recomputes_witness :
  ∃ w',
    update_discount 1 200 first_run = Ok tt w' ∧
    sale (db w') = <[1 := rediscounted first_sale 600 200]> (sale (db first_run)) ∧
    stotal (rediscounted first_sale 600 200) = 1100 + 100 - 200 ∧
    book (db w') = book (db first_run) ∧
    member (db w') = member (db first_run) ∧
    sale_seq (db w') = sale_seq (db first_run) ∧
    txn w' = None ∧
    stdin w' = stdin first_run ∧
    stdout w' = stdout first_run ++ [msg_sale_updated 1 (600 * 2 - 200)].
Proof.
  apply (update_discount_recomputes first_run 1 200 first_sale python_book);
    by vm_compute.
Defined.

(** Counterexample to C3 as stated: the first seeded sale is consistent
    (1100 = 600 × 2 − 100), but a new discount of 10^30, which the prompt of
    [update_sale] accepts, is not stored.  Binding it to the UPDATE raises
    [OverflowError], and no total is recomputed. *)
Lemma update_discount_huge_discount_raises :
  sale (db first_run) !! 1 = Some first_sale ∧
  book (db first_run) !! sale_bid first_sale = Some python_book ∧
  stotal first_sale = bprice python_book * sqty first_sale - sdiscount first_sale ∧
  update_discount 1 (10 ^ 30) first_run = Raise OverflowError first_run ∧
  sale (db (world_of (update_discount 1 (10 ^ 30) first_run))) !! 1
  = Some first_sale.
Proof. do 4 (split; [by vm_compute|]). by vm_compute. Qed.

(** The first seeded sale deleted: three sales are left, and the stock of
    its book is not given back. *)
Lemma delete_sale_removes_one_row_witness :
  ∃ w',
    delete_sale_by_id 1 first_run = Ok tt w' ∧
    sale (db w') = delete 1 (sale (db first_run)) ∧
    sale (db w') !! 1 = None ∧
    (∀ k, k ≠ 1 → sale (db w') !! k = sale (db first_run) !! k) ∧
    S (size (sale (db w'))) = size (sale (db first_run)) ∧
    book (db w') = book (db first_run) ∧
    member (db w') = member (db first_run) ∧
    txn w' = None.
Proof.
  apply (delete_sale_removes_one_row first_run 1 first_sale); by vm_compute.
Defined.

(** ** The date check of the menu *)

Lemma input_ok t x fs l ls o prompt :
  input prompt (World t x fs (l :: ls) o) = Ok l (World t x fs ls (o ++ [prompt])).
Proof. done. Qed.





(** *** The other guards of choice 1

    The menu, not [add_sale], turns down a quantity that is not positive and
    a discount that is negative: [add_sale] is not called, the engine is not
    asked anything and the tables stay as they were. *)

(** X12: a quantity that is an integer and not positive makes choice 1
    print the positive-integer text and return to the menu: the discount is
    not asked, [add_sale] is not called and nothing is written. *)
Theorem menu_rejects_nonpositive_quantity (py_int : string → option Z)
    (w : world) (date mid bid qty_str : string) (rest : list string) (qty : Z) :
  stdin w = date :: mid :: bid :: qty_str :: rest →
  checkdate date = true →
  py_int qty_str = Some qty →
  qty ≤ 0 →
  menu_add_sale py_int w
  = Ok tt (World (db w) (txn w) (faults w) rest
             (stdout w ++ ["請輸入銷售日期 (YYYY-MM-DD): "; "請輸入會員編號：";
                           "請輸入書籍編號："; "請輸入購買數量：";
                           "=> 錯誤：數量必須為正整數，請重新輸入"])).
Proof.
  intros Hin Hd Hp Hq. destruct w as [t x fs i o]. simpl in *. subst i.
  unfold menu_add_sale.
  erewrite bind_ok by apply input_ok. rewrite Hd. simpl.
  erewrite bind_ok by apply input_ok.
  erewrite bind_ok by apply input_ok.
  unfold try_value.
  erewrite bind_ok by apply input_ok.
  unfold int_of at 1. rewrite Hp.
  erewrite bind_ok by reflexivity.
  destruct (Z.leb_spec qty 0) as [_|?]; [|lia].
  rewrite print_ok. by rewrite <- !app_assoc.
Qed.

(** X13: a negative discount, after a quantity that was accepted, makes
    choice 1 print the negative-discount text and return to the menu:
    [add_sale] is not called and nothing is written. *)
Theorem menu_rejects_negative_discount (py_int : string → option Z)
    (w : world) (date mid bid qty_str discount_str : string)
    (rest : list string) (qty discount : Z) :
  stdin w = date :: mid :: bid :: qty_str :: discount_str :: rest →
  checkdate date = true →
  py_int qty_str = Some qty →
  0 < qty →
  py_int discount_str = Some discount →
  discount < 0 →
  menu_add_sale py_int w
  = Ok tt (World (db w) (txn w) (faults w) rest
             (stdout w ++ ["請輸入銷售日期 (YYYY-MM-DD): "; "請輸入會員編號：";
                           "請輸入書籍編號："; "請輸入購買數量：";
                           "請輸入折扣金額：";
                           "=> 錯誤：折扣金額不能為負數，請重新輸入"])).
Proof.
  intros Hin Hd Hp Hq Hp' Hd'. destruct w as [t x fs i o]. simpl in *. subst i.
  unfold menu_add_sale.
  erewrite bind_ok by apply input_ok. rewrite Hd. simpl.
  erewrite bind_ok by apply input_ok.
  erewrite bind_ok by apply input_ok.
  unfold try_value.
  erewrite bind_ok by apply input_ok.
  unfold int_of at 1. rewrite Hp.
  erewrite bind_ok by reflexivity.
  destruct (Z.leb_spec qty 0) as [?|_]; [lia|].
  erewrite bind_ok by apply input_ok.
  unfold int_of at 1. rewrite Hp'.
  erewrite bind_ok by reflexivity.
  destruct (Z.ltb_spec discount 0) as [_|?]; [|lia].
  rewrite print_ok. by rewrite <- !app_assoc.
Qed.

(** With a well-formed date, a positive quantity and a non-negative
    discount, choice 1 calls [add_sale] and prints its text. *)
Lemma menu_calls_add_sale (py_int : string → option Z)
    (w : world) (date mid bid qty_str discount_str : string)
    (rest : list string) (qty discount : Z) :
  stdin w = date :: mid :: bid :: qty_str :: discount_str :: rest →
  checkdate date = true →
  py_int qty_str = Some qty →
  0 < qty →
  py_int discount_str = Some discount →
  0 ≤ discount →
  menu_add_sale py_int w
  = try_value
      (r <- add_sale date mid bid qty discount ;; print ("=> " +:+ r.2))
      (print "=> 錯誤：數量或折扣必須為整數，請重新輸入")
      (World (db w) (txn w) (faults w) rest
         (stdout w ++ ["請輸入銷售日期 (YYYY-MM-DD): "; "請輸入會員編號：";
                       "請輸入書籍編號："; "請輸入購買數量："; "請輸入折扣金額："])).
Proof.
  intros Hin Hd Hp Hq Hp' Hd'. destruct w as [t x fs i o]. simpl in *. subst i.
  unfold menu_add_sale.
  erewrite bind_ok by apply input_ok. rewrite Hd. simpl.
  erewrite bind_ok by apply input_ok.
  erewrite bind_ok by apply input_ok.
  unfold try_value.
  erewrite bind_ok by apply input_ok.
  unfold int_of at 1. rewrite Hp.
  erewrite bind_ok by reflexivity.
  destruct (Z.leb_spec qty 0) as [?|_]; [lia|].
  erewrite bind_ok by apply input_ok.
  unfold int_of at 1. rewrite Hp'.
  erewrite bind_ok by reflexivity.
  destruct (Z.ltb_spec discount 0) as [?|_]; [lia|].
  by rewrite <- !app_assoc.
Qed.

(** ** The sales report *)

Lemma insert_by_sid_perm (x : Z * sale_row) (l : list (Z * sale_row)) :
  insert_by_sid x l ≡ₚ x :: l.
Proof.
  induction l as [|y l IH]; simpl; [done|].
  destruct (x.1 <=? y.1); [done|].
  rewrite IH. apply Permutation_swap.
Qed.

Lemma rows_by_sid_perm (s : gmap Z sale_row) : rows_by_sid s ≡ₚ map_to_list s.
Proof.
  unfold rows_by_sid. induction (map_to_list s) as [|x l IH]; simpl; [done|].
  by rewrite insert_by_sid_perm, IH.
Qed.

Lemma elem_of_rows_by_sid (s : gmap Z sale_row) (k : Z) (r : sale_row) :
  (k, r) ∈ rows_by_sid s ↔ s !! k = Some r.
Proof. rewrite rows_by_sid_perm. apply elem_of_map_to_list. Qed.

(** ORDER BY s.sid: the rows come by ascending sale id. *)
Lemma insert_by_sid_sorted (x : Z * sale_row) (l : list (Z * sale_row)) :
  StronglySorted (λ a b, a.1 ≤ b.1) l →
  StronglySorted (λ a b, a.1 ≤ b.1) (insert_by_sid x l).
Proof.
  induction 1 as [|y l Hs IH Hy]; simpl.
  - repeat constructor.
  - destruct (Z.leb_spec x.1 y.1) as [Hle|Hgt].
    + constructor; [by constructor|].
      constructor; [done|].
      eapply Forall_impl; [exact Hy|]. simpl. intros; lia.
    + constructor; [done|].
      rewrite insert_by_sid_perm. constructor; [lia|done].
Qed.

Lemma rows_by_sid_sorted (s : gmap Z sale_row) :
  StronglySorted (λ a b, a.1 ≤ b.1) (rows_by_sid s).
Proof.
  unfold rows_by_sid. induction (map_to_list s) as [|x l IH]; simpl.
  - constructor.
  - by apply insert_by_sid_sorted.
Qed.

(** The rows of the report are the joins of the sales that have both their
    member and their book. *)
Lemma elem_of_report_rows (t : tables) (r : report_row) :
  r ∈ report_rows t ↔
  ∃ s m b,
    sale t !! r_sid r = Some s ∧
    member t !! sale_mid s = Some m ∧
    book t !! sale_bid s = Some b ∧
    r = ReportRow (r_sid r) (sdate s) (mname m) (btitle b) (bprice b)
          (sqty s) (sdiscount s) (stotal s).
Proof.
  unfold report_rows. rewrite list_elem_of_omap. split.
  - intros ([k s] & Hin & Hj). apply elem_of_rows_by_sid in Hin.
    unfold join_member_book in Hj. simpl in Hj.
    destruct (member t !! sale_mid s) as [m|] eqn:Hm; [|done].
    destruct (book t !! sale_bid s) as [b|] eqn:Hb; [|done].
    injection Hj as <-. simpl. by exists s, m, b.
  - intros (s & m & b & Hs & Hm & Hb & ->). simpl in *.
    exists (r_sid r, s). split; [by apply elem_of_rows_by_sid|].
    unfold join_member_book. simpl. by rewrite Hm, Hb.
Qed.

Lemma executemany_print t x fs i o (l : list string) :
  executemany print l (World t x fs i o) = Ok tt (World t x fs i (o ++ l)).
Proof.
  revert o. induction l as [|s l IH]; intros o; simpl.
  - unfold ret. by rewrite app_nil_r.
  - erewrite bind_ok by apply print_ok.
    rewrite IH. by rewrite <- app_assoc.
Qed.

Lemma executemany_blocks t x fs i o (rs : list report_row) :
  executemany (λ r, executemany print (report_block r)) rs (World t x fs i o)
  = Ok tt (World t x fs i (o ++ List.concat (map report_block rs))).
Proof.
  revert o. induction rs as [|r rs IH]; intros o.
  - simpl. unfold ret. by rewrite app_nil_r.
  - cbn [executemany map List.concat].
    erewrite bind_ok by apply executemany_print.
    rewrite IH. by rewrite <- app_assoc.
Qed.

Lemma select_report_ok t x fs i o :
  quiet 1 fs = true →
  select_report (World t x fs i o)
  = Ok (report_rows t) (World t x (tail fs) i o).
Proof.
  intros Hq. unfold select_report.
  by erewrite bind_ok by (by apply engine_step_ok).
Qed.

Lemma print_sale_report_ok t x fs i o :
  quiet 1 fs = true →
  print_sale_report (World t x fs i o)
  = Ok tt (World t x (tail fs) i (o ++ report_output t)).
Proof.
  intros Hq. unfold print_sale_report.
  erewrite bind_ok by (by apply select_report_ok).
  unfold report_output.
  destruct (report_rows t) as [|r rs].
  - apply print_ok.
  - erewrite bind_ok by apply print_ok.
    rewrite executemany_blocks. by rewrite <- app_assoc.
Qed.

(** C10: the report joins each sale with its member and its book, so a sale
    whose member or book has no row is in no row of the report, and the
    report prints nothing for it: the output is the header and the blocks of
    the joined rows, or the "no records" notice when there is no joined row,
    which is the case when every sale is such an orphan. *)
Theorem report_omits_orphans (w : world) :
  quiet 1 (faults w) = true →
  ∃ w',
    print_sale_report w = Ok tt w' ∧
    db w' = db w ∧ txn w' = txn w ∧ stdin w' = stdin w ∧
    stdout w' = stdout w ++ report_output (db w) ∧
    (∀ sid s, sale (db w) !! sid = Some s → orphan (db w) s →
       ∀ r, r ∈ report_rows (db w) → r_sid r ≠ sid) ∧
    (∀ sid s, sale (db w) !! sid = Some s → ¬ orphan (db w) s →
       ∃ r, r ∈ report_rows (db w) ∧ r_sid r = sid) ∧
    ((∀ sid s, sale (db w) !! sid = Some s → orphan (db w) s) →
       stdout w' = stdout w ++ [msg_no_sales]).
Proof.
  intros Hq. destruct w as [t x fs i o]. simpl in *.
  eexists. split; [by apply print_sale_report_ok|]. simpl.
  do 4 (split; [done|]).
  assert (∀ sid s, sale t !! sid = Some s → orphan t s →
            ∀ r, r ∈ report_rows t → r_sid r ≠ sid) as Homit.
  { intros sid s Hs Ho r Hr <-.
    apply elem_of_report_rows in Hr as (s' & m & b & Hs' & Hm & Hb & _).
    rewrite Hs in Hs'. injection Hs' as <-.
    destruct Ho as [Ho|Ho]; congruence. }
  split; [exact Homit|]. split.
  - intros sid s Hs Ho.
    destruct (member t !! sale_mid s) as [m|] eqn:Hm; [|by destruct Ho; left].
    destruct (book t !! sale_bid s) as [b|] eqn:Hb; [|by destruct Ho; right].
    eexists (ReportRow sid _ _ _ _ _ _ _). split; [|done].
    apply elem_of_report_rows. by exists s, m, b.
  - intros Hall. unfold report_output.
    destruct (report_rows t) as [|r rs] eqn:E; [done|].
    assert (r ∈ r :: rs) as Hr by left.
    pose proof Hr as Hr'. rewrite <- E in Hr'.
    apply elem_of_report_rows in Hr' as (s & m & b & Hs & _).
    by destruct (Homit _ _ Hs (Hall _ _ Hs) r Hr).
Qed.

(** One sale, whose member M404 does not exist: the report prints the
    notice and nothing about sale 1. *)
Lemma report_omits_orphans_witness :
  ∃ w',
    print_sale_report orphan_world = Ok tt w' ∧
    db w' = db orphan_world ∧ txn w' = txn orphan_world ∧
    stdin w' = stdin orphan_world ∧
    stdout w' = stdout orphan_world ++ report_output (db orphan_world) ∧
    (∀ sid s, sale (db orphan_world) !! sid = Some s → orphan (db orphan_world) s →
       ∀ r, r ∈ report_rows (db orphan_world) → r_sid r ≠ sid) ∧
    (∀ sid s, sale (db orphan_world) !! sid = Some s → ¬ orphan (db orphan_world) s →
       ∃ r, r ∈ report_rows (db orphan_world) ∧ r_sid r = sid) ∧
    ((∀ sid s, sale (db orphan_world) !! sid = Some s → orphan (db orphan_world) s) →
       stdout w' = stdout orphan_world ++ [msg_no_sales]).
Proof. apply (report_omits_orphans orphan_world). by vm_compute. Defined.

Example orphan_report_is_the_notice :
  sale orphan_tables !! 1 = Some (SaleRow "2024-01-01" "M404" "B001" 1 0 600) ∧
  member orphan_tables !! "M404" = None ∧
  stdout (world_of (print_sale_report orphan_world)) = [msg_no_sales].
Proof. do 2 (split; [by vm_compute|]). by vm_compute. Qed.

(** ** Stock levels *)

Lemma steady_refl (w : world) : steady w w.
Proof. split; [done|]. intros t H. by left. Qed.

Lemma steady_trans (w1 w2 w3 : world) :
  steady w1 w2 → steady w2 w3 → steady w1 w3.
Proof.
  intros [B12 T12] [B23 T23]. split; [congruence|].
  intros t H. destruct (T23 t H) as [H2|H2].
  - by apply T12.
  - right. congruence.
Qed.

Lemma steady_invariant (w w' : world) :
  steady w w' → stock_invariant w → stock_invariant w'.
Proof.
  intros [B T] [H1 H2]. split.
  - intros bid b. rewrite B. apply H1.
  - intros t Ht bid b. destruct (T t Ht) as [Hx|Hx].
    + by apply H2.
    + rewrite Hx. apply H1.
Qed.

Lemma steady_ret {A} (a : A) : steady_op (ret a).
Proof. intros w. apply steady_refl. Qed.

Lemma steady_raise {A} (e : exn) : steady_op (@raise A e).
Proof. intros w. apply steady_refl. Qed.

Lemma steady_bind {A B} (m : M A) (k : A → M B) :
  steady_op m → (∀ a, steady_op (k a)) → steady_op (bind m k).
Proof.
  intros Hm Hk w. unfold bind. specialize (Hm w).
  destruct (m w) as [a w'|e w']; simpl in *; [|done].
  eapply steady_trans; [exact Hm|apply Hk].
Qed.

Lemma steady_try_value {A} (body handler : M A) :
  steady_op body → steady_op handler → steady_op (try_value body handler).
Proof.
  intros Hb Hh w. unfold try_value. specialize (Hb w).
  destruct (body w) as [a w'|[] w']; simpl in *; try done.
  eapply steady_trans; [exact Hb|apply Hh].
Qed.

Lemma steady_executemany {A} (stmt : A → M unit) (rows : list A) :
  (∀ r, steady_op (stmt r)) → steady_op (executemany stmt rows).
Proof.
  intros H. induction rows as [|r rows IH]; simpl.
  - apply steady_ret.
  - apply steady_bind; [apply H|by intros _].
Qed.

(** The primitives that do not write the book table. *)
Ltac steady_prim :=
  intros [t x fs i o]; split; simpl; [|intros t' Ht'];
  repeat (case_match; simpl in *; simplify_eq);
  cbn in *; simplify_eq;
  first [done | left; done | right; done].

Lemma steady_engine_step : steady_op engine_step.
Proof. unfold engine_step. steady_prim. Qed.

Lemma steady_bind_int (z : Z) : steady_op (bind_int z).
Proof. unfold bind_int, ret, raise. steady_prim. Qed.

Lemma steady_begin_dml : steady_op begin_dml.
Proof. unfold begin_dml. steady_prim. Qed.

Lemma steady_commit : steady_op commit.
Proof. unfold commit, bind, engine_step. steady_prim. Qed.

Lemma steady_print (s : string) : steady_op (print s).
Proof. unfold print. steady_prim. Qed.

Lemma steady_input (prompt : string) : steady_op (input prompt).
Proof. unfold input. steady_prim. Qed.

Lemma steady_turns : steady_op turns.
Proof. unfold turns. steady_prim. Qed.

Lemma steady_select_member (mid : string) : steady_op (select_member mid).
Proof. unfold select_member, bind, engine_step, get_db, ret. steady_prim. Qed.

Lemma steady_select_book (bid : string) : steady_op (select_book bid).
Proof. unfold select_book, bind, engine_step, get_db, ret. steady_prim. Qed.

Lemma steady_select_sale (sale_id : Z) : steady_op (select_sale sale_id).
Proof.
  unfold select_sale, bind, bind_int, engine_step, get_db, ret, raise.
  steady_prim.
Qed.

Lemma steady_select_details (sale_id : Z) : steady_op (select_details sale_id).
Proof.
  unfold select_details, bind, bind_int, engine_step, get_db, ret, raise.
  steady_prim.
Qed.

Lemma steady_select_report : steady_op select_report.
Proof. unfold select_report, bind, engine_step, get_db, ret. steady_prim. Qed.

Lemma steady_select_update_list : steady_op select_update_list.
Proof. unfold select_update_list, bind, engine_step, get_db, ret. steady_prim. Qed.

Lemma steady_insert_sale (r : sale_row) : steady_op (insert_sale r).
Proof.
  unfold insert_sale, bind, begin_dml, bind_int, engine_step, get_db, put_db,
    ret, raise.
  steady_prim.
Qed.

Lemma steady_update_sale_row (newdiscount nstotal sale_id : Z) :
  steady_op (update_sale_row newdiscount nstotal sale_id).
Proof.
  unfold update_sale_row, bind, begin_dml, bind_int, engine_step, get_db,
    put_db, ret, raise.
  steady_prim.
Qed.

Lemma steady_delete_sale_row (sale_id : Z) : steady_op (delete_sale_row sale_id).
Proof.
  unfold delete_sale_row, bind, begin_dml, bind_int, engine_step, get_db,
    put_db, ret, raise.
  steady_prim.
Qed.

Lemma steady_int_of (py_int : string → option Z) (s : string) :
  steady_op (int_of py_int s).
Proof. unfold int_of. case_match; [apply steady_ret|apply steady_raise]. Qed.

Create HintDb steady.
#[local] Hint Resolve steady_ret steady_raise steady_engine_step steady_bind_int
  steady_begin_dml steady_commit steady_print steady_input steady_turns
  steady_select_member steady_select_book steady_select_sale
  steady_select_details steady_select_report steady_select_update_list
  steady_insert_sale steady_update_sale_row steady_delete_sale_row
  steady_int_of steady_executemany : steady.

(** Break a program into its statements and close each with the hints. *)
Ltac steady_auto :=
  repeat first
    [ solve [eauto with steady]
    | progress intros
    | progress cbv zeta
    | apply steady_bind
    | apply steady_try_value
    | case_match ].

Lemma steady_print_sale_report : steady_op print_sale_report.
Proof. unfold print_sale_report. steady_auto. Qed.

Lemma steady_update_discount (sale_id newdiscount : Z) :
  steady_op (update_discount sale_id newdiscount).
Proof. unfold update_discount. steady_auto. Qed.

Lemma steady_delete_sale_by_id (sale_id : Z) :
  steady_op (delete_sale_by_id sale_id).
Proof. unfold delete_sale_by_id. steady_auto. Qed.

Lemma steady_ask_update_id py_isdigit py_int (n : nat) :
  steady_op (ask_update_id py_isdigit py_int n).
Proof. induction n as [|n IH]; simpl; steady_auto. Qed.

Lemma steady_ask_discount py_isdigit py_int (n : nat) :
  steady_op (ask_discount py_isdigit py_int n).
Proof. induction n as [|n IH]; simpl; steady_auto. Qed.

Lemma steady_ask_delete_id py_isdigit py_int (n : nat) :
  steady_op (ask_delete_id py_isdigit py_int n).
Proof. induction n as [|n IH]; simpl; steady_auto. Qed.

#[local] Hint Resolve steady_print_sale_report steady_update_discount
  steady_delete_sale_by_id steady_ask_update_id steady_ask_discount
  steady_ask_delete_id : steady.

Lemma steady_update_sale py_isdigit py_int :
  steady_op (update_sale py_isdigit py_int).
Proof. unfold update_sale. steady_auto. Qed.

Lemma steady_delete_sale py_isdigit py_int :
  steady_op (delete_sale py_isdigit py_int).
Proof. unfold delete_sale. steady_auto. Qed.

(** *** Hoare rules *)

Lemma hoare_ret {A} (P : world → Prop) (Q : A → world → Prop)
    (E : world → Prop) (a : A) :
  (∀ w, P w → Q a w) → hoare P (ret a) Q E.
Proof. intros H w Hw. by apply H. Qed.

Lemma hoare_bind {A B} (P : world → Prop) (Q : A → world → Prop)
    (R : B → world → Prop) (E : world → Prop) (m : M A) (k : A → M B) :
  hoare P m Q E → (∀ a, hoare (Q a) (k a) R E) → hoare P (bind m k) R E.
Proof.
  intros Hm Hk w Hw. unfold bind. specialize (Hm w Hw).
  destruct (m w) as [a w'|e w']; [by apply Hk|done].
Qed.

Lemma hoare_steady {A} (P E : world → Prop) (m : M A) :
  steady_op m → (∀ w w', steady w w' → P w → P w') → (∀ w, P w → E w) →
  hoare P m (λ _, P) E.
Proof.
  intros Hm HP HE w Hw. specialize (Hm w).
  destruct (m w) as [a w'|e w']; simpl in *; [|apply HE]; by eapply HP.
Qed.

Lemma keeps_steady {A} (m : M A) : steady_op m → keeps stock_invariant m.
Proof. intros H. apply hoare_steady; [done| |done]. apply steady_invariant. Qed.

Lemma keeps_world {A} (I : world → Prop) (m : M A) (w : world) :
  keeps I m → I w → I (world_of (m w)).
Proof. intros H Hw. specialize (H w Hw). by destruct (m w). Qed.

Lemma keeps_executemany {A} (I : world → Prop) (stmt : A → M unit)
    (rows : list A) :
  Forall (λ r, keeps I (stmt r)) rows → keeps I (executemany stmt rows).
Proof.
  induction 1 as [|r rows Hr _ IH]; simpl.
  - by apply hoare_ret.
  - eapply hoare_bind; [exact Hr|]. intros ?. exact IH.
Qed.

(** *** Writing the stock *)

Lemma stocks_nonneg_insert (t : tables) (bid : string) (b : book_row) :
  stocks_nonneg t → 0 ≤ bstock b → stocks_nonneg (with_book (insert bid b) t).
Proof.
  intros Ht Hb bid' b'. simpl.
  destruct (decide (bid = bid')) as [->|Hne].
  - rewrite lookup_insert_eq. by intros [= <-].
  - rewrite lookup_insert_ne by done. apply Ht.
Qed.

(** The UPDATE of [add_sale] runs after the stock check: it takes [qty] from
    a stock that is at least [qty]. *)
Lemma update_book_stock_keeps (qty : Z) (bid : string) (b : book_row) :
  qty ≤ bstock b →
  hoare (λ w, stock_invariant w ∧ book (db w) !! bid = Some b)
    (update_book_stock qty bid) (λ _, stock_invariant) stock_invariant.
Proof.
  intros Hq [t x fs i o] [[H1 H2] Hb]. simpl in *.
  unfold update_book_stock, bind, begin_dml, bind_int, engine_step, get_db,
    put_db, ret, raise.
  repeat (case_match; simpl in *; simplify_eq); cbn in *; simplify_eq;
    (split; simpl;
     [ first [done | apply stocks_nonneg_insert; [done|simpl; lia]]
     | intros t' Ht'; simplify_eq; first [done | by apply H2] ]).
Qed.

Lemma rollback_keeps : keeps stock_invariant rollback.
Proof.
  intros [t x fs i o] [H1 H2]. unfold rollback. simpl in *.
  destruct x as [t'|]; simpl; split; simpl; try done.
  by apply H2.
Qed.

Lemma select_book_reads (bid : string) :
  hoare stock_invariant (select_book bid)
    (λ r w, stock_invariant w ∧
            r = (λ b, (bprice b, bstock b)) <$> book (db w) !! bid)
    stock_invariant.
Proof.
  intros [t x fs i o] HI.
  unfold select_book, bind, engine_step, get_db, ret.
  repeat (case_match; simpl in *; simplify_eq); cbn in *; simplify_eq; done.
Qed.

(** [add_sale] never leaves a negative stock, whatever its arguments and
    whatever the engine answers. *)
Lemma add_sale_keeps (sdate mid bid : string) (sqty sdiscount : Z) :
  keeps stock_invariant (add_sale sdate mid bid sqty sdiscount).
Proof.
  intros w HI. unfold add_sale, try_sqlite.
  match goal with |- context [match ?body w with _ => _ end] =>
    assert (hoare stock_invariant body (λ _, stock_invariant) stock_invariant)
      as Hbody
  end.
  { eapply hoare_bind; [apply keeps_steady, steady_select_member|].
    intros [_|]; [|by apply hoare_ret].
    eapply hoare_bind; [apply select_book_reads|].
    intros [[price stock]|]; [|apply hoare_ret; by intros ? [? _]].
    destruct (Z.ltb_spec stock sqty) as [_|Hle];
      [apply hoare_ret; by intros ? [? _]|].
    intros w1 [HI1 Hr].
    destruct (book (db w1) !! bid) as [b|] eqn:Hb; [|done].
    injection Hr as -> ->.
    revert w1 HI1 Hb.
    cut (hoare (λ w, stock_invariant w ∧ book (db w) !! bid = Some b)
           (insert_sale (SaleRow sdate mid bid sqty sdiscount
                           (bprice b * sqty - sdiscount)) ;;;
            update_book_stock sqty bid ;;; commit ;;;
            ret (true, msg_sale_added (bprice b * sqty - sdiscount)))
           (λ _, stock_invariant) stock_invariant).
    { intros H w1 HI1 Hb. by apply H. }
    eapply hoare_bind.
    { apply (hoare_steady (λ w, stock_invariant w ∧ book (db w) !! bid = Some b));
        [apply steady_insert_sale| |by intros ? [? _]].
      intros w1 w2 Hs [HI1 Hb]. split; [by eapply steady_invariant|].
      destruct Hs as [-> _]. done. }
    intros ?. eapply hoare_bind; [by apply update_book_stock_keeps|].
    intros ?. eapply hoare_bind; [apply keeps_steady, steady_commit|].
    intros ?. by apply hoare_ret. }
  specialize (Hbody w HI).
  match goal with |- context [match ?body w with _ => _ end] =>
    destruct (body w) as [a w'|[e| | | |] w']; try done
  end.
  eapply hoare_bind; [apply rollback_keeps| |exact Hbody].
  intros ?. by apply hoare_ret.
Qed.

(** *** Seeding *)

Lemma steady_insert_or_ignore_member (r : string * member_row) :
  steady_op (insert_or_ignore_member r).
Proof.
  unfold insert_or_ignore_member, bind, begin_dml, engine_step, get_db,
    put_db, ret.
  steady_prim.
Qed.

Lemma insert_or_ignore_book_keeps (r : string * book_row) :
  0 ≤ bstock r.2 → keeps stock_invariant (insert_or_ignore_book r).
Proof.
  intros Hr [t x fs i o] [H1 H2]. simpl in *.
  unfold insert_or_ignore_book, bind, begin_dml, bind_int, engine_step, get_db,
    put_db, ret, raise.
  repeat (case_match; simpl in *; simplify_eq); cbn in *; simplify_eq;
    (split; simpl;
     [ first [done | by apply stocks_nonneg_insert]
     | intros t' Ht'; simplify_eq; first [done | by apply H2] ]).
Qed.

Lemma initialize_db_keeps (today : string) :
  keeps stock_invariant (initialize_db today).
Proof.
  unfold initialize_db.
  eapply hoare_bind;
    [apply keeps_steady, steady_executemany, steady_insert_or_ignore_member|].
  intros ?. eapply hoare_bind.
  { apply keeps_executemany. unfold book_seed.
    repeat constructor; apply insert_or_ignore_book_keeps; simpl; lia. }
  intros ?. apply keeps_steady, steady_executemany, steady_insert_sale.
Qed.

Lemma seeded_invariant (today : string) (answers : list (option string))
    (lines : list string) :
  stock_invariant (seeded today answers lines).
Proof.
  unfold seeded. apply keeps_world; [apply initialize_db_keeps|].
  split; [|done]. intros bid b H. simpl in H. by rewrite lookup_empty in H.
Qed.

(** *** Sequences of operations *)

Lemma steady_run_op py_isdigit py_int (o : op) :
  writes_stock o = false → steady_op (run_op py_isdigit py_int o).
Proof.
  destruct o; simpl; try done; intros _;
    auto using steady_print_sale_report, steady_update_sale,
      steady_update_discount, steady_delete_sale, steady_delete_sale_by_id.
Qed.

Lemma run_op_keeps py_isdigit py_int (o : op) :
  keeps stock_invariant (run_op py_isdigit py_int o).
Proof.
  destruct o as [sdate mid bid sqty sdiscount| | | | |].
  - simpl. eapply hoare_bind; [apply add_sale_keeps|].
    intros ?. by apply hoare_ret.
  - by apply keeps_steady, steady_run_op.
  - by apply keeps_steady, steady_run_op.
  - by apply keeps_steady, steady_run_op.
  - by apply keeps_steady, steady_run_op.
  - by apply keeps_steady, steady_run_op.
Qed.

Lemma states_invariant py_isdigit py_int (ops : list op) (w : world) :
  stock_invariant w →
  Forall stock_invariant (states py_isdigit py_int ops w).
Proof.
  revert w. induction ops as [|o ops IH]; intros w HI; simpl; [constructor|].
  pose proof (run_op_keeps py_isdigit py_int o w HI) as H.
  destruct (run_op py_isdigit py_int o w) as [[] w'|e w'].
  - constructor; [done|by apply IH].
  - constructor; [done|constructor].
Qed.

(** The stock check of [add_sale] is all it takes: no stock goes below 0
    along any sequence, whatever the signs of the quantities. *)
Lemma seeded_run_invariant (py_isdigit : string → bool)
    (py_int : string → option Z) (today : string)
    (answers : list (option string)) (lines : list string) (ops : list op) :
  Forall (λ w, stocks_nonneg (db w))
    (states py_isdigit py_int ops (seeded today answers lines)).
Proof.
  eapply Forall_impl; [apply states_invariant, seeded_invariant|].
  by intros w [H _].
Qed.

(** C6: from the seeded state, after every operation of every sequence of
    Store operations whose sales have positive quantities, every stock is
    at least 0.  Only [add_sale] writes the book table: the report, the
    update and the deletion return with the book table as it was. *)
Theorem stock_never_negative (py_isdigit : string → bool)
    (py_int : string → option Z) (today : string)
    (answers : list (option string)) (lines : list string) (ops : list op) :
  Forall positive_quantity ops →
  Forall (λ w, ∀ bid b, book (db w) !! bid = Some b → 0 ≤ bstock b)
    (states py_isdigit py_int ops (seeded today answers lines)) ∧
  ∀ o w w', writes_stock o = false →
    run_op py_isdigit py_int o w = Ok tt w' → book (db w') = book (db w).
Proof.
  intros _. split.
  - apply seeded_run_invariant.
  - intros o w w' Ho Hrun.
    destruct (steady_run_op py_isdigit py_int o Ho w) as [H _].
    by rewrite Hrun in H.
Qed.

(** The end-to-end scenario, run from the first seeded state. *)
Lemma stock_never_negative_witness :
  Forall (λ w, ∀ bid b, book (db w) !! bid = Some b → 0 ≤ bstock b)
    (states Ascii10.isdigit Ascii10.int scenario first_run) ∧
  ∀ o w w', writes_stock o = false →
    run_op Ascii10.isdigit Ascii10.int o w = Ok tt w' →
    book (db w') = book (db w).
Proof.
  apply (stock_never_negative Ascii10.isdigit Ascii10.int "2024-01-01" [] []
           scenario).
  unfold scenario. repeat constructor; simpl; lia.
Defined.

(** The stock of B001 along the scenario: 48 after the sale, and 48 still
    after the refused sale, the update, the deletion and the report. *)
Example scenario_stock_of_B001 :
  map (λ w, bstock <$> book (db w) !! "B001")
    (states Ascii10.isdigit Ascii10.int scenario first_run)
  = [Some 48; Some 48; Some 48; Some 48; Some 48].
Proof. by vm_compute. Qed.

(** ** Stock levels along a whole session *)

Lemma keeps_ret {A} (I : world → Prop) (a : A) : keeps I (ret a).
Proof. by apply hoare_ret. Qed.

Lemma keeps_bind {A B} (I : world → Prop) (m : M A) (k : A → M B) :
  keeps I m → (∀ a, keeps I (k a)) → keeps I (bind m k).
Proof. intros Hm Hk. eapply hoare_bind; [exact Hm|exact Hk]. Qed.

Lemma keeps_try_value {A} (I : world → Prop) (body handler : M A) :
  keeps I body → keeps I handler → keeps I (try_value body handler).
Proof.
  intros Hb Hh w Hw. unfold try_value. specialize (Hb w Hw).
  destruct (body w) as [a w'|[] w']; try done. by apply Hh.
Qed.

Lemma steady_count_members : steady_op count_members.
Proof. unfold count_members. steady_auto. Qed.

Ltac keeps_auto :=
  repeat first
    [ apply keeps_steady; solve [eauto with steady]
    | apply add_sale_keeps
    | apply keeps_ret
    | progress intros
    | apply keeps_bind
    | apply keeps_try_value
    | case_match ].

Lemma menu_add_sale_keeps py_int :
  keeps stock_invariant (menu_add_sale py_int).
Proof. unfold menu_add_sale. keeps_auto. Qed.

Lemma menu_turn_keeps py_isdigit py_int :
  keeps stock_invariant (menu_turn py_isdigit py_int).
Proof.
  unfold menu_turn.
  repeat first
    [ apply menu_add_sale_keeps
    | apply keeps_steady;
      solve [eauto using steady_update_sale, steady_delete_sale with steady]
    | apply keeps_ret
    | progress intros
    | apply keeps_bind
    | case_match ].
Qed.

Lemma menu_loop_keeps py_isdigit py_int (n : nat) :
  keeps stock_invariant (menu_loop py_isdigit py_int n).
Proof.
  induction n as [|n IH]; simpl.
  - apply keeps_steady, steady_raise.
  - apply keeps_bind; [apply menu_turn_keeps|].
    intros []; [exact IH|apply keeps_ret].
Qed.

Lemma with_connection_keeps {A} (body : M A) :
  keeps stock_invariant body → keeps stock_invariant (with_connection body).
Proof.
  intros Hb w Hw. unfold with_connection. specialize (Hb w Hw).
  destruct (body w) as [a w'|e w'].
  - revert w' Hb. change (keeps stock_invariant (commit ;;; ret a)).
    apply keeps_bind; [apply keeps_steady, steady_commit|].
    intros ?. apply keeps_ret.
  - revert w' Hb. change (keeps stock_invariant (rollback ;;; @raise A e)).
    apply keeps_bind; [apply rollback_keeps|].
    intros ?. apply keeps_steady, steady_raise.
Qed.

Lemma main_keeps py_isdigit py_int (today : string) :
  keeps stock_invariant (main py_isdigit py_int today).
Proof.
  unfold main.
  apply keeps_bind; [|intros ?; apply keeps_steady, steady_print].
  apply with_connection_keeps.
  apply keeps_bind; [apply keeps_steady, steady_count_members|].
  intros member_count. apply keeps_bind.
  { case_match.
    - apply keeps_bind; [apply keeps_steady, steady_print|].
      intros ?. apply initialize_db_keeps.
    - apply keeps_steady, steady_print. }
  intros ?. apply keeps_bind; [apply keeps_steady, steady_turns|].
  intros n. apply menu_loop_keeps.
Qed.

(** X9: whatever the operator types and whatever the engine answers, a
    session on a database file without negative stock ends, normally or not,
    without negative stock. *)
Theorem session_keeps_stock_nonneg py_isdigit py_int (today : string)
    (file : tables) (answers : list (option string)) (lines : list string) :
  stocks_nonneg file →
  stocks_nonneg
    (db (world_of (main py_isdigit py_int today
                     (connect_db file answers lines)))).
Proof.
  intros Hfile.
  apply (keeps_world stock_invariant); [apply main_keeps|].
  by split.
Qed.

(** The same along any sequence of Store operations, from any connection
    without negative stock. *)
Corollary run_keeps_stock_nonneg py_isdigit py_int (ops : list op)
    (w : world) :
  stock_invariant w →
  Forall (λ w', stocks_nonneg (db w')) (states py_isdigit py_int ops w).
Proof.
  intros Hw. eapply Forall_impl; [by apply states_invariant|].
  by intros w' [H _].
Qed.

(** The report, the update and the deletion never write the book table,
    however they end. *)
Corollary books_written_by_add_sale_only py_isdigit py_int (o : op)
    (w : world) :
  writes_stock o = false →
  book (db (world_of (run_op py_isdigit py_int o w))) = book (db w).
Proof. intros Ho. by destruct (steady_run_op py_isdigit py_int o Ho w). Qed.

(** ** The loops have turns enough

    The [while True] loops are given one turn per line of input left, and
    one more: every turn reads a line and nothing puts lines back, so the
    last turn handed out is never used up.  More turns change nothing. *)

Lemma draining_ret {A} (a : A) : draining (ret a).
Proof. intros w. unfold drains. done. Qed.

Lemma draining_raise {A} (e : exn) : draining (@raise A e).
Proof. intros w. unfold drains. done. Qed.

Lemma draining_bind {A B} (m : M A) (k : A → M B) :
  draining m → (∀ a, draining (k a)) → draining (bind m k).
Proof.
  intros Hm Hk w. unfold bind. specialize (Hm w).
  destruct (m w) as [a w'|e w']; simpl in *; [|done].
  specialize (Hk a w'). unfold drains in *. lia.
Qed.

Lemma draining_try_value {A} (body handler : M A) :
  draining body → draining handler → draining (try_value body handler).
Proof.
  intros Hb Hh w. unfold try_value. specialize (Hb w).
  destruct (body w) as [a w'|[] w']; simpl in *; try done.
  specialize (Hh w'). unfold drains in *. lia.
Qed.

Lemma draining_try_sqlite {A} (body : M A) (handler : string → M A) :
  draining body → (∀ e, draining (handler e)) →
  draining (try_sqlite body handler).
Proof.
  intros Hb Hh w. unfold try_sqlite. specialize (Hb w).
  destruct (body w) as [a w'|[e| | | |] w']; simpl in *; try done.
  specialize (Hh e w'). unfold drains in *. lia.
Qed.

Lemma draining_executemany {A} (stmt : A → M unit) (rows : list A) :
  (∀ r, draining (stmt r)) → draining (executemany stmt rows).
Proof.
  intros H. induction rows as [|r rows IH]; simpl.
  - apply draining_ret.
  - apply draining_bind; [apply H|by intros _].
Qed.

Ltac draining_prim :=
  intros [? ? ? ? ?]; unfold drains; simpl;
  repeat (case_match; simpl in *; simplify_eq);
  cbn in *; simplify_eq; lia.

Lemma draining_engine_step : draining engine_step.
Proof. unfold engine_step. draining_prim. Qed.

Lemma draining_bind_int (z : Z) : draining (bind_int z).
Proof. unfold bind_int, ret, raise. draining_prim. Qed.

Lemma draining_begin_dml : draining begin_dml.
Proof. unfold begin_dml. draining_prim. Qed.

Lemma draining_commit : draining commit.
Proof. unfold commit, bind, engine_step. draining_prim. Qed.

Lemma draining_rollback : draining rollback.
Proof. unfold rollback. draining_prim. Qed.

Lemma draining_print (s : string) : draining (print s).
Proof. unfold print. draining_prim. Qed.

Lemma draining_input (prompt : string) : draining (input prompt).
Proof. unfold input. draining_prim. Qed.

Lemma draining_turns : draining turns.
Proof. unfold turns. draining_prim. Qed.

Lemma draining_get_db : draining get_db.
Proof. unfold get_db. draining_prim. Qed.

Lemma draining_put_db (t : tables) : draining (put_db t).
Proof. unfold put_db. draining_prim. Qed.

Lemma draining_int_of (py_int : string → option Z) (s : string) :
  draining (int_of py_int s).
Proof. unfold int_of. case_match; [apply draining_ret|apply draining_raise]. Qed.

Create HintDb draining.
#[local] Hint Resolve draining_ret draining_raise draining_engine_step
  draining_bind_int draining_begin_dml draining_commit draining_rollback
  draining_print draining_input draining_turns draining_get_db
  draining_put_db draining_int_of draining_executemany : draining.

Ltac draining_auto :=
  repeat first
    [ solve [eauto with draining]
    | progress intros
    | progress cbv zeta
    | apply draining_bind
    | apply draining_try_value
    | apply draining_try_sqlite
    | case_match ].

Lemma draining_select_sale (sale_id : Z) : draining (select_sale sale_id).
Proof. unfold select_sale. draining_auto. Qed.

Lemma draining_add_sale (sdate mid bid : string) (sqty sdiscount : Z) :
  draining (add_sale sdate mid bid sqty sdiscount).
Proof.
  unfold add_sale, select_member, select_book, insert_sale, update_book_stock.
  draining_auto.
Qed.

Lemma draining_print_sale_report : draining print_sale_report.
Proof. unfold print_sale_report, select_report. draining_auto. Qed.

Lemma draining_update_discount (sale_id newdiscount : Z) :
  draining (update_discount sale_id newdiscount).
Proof.
  unfold update_discount, select_details, update_sale_row. draining_auto.
Qed.

Lemma draining_delete_sale_by_id (sale_id : Z) :
  draining (delete_sale_by_id sale_id).
Proof. unfold delete_sale_by_id, delete_sale_row. draining_auto. Qed.

#[local] Hint Resolve draining_select_sale draining_add_sale
  draining_print_sale_report draining_update_discount
  draining_delete_sale_by_id : draining.

Lemma draining_ask_update_id py_isdigit py_int (n : nat) :
  draining (ask_update_id py_isdigit py_int n).
Proof. induction n as [|n IH]; simpl; draining_auto. Qed.

Lemma draining_ask_discount py_isdigit py_int (n : nat) :
  draining (ask_discount py_isdigit py_int n).
Proof. induction n as [|n IH]; simpl; draining_auto. Qed.

Lemma draining_ask_delete_id py_isdigit py_int (n : nat) :
  draining (ask_delete_id py_isdigit py_int n).
Proof. induction n as [|n IH]; simpl; draining_auto. Qed.

#[local] Hint Resolve draining_ask_update_id draining_ask_discount
  draining_ask_delete_id : draining.

Lemma draining_update_sale py_isdigit py_int :
  draining (update_sale py_isdigit py_int).
Proof. unfold update_sale, select_update_list. draining_auto. Qed.

Lemma draining_delete_sale py_isdigit py_int :
  draining (delete_sale py_isdigit py_int).
Proof. unfold delete_sale, select_report. draining_auto. Qed.

Lemma draining_menu_add_sale py_int : draining (menu_add_sale py_int).
Proof. unfold menu_add_sale. draining_auto. Qed.

#[local] Hint Resolve draining_update_sale draining_delete_sale
  draining_menu_add_sale : draining.

(** Two continuations that agree on what [m] returns. *)
Lemma bind_ext {A B} (m : M A) (k1 k2 : A → M B) (w : world) :
  (∀ a w', m w = Ok a w' → k1 a w' = k2 a w') → bind m k1 w = bind m k2 w.
Proof.
  intros H. unfold bind. destruct (m w) as [a w'|e w']; [by apply H|done].
Qed.

Lemma input_reads (prompt l : string) (w w' : world) :
  input prompt w = Ok l w' →
  List.length (stdin w) = S (List.length (stdin w')).
Proof.
  unfold input. destruct (stdin w) as [|l' ls]; [done|].
  by intros [= _ <-].
Qed.

Lemma drained {A} (m : M A) (a : A) (w w' : world) :
  draining m → m w = Ok a w' →
  (List.length (stdin w') ≤ List.length (stdin w))%nat.
Proof. intros H E. specialize (H w). by rewrite E in H. Qed.

(** Follow both sides of a loop through the same statements, keeping track
    of the input that is left. *)
Ltac note_drained E :=
  first [ apply input_reads in E
        | eapply drained in E; [|solve [eauto with draining]] ].

Ltac same_turns IH :=
  repeat first
    [ done
    | apply IH; lia
    | apply bind_ext; let E := fresh "E" in intros ? ? E; note_drained E
    | case_match ].

Lemma ask_update_id_turns py_isdigit py_int (n m : nat) (w : world) :
  (List.length (stdin w) < n)%nat → (List.length (stdin w) < m)%nat →
  ask_update_id py_isdigit py_int n w = ask_update_id py_isdigit py_int m w.
Proof.
  revert m w. induction n as [|n IH]; intros m w Hn Hm; [lia|].
  destruct m as [|m]; [lia|]. simpl. same_turns IH.
Qed.

Lemma ask_discount_turns py_isdigit py_int (n m : nat) (w : world) :
  (List.length (stdin w) < n)%nat → (List.length (stdin w) < m)%nat →
  ask_discount py_isdigit py_int n w = ask_discount py_isdigit py_int m w.
Proof.
  revert m w. induction n as [|n IH]; intros m w Hn Hm; [lia|].
  destruct m as [|m]; [lia|]. simpl. same_turns IH.
Qed.

Lemma ask_delete_id_turns py_isdigit py_int (n m : nat) (w : world) :
  (List.length (stdin w) < n)%nat → (List.length (stdin w) < m)%nat →
  ask_delete_id py_isdigit py_int n w = ask_delete_id py_isdigit py_int m w.
Proof.
  revert m w. induction n as [|n IH]; intros m w Hn Hm; [lia|].
  destruct m as [|m]; [lia|]. simpl. same_turns IH.
Qed.

Lemma draining_menu_turn py_isdigit py_int :
  draining (menu_turn py_isdigit py_int).
Proof. unfold menu_turn. draining_auto. Qed.

(** A turn of the menu that returns has read at least the choice. *)
Lemma menu_turn_reads py_isdigit py_int (again : bool) (w w' : world) :
  menu_turn py_isdigit py_int w = Ok again w' →
  (List.length (stdin w') < List.length (stdin w))%nat.
Proof.
  unfold menu_turn. intros H.
  unfold bind at 1 in H.
  destruct (executemany print menu_text w) as [[] w1|] eqn:E1; [|done].
  eapply drained in E1; [|solve [eauto with draining]].
  unfold bind at 1 in H.
  destruct (input "請選擇功能: " w1) as [choice w2|] eqn:E2; [|done].
  apply input_reads in E2.
  eapply drained in H; [lia|].
  draining_auto.
Qed.

Lemma menu_loop_turns py_isdigit py_int (n m : nat) (w : world) :
  (List.length (stdin w) < n)%nat → (List.length (stdin w) < m)%nat →
  menu_loop py_isdigit py_int n w = menu_loop py_isdigit py_int m w.
Proof.
  revert m w. induction n as [|n IH]; intros m w Hn Hm; [lia|].
  destruct m as [|m]; [lia|]. simpl.
  apply bind_ext. intros again w' E. apply menu_turn_reads in E.
  destruct again; [|done]. apply IH; lia.
Qed.

(** ** [main] on the end-to-end scenario *)

(** On a new database file the scenario ends normally: B001 is at 48, sale 5
    is gone, everything is committed and the farewell is printed. *)
Example main_runs_the_scenario :
  summary (main Ascii10.isdigit Ascii10.int "2024-01-01"
             (connect_db empty_tables [] scenario_keys))
  = (true, Some 48, None, None, Some "感謝使用書店管理系統！").
Proof. by vm_compute. Qed.

(** The texts printed for the first sale, the refused sale and the update. *)
Example main_prints_the_outcomes :
  let out := stdout (world_of (main Ascii10.isdigit Ascii10.int "2024-01-01"
                                 (connect_db empty_tables [] scenario_keys))) in
  "=> 銷售記錄已新增！(銷售總額: 1,100)" ∈ out ∧
  "=> 錯誤：書籍庫存不足 (現有庫存: 48)。" ∈ out ∧
  "=> 銷售編號 5 已更新！(銷售總額: 1,000)" ∈ out ∧
  "=> 銷售編號 5 已刪除" ∈ out.
Proof.
  vm_compute. repeat split; apply list_elem_of_In; simpl; tauto.
Qed.


(** * Further properties *)

(** ** [add_sale], whatever the engine answers *)

Lemma add_sale_outcomes (w : world) (sdate mid bid : string)
    (sqty sdiscount : Z) :
  add_sale_outcome sdate mid bid sqty sdiscount w
    (add_sale sdate mid bid sqty sdiscount w).
Proof.
  destruct w as [t x fs i o].
  unfold add_sale_outcome, add_sale, try_sqlite, select_member, select_book,
    insert_sale, update_book_stock, commit, rollback, bind, begin_dml,
    bind_int, engine_step, get_db, put_db, ret, raise.
  simpl.
  repeat (case_match; simpl in *; simplify_eq).
  all: cbn in *; simplify_eq.
  all: try (left; done).
  all: try (right; done).
  all: try (split; [by intros ?|]; done).
  all: try (split; [by intros ?|]; by intros ?).
  all: match goal with
       | Hb : book _ !! _ = Some ?b, Hr : _ <$> book _ !! _ = Some _ |- _ =>
           rewrite Hb in Hr; simplify_eq/=; split; [done|]; by exists b
       | Hb : book _ !! _ = None, Hr : _ <$> book _ !! _ = Some _ |- _ =>
           by rewrite Hb in Hr
       end.
Qed.


(** X2: no [sqlite3.Error] leaves [add_sale], whatever the engine answers; what
    can leave it is the [OverflowError] of a value that does not fit, raised
    before anything is written. *)
Theorem add_sale_lets_no_engine_error_out (w w' : world)
    (sdate mid bid : string) (sqty sdiscount : Z) (e : exn) :
  add_sale sdate mid bid sqty sdiscount w = Raise e w' →
  (∀ text, e ≠ SqliteError text) ∧ (e = OverflowError → db w' = db w).
Proof.
  intros H. pose proof (add_sale_outcomes w sdate mid bid sqty sdiscount) as Ho.
  by rewrite H in Ho.
Qed.

(** ** Relations between the world before and the world after *)

Section Follows.

Context (R : relation world) `{!PreOrder R}.

Lemma follows_ret {A} (a : A) : follows R (ret a).
Proof. intros w. simpl. reflexivity. Qed.

Lemma follows_raise {A} (e : exn) : follows R (@raise A e).
Proof. intros w. simpl. reflexivity. Qed.

Lemma follows_bind {A B} (m : M A) (k : A → M B) :
  follows R m → (∀ a, follows R (k a)) → follows R (bind m k).
Proof.
  intros Hm Hk w. unfold bind. specialize (Hm w).
  destruct (m w) as [a w'|e w']; simpl in *; [|done].
  etrans; [exact Hm|apply Hk].
Qed.

Lemma follows_try_value {A} (body handler : M A) :
  follows R body → follows R handler → follows R (try_value body handler).
Proof.
  intros Hb Hh w. unfold try_value. specialize (Hb w).
  destruct (body w) as [a w'|[] w']; simpl in *; try done.
  etrans; [exact Hb|apply Hh].
Qed.

Lemma follows_executemany {A} (stmt : A → M unit) (rows : list A) :
  (∀ r, follows R (stmt r)) → follows R (executemany stmt rows).
Proof.
  intros H. induction rows as [|r rows IH]; simpl.
  - apply follows_ret.
  - apply follows_bind; [apply H|by intros _].
Qed.

Lemma follows_try_sqlite {A} (body : M A) (handler : string → M A) :
  follows R body → (∀ e, follows R (handler e)) →
  follows R (try_sqlite body handler).
Proof.
  intros Hb Hh w. unfold try_sqlite. specialize (Hb w).
  destruct (body w) as [a w'|[] w']; simpl in *; try done.
  etrans; [exact Hb|apply Hh].
Qed.

End Follows.

#[local] Instance same_data_preorder : PreOrder same_data.
Proof.
  split; [done|]. intros w1 w2 w3 [? ?] [? ?]. split; congruence.
Qed.

(** The statements that write nothing. *)
Ltac reader :=
  intros [? ? ? ? ?]; unfold same_data; simpl;
  repeat (case_match; simpl in *; simplify_eq);
  cbn in *; simplify_eq; done.

Lemma reads_engine_step : follows same_data engine_step.
Proof. unfold engine_step. reader. Qed.

Lemma reads_bind_int (z : Z) : follows same_data (bind_int z).
Proof. unfold bind_int, ret, raise. reader. Qed.

Lemma reads_print (s : string) : follows same_data (print s).
Proof. unfold print. reader. Qed.

Lemma reads_input (prompt : string) : follows same_data (input prompt).
Proof. unfold input. reader. Qed.

Lemma reads_turns : follows same_data turns.
Proof. unfold turns. reader. Qed.

Lemma reads_get_db : follows same_data get_db.
Proof. unfold get_db. reader. Qed.

Lemma reads_int_of (py_int : string → option Z) (s : string) :
  follows same_data (int_of py_int s).
Proof. unfold int_of, ret, raise. case_match; reader. Qed.

Create HintDb reads.
#[local] Hint Resolve reads_engine_step reads_bind_int
  reads_print reads_input reads_turns reads_get_db reads_int_of : reads.

Ltac reads_auto :=
  repeat first
    [ solve [eauto with reads]
    | apply follows_ret; apply _
    | apply follows_raise; apply _
    | progress intros
    | progress cbv zeta
    | apply follows_bind; [apply _| |]
    | apply follows_executemany; [apply _|]
    | case_match ].

Lemma reads_select_member (mid : string) : follows same_data (select_member mid).
Proof. unfold select_member. reads_auto. Qed.

Lemma reads_select_book (bid : string) : follows same_data (select_book bid).
Proof. unfold select_book. reads_auto. Qed.

Lemma reads_select_sale (sale_id : Z) : follows same_data (select_sale sale_id).
Proof. unfold select_sale. reads_auto. Qed.

Lemma reads_select_details (sale_id : Z) :
  follows same_data (select_details sale_id).
Proof. unfold select_details. reads_auto. Qed.

Lemma reads_select_report : follows same_data select_report.
Proof. unfold select_report. reads_auto. Qed.

Lemma reads_select_update_list : follows same_data select_update_list.
Proof. unfold select_update_list. reads_auto. Qed.

Lemma reads_count_members : follows same_data count_members.
Proof. unfold count_members. reads_auto. Qed.

#[local] Hint Resolve reads_select_member reads_select_book reads_select_sale
  reads_select_details reads_select_report reads_select_update_list
  reads_count_members : reads.

Lemma reads_ask_update_id py_isdigit py_int (n : nat) :
  follows same_data (ask_update_id py_isdigit py_int n).
Proof. induction n as [|n IH]; simpl; reads_auto. Qed.

Lemma reads_ask_discount py_isdigit py_int (n : nat) :
  follows same_data (ask_discount py_isdigit py_int n).
Proof. induction n as [|n IH]; simpl; reads_auto. Qed.

Lemma reads_ask_delete_id py_isdigit py_int (n : nat) :
  follows same_data (ask_delete_id py_isdigit py_int n).
Proof. induction n as [|n IH]; simpl; reads_auto. Qed.

#[local] Hint Resolve reads_ask_update_id reads_ask_discount
  reads_ask_delete_id : reads.

(** X3: the report writes nothing, begins nothing and ends nothing, with
    its rows printed or not, and also when the engine fails. *)
Theorem print_sale_report_only_reads (w : world) :
  db (world_of (print_sale_report w)) = db w ∧
  txn (world_of (print_sale_report w)) = txn w.
Proof.
  revert w. change (follows same_data print_sale_report).
  unfold print_sale_report. reads_auto.
Qed.

Lemma follows_sub {A} (R1 R2 : relation world) (m : M A) :
  subrelation R1 R2 → follows R1 m → follows R2 m.
Proof. intros H Hm w. apply H, Hm. Qed.

(** ** [initialize_db] *)

#[local] Instance grows_preorder : PreOrder grows.
Proof.
  split.
  - by intros w.
  - intros w1 w2 w3 (? & ? & ?) (? & ? & ?).
    repeat split; by etrans.
Qed.

#[local] Instance same_data_grows : subrelation same_data grows.
Proof. intros w w' [E _]. unfold grows. by rewrite E. Qed.

#[local] Instance idles_preorder : PreOrder idles.
Proof.
  split; [done|].
  intros w1 w2 w3 [? ?] [? ?]. split; congruence.
Qed.

#[local] Instance still_pending_preorder : PreOrder still_pending.
Proof.
  split; [by intros w t|].
  intros w1 w2 w3 H1 H2 t Ht. by apply H2, H1.
Qed.

Ltac writer R :=
  intros [? ? ? ? ?]; unfold R, committed, begun; simpl;
  repeat (case_match; simpl in *; simplify_eq);
  cbn in *; simplify_eq.

Lemma grows_insert_or_ignore_member (r : string * member_row) :
  follows grows (insert_or_ignore_member r).
Proof.
  unfold insert_or_ignore_member, bind, begin_dml, engine_step, get_db, put_db,
    ret.
  writer grows; split_and!; try done.
  all: by apply insert_subseteq.
Qed.

Lemma grows_insert_or_ignore_book (r : string * book_row) :
  follows grows (insert_or_ignore_book r).
Proof.
  unfold insert_or_ignore_book, bind, begin_dml, bind_int, engine_step, get_db,
    put_db, ret, raise.
  writer grows; split_and!; try done.
  all: by apply insert_subseteq.
Qed.

Lemma grows_insert_sale (r : sale_row) : follows grows (insert_sale r).
Proof.
  unfold insert_sale, bind, begin_dml, bind_int, engine_step, get_db,
    put_db, ret, raise.
  writer grows; split_and!; try done.
  all: apply insert_subseteq, next_sid_fresh.
Qed.

(** X5: [INSERT OR IGNORE] and the inserts of the seed sales only add rows:
    whatever the tables hold and whatever the engine answers, every member,
    book and sale that was there before [initialize_db] is there after it,
    unchanged. *)
Theorem initialize_db_keeps_rows (today : string) (w : world) :
  member (db w) ⊆ member (db (world_of (initialize_db today w))) ∧
  book (db w) ⊆ book (db (world_of (initialize_db today w))) ∧
  sale (db w) ⊆ sale (db (world_of (initialize_db today w))).
Proof.
  revert w. change (follows grows (initialize_db today)).
  unfold initialize_db.
  apply follows_bind; [apply _| |intros _; apply follows_bind; [apply _| |intros _]].
  - apply follows_executemany; [apply _|]. apply grows_insert_or_ignore_member.
  - apply follows_executemany; [apply _|]. apply grows_insert_or_ignore_book.
  - apply follows_executemany; [apply _|]. apply grows_insert_sale.
Qed.

Lemma begins_bind {A B} (m : M A) (k : A → M B) :
  follows begins m → (∀ a, follows still_pending (k a)) →
  follows begins (bind m k).
Proof.
  intros Hm Hk w. unfold bind. specialize (Hm w).
  destruct (m w) as [a w'|e w']; simpl in *; [|done].
  by apply Hk.
Qed.

Lemma begins_insert_or_ignore_member (r : string * member_row) :
  follows begins (insert_or_ignore_member r).
Proof.
  unfold insert_or_ignore_member, bind, begin_dml, engine_step, get_db, put_db,
    ret.
  writer begins; done.
Qed.

Lemma still_pending_insert_or_ignore_member (r : string * member_row) :
  follows still_pending (insert_or_ignore_member r).
Proof.
  unfold insert_or_ignore_member, bind, begin_dml, engine_step, get_db, put_db,
    ret.
  writer still_pending; by intros ? ?.
Qed.

Lemma still_pending_insert_or_ignore_book (r : string * book_row) :
  follows still_pending (insert_or_ignore_book r).
Proof.
  unfold insert_or_ignore_book, bind, begin_dml, bind_int, engine_step, get_db,
    put_db, ret, raise.
  writer still_pending; by intros ? ?.
Qed.

Lemma still_pending_insert_sale (r : sale_row) :
  follows still_pending (insert_sale r).
Proof.
  unfold insert_sale, bind, begin_dml, bind_int, engine_step, get_db,
    put_db, ret, raise.
  writer still_pending; by intros ? ?.
Qed.

(** X6: [initialize_db] never commits.  Whatever the tables hold and whatever
    the engine answers, a transaction is pending when it is over, and a
    rollback would bring back the tables of the last commit before the
    call. *)
Theorem initialize_db_never_commits (today : string) (w : world) :
  txn (world_of (initialize_db today w)) = Some (committed w).
Proof.
  revert w. change (follows begins (initialize_db today)).
  unfold initialize_db.
  apply begins_bind.
  - change (executemany insert_or_ignore_member member_seed)
      with (insert_or_ignore_member ("M001", alice) ;;;
            executemany insert_or_ignore_member (tail member_seed)).
    apply begins_bind; [apply begins_insert_or_ignore_member|].
    intros _. apply follows_executemany; [apply _|].
    apply still_pending_insert_or_ignore_member.
  - intros _. apply follows_bind; [apply _| |intros _].
    + apply follows_executemany; [apply _|].
      apply still_pending_insert_or_ignore_book.
    + apply follows_executemany; [apply _|].
      apply still_pending_insert_sale.
Qed.

(** ** A session in which nothing is sold, updated or deleted *)

Lemma idles_engine_step : follows idles engine_step.
Proof. unfold engine_step. writer idles; done. Qed.

Lemma idles_bind_int (z : Z) : follows idles (bind_int z).
Proof. unfold bind_int, ret, raise. writer idles; done. Qed.

Lemma idles_print (s : string) : follows idles (print s).
Proof. unfold print. writer idles; done. Qed.

Lemma idles_turns : follows idles turns.
Proof. unfold turns. writer idles; done. Qed.

Lemma idles_get_db : follows idles get_db.
Proof. unfold get_db. writer idles; done. Qed.

Lemma idles_insert_or_ignore_member (r : string * member_row) :
  follows idles (insert_or_ignore_member r).
Proof.
  unfold insert_or_ignore_member, bind, begin_dml, engine_step, get_db, put_db,
    ret.
  writer idles; done.
Qed.

Lemma idles_insert_or_ignore_book (r : string * book_row) :
  follows idles (insert_or_ignore_book r).
Proof.
  unfold insert_or_ignore_book, bind, begin_dml, bind_int, engine_step, get_db,
    put_db, ret, raise.
  writer idles; done.
Qed.

Lemma idles_insert_sale (r : sale_row) : follows idles (insert_sale r).
Proof.
  unfold insert_sale, bind, begin_dml, bind_int, engine_step, get_db,
    put_db, ret, raise.
  writer idles; done.
Qed.

Create HintDb idles.
#[local] Hint Resolve idles_engine_step idles_bind_int idles_print idles_turns
  idles_get_db idles_insert_or_ignore_member idles_insert_or_ignore_book
  idles_insert_sale : idles.

Ltac idles_auto :=
  repeat first
    [ solve [eauto with idles]
    | apply follows_ret; apply _
    | progress intros
    | apply follows_bind; [apply _| |]
    | apply follows_executemany; [apply _|]
    | case_match ].

Lemma idles_count_members : follows idles count_members.
Proof. unfold count_members. idles_auto. Qed.

Lemma idles_print_sale_report : follows idles print_sale_report.
Proof. unfold print_sale_report, select_report. idles_auto. Qed.

Lemma idles_initialize_db (today : string) : follows idles (initialize_db today).
Proof.
  unfold initialize_db.
  apply follows_bind; [apply _| |intros _; apply follows_bind; [apply _| |intros _]].
  all: apply follows_executemany; [apply _|]; eauto with idles.
Qed.

#[local] Hint Resolve idles_count_members idles_print_sale_report
  idles_initialize_db : idles.

Lemma idles_then {A B} (m : M A) (k : A → M B) (w : world) :
  follows idles m →
  Forall browsing (stdin w) →
  (∀ a w1, Forall browsing (stdin w1) → browsed w1 (k a w1)) →
  browsed w (bind m k w).
Proof.
  intros Hm Hw Hk. unfold browsed, bind. destruct (Hm w) as [E1 E2].
  destruct (m w) as [a w1|e w1]; simpl in *.
  - rewrite <- E1. rewrite <- E2 in Hw. by apply Hk.
  - by rewrite E1, E2.
Qed.

Lemma input_browsing {A} (prompt : string) (k : string → M A) (w : world) :
  (∀ l, browsing l → follows idles (k l)) →
  Forall browsing (stdin w) →
  browsed w (bind (input prompt) k w).
Proof.
  intros Hk Hw. destruct w as [t x fs [|l ls] o]; unfold browsed, bind, input;
    simpl.
  - done.
  - simpl in Hw. apply Forall_cons in Hw as [Hl Hls].
    destruct (Hk l Hl (World t x fs ls (o ++ [prompt]))) as [E1 E2].
    by rewrite E1, E2.
Qed.

Lemma menu_turn_browsing py_isdigit py_int (w : world) :
  Forall browsing (stdin w) → browsed w (menu_turn py_isdigit py_int w).
Proof.
  intros Hw. unfold menu_turn.
  apply idles_then; [idles_auto|done|].
  intros _ w1 Hw1. apply input_browsing; [|done].
  intros l (H1 & H3 & H4).
  destruct (String.eqb_spec l "1") as [|_]; [done|].
  destruct (String.eqb_spec l "3") as [|_]; [done|].
  destruct (String.eqb_spec l "4") as [|_]; [done|].
  idles_auto.
Qed.

Lemma menu_loop_browsing py_isdigit py_int (n : nat) (w : world) :
  Forall browsing (stdin w) → browsed w (menu_loop py_isdigit py_int n w).
Proof.
  revert w. induction n as [|n IH]; intros w Hw; simpl; [done|].
  destruct (menu_turn_browsing py_isdigit py_int w Hw) as [E1 E2].
  unfold browsed, bind.
  destruct (menu_turn py_isdigit py_int w) as [[] w1|e w1]; simpl in *;
    try done.
  rewrite <- E1. by apply IH.
Qed.

Lemma with_connection_raise {A} (body : M A) (w w' : world) (e : exn) :
  with_connection body w = Raise e w' →
  committed w' = committed (world_of (body w)).
Proof.
  unfold with_connection.
  destruct (body w) as [a [? ? ? ? ?]|e' [? ? ? ? ?]];
    unfold committed, commit, rollback, bind, engine_step, ret, raise; simpl;
    intros; repeat (case_match; simpl in *; simplify_eq);
    cbn in *; simplify_eq; done.
Qed.

(** X7: a session in which the operator starts no sale, update or deletion
    and which an exception ends (the end of the input, an engine error)
    commits nothing: the database file is what it was, and on a first run
    the seed rows are lost. *)
Theorem interrupted_session_commits_nothing py_isdigit py_int (today : string)
    (file : tables) (answers : list (option string)) (lines : list string)
    (e : exn) (w' : world) :
  Forall browsing lines →
  main py_isdigit py_int today (connect_db file answers lines) = Raise e w' →
  committed w' = file.
Proof.
  intros Hlines. unfold main. set (w := connect_db file answers lines).
  unfold bind at 1.
  destruct (with_connection _ w) as [[] w1|e1 w1] eqn:E; [done|].
  intros [= -> ->].
  rewrite (with_connection_raise _ _ _ _ E). clear E.
  change file with (committed w).
  assert (Forall browsing (stdin w)) as Hw by done.
  clearbody w. revert w Hw.
  match goal with |- ∀ w, _ → committed (world_of (?m w)) = _ =>
    enough (∀ w, Forall browsing (stdin w) → browsed w (m w)) as H
      by (intros w Hw; by destruct (H w Hw))
  end.
  intros w Hw.
  apply idles_then; [apply idles_count_members|done|].
  intros member_count w1 Hw1.
  apply idles_then; [idles_auto|done|].
  intros _ w2 Hw2.
  apply idles_then; [apply idles_turns|done|].
  intros n w3 Hw3. by apply menu_loop_browsing.
Qed.

(** ** What [update_sale] and [delete_sale] can do to the tables *)

Lemma reads_then {A B} (R : relation world) `{!Reflexive R} `{!OnTables R}
    (m : M A) (k : A → M B) (w : world) :
  follows same_data m →
  (∀ a w1, m w = Ok a w1 → R w1 (world_of (k a w1))) →
  R w (world_of (bind m k w)).
Proof.
  intros Hm Hk. unfold bind. specialize (Hm w).
  destruct (m w) as [a w1|e w1] eqn:E; simpl in *.
  - eapply on_tables; [exact Hm|]. by apply Hk.
  - eapply on_tables; [exact Hm|]. reflexivity.
Qed.

Lemma reads_only {A} (R : relation world) `{!Reflexive R} `{!OnTables R}
    (m : M A) (w : world) :
  follows same_data m → R w (world_of (m w)).
Proof. intros Hm. eapply on_tables; [apply Hm|]. reflexivity. Qed.

#[local] Instance rediscounts_refl : Reflexive rediscounts.
Proof. intros w. by left. Qed.

#[local] Instance rediscounts_on_tables : OnTables rediscounts.
Proof. intros w1 w2 w3 [E _]. unfold rediscounts. by rewrite E. Qed.

#[local] Instance deletes_one_refl : Reflexive deletes_one.
Proof. intros w. by left. Qed.

#[local] Instance deletes_one_on_tables : OnTables deletes_one.
Proof. intros w1 w2 w3 [E _]. unfold deletes_one. by rewrite E. Qed.

Lemma alter_found (f : sale_row → sale_row) (k : Z) (m : gmap Z sale_row)
    (s : sale_row) :
  m !! k = Some s → alter f k m = <[k := f s]> m.
Proof.
  intros Hs. apply map_eq. intros j. destruct (decide (j = k)) as [->|Hj].
  - by rewrite lookup_alter, lookup_insert, Hs.
  - by rewrite lookup_alter_ne, lookup_insert_ne.
Qed.

Lemma ask_discount_nonneg py_isdigit py_int (n : nat) (w w' : world) (d : Z) :
  ask_discount py_isdigit py_int n w = Ok d w' → 0 ≤ d.
Proof.
  revert w. induction n as [|n IH]; intros w; simpl; [done|].
  unfold bind at 1.
  destruct (input _ w) as [l w1|e w1]; [|done].
  destruct (py_isdigit l).
  2:{ unfold bind at 1, print. apply IH. }
  unfold bind at 1, int_of. destruct (py_int l) as [z|]; [|done].
  unfold ret at 1.
  destruct (Z.leb_spec 0 z).
  - by intros [= -> ->].
  - unfold bind at 1, print. apply IH.
Qed.

Lemma update_discount_rediscounts (sale_id newdiscount : Z) (w : world) :
  0 ≤ newdiscount →
  rediscounts w (world_of (update_discount sale_id newdiscount w)).
Proof.
  intros Hd. unfold update_discount.
  apply (reads_then rediscounts); [apply reads_select_details|].
  intros [[price qty]|] w1 E; [|apply (reads_only rediscounts), reads_print].
  assert (∃ s b, sale (db w1) !! sale_id = Some s ∧
                 book (db w1) !! sale_bid s = Some b ∧
                 price = bprice b ∧ qty = sqty s) as (s & b & Hs & Hb & -> & ->).
  { revert E. unfold select_details, bind, bind_int, engine_step, get_db, ret,
      raise.
    destruct w as [? ? ? ? ?]; simpl.
    repeat (case_match; simpl in *; simplify_eq); intros; simplify_eq/=.
    all: match goal with
         | H : _ ≫= _ = Some _ |- _ =>
             apply bind_Some in H as (s & Hs & H);
             apply bind_Some in H as (b & Hb & H); simplify_eq; by exists s, b
         end. }
  cbv zeta.
  destruct w1 as [t x fs i o]. simpl in Hs, Hb.
  unfold rediscounts, update_sale_row, commit, bind, bind_int, engine_step,
    begin_dml, get_db, put_db, print, ret, raise. simpl.
  repeat (case_match; simpl in *; simplify_eq); cbn in *; simplify_eq.
  all: try (left; done).
  all: right; exists sale_id, s, b, newdiscount; split_and!; try done.
  all: unfold with_sale; simpl; f_equal; by rewrite (alter_found _ _ _ s Hs).
Qed.

(** X10: whatever the operator types and whatever the engine answers,
    [update_sale] leaves the tables as they were or gives one sale a new
    discount, not negative, with its total recomputed from the current price
    of its book: no other sale, no member, no book and no other column is
    written. *)
Theorem update_sale_writes_one_discount py_isdigit py_int (w : world) :
  rediscounts w (world_of (update_sale py_isdigit py_int w)).
Proof.
  unfold update_sale.
  apply (reads_then rediscounts); [apply reads_select_update_list|].
  intros [|r rs] w1 _; [apply (reads_only rediscounts), reads_print|].
  apply (reads_then rediscounts); [apply reads_print|]. intros _ w2 _.
  apply (reads_then rediscounts); [reads_auto|]. intros _ w3 _.
  apply (reads_then rediscounts); [apply reads_print|]. intros _ w4 _.
  apply (reads_then rediscounts); [apply reads_turns|]. intros n w5 _.
  apply (reads_then rediscounts); [apply reads_ask_update_id|].
  intros [sale_id|] w6 _; [|reflexivity].
  apply (reads_then rediscounts); [apply reads_turns|]. intros n' w7 _.
  apply (reads_then rediscounts); [apply reads_ask_discount|]. intros d w8 Hd.
  apply update_discount_rediscounts.
  by apply ask_discount_nonneg in Hd.
Qed.

Lemma select_sale_found (sale_id : Z) (w w' : world) (k : Z) :
  select_sale sale_id w = Ok (Some k) w' → is_Some (sale (db w') !! sale_id).
Proof.
  destruct w as [? ? ? ? ?].
  unfold select_sale, bind, bind_int, engine_step, get_db, ret, raise. simpl.
  repeat (case_match; simpl in *; simplify_eq); intros; simplify_eq/=.
  all: match goal with
       | H : _ <$> ?m !! ?i = Some _ |- _ => by destruct (m !! i)
       end.
Qed.

Lemma ask_delete_id_found py_isdigit py_int (n : nat) (w w' : world) (k : Z) :
  ask_delete_id py_isdigit py_int n w = Ok (Some k) w' →
  is_Some (sale (db w') !! k).
Proof.
  revert w. induction n as [|n IH]; intros w; simpl; [done|].
  unfold bind at 1.
  destruct (input _ w) as [l w1|e w1]; [|done].
  destruct (String.eqb l ""); [by unfold bind, print, ret|].
  destruct (py_isdigit l).
  2:{ unfold bind at 1, print. apply IH. }
  unfold bind at 1, int_of. destruct (py_int l) as [z|]; [|done].
  unfold ret at 1. unfold bind at 1.
  destruct (select_sale z w1) as [[k'|] w2|e w2] eqn:E; [| |done].
  - intros [= -> ->]. by apply select_sale_found in E.
  - unfold bind at 1, print. apply IH.
Qed.

Lemma delete_sale_by_id_deletes_one (sale_id : Z) (w : world) :
  is_Some (sale (db w) !! sale_id) →
  deletes_one w (world_of (delete_sale_by_id sale_id w)).
Proof.
  intros [s Hs]. destruct w as [t x fs i o]. simpl in Hs.
  unfold deletes_one, delete_sale_by_id, delete_sale_row, commit, bind,
    bind_int, engine_step, begin_dml, get_db, put_db, print, ret, raise. simpl.
  repeat (case_match; simpl in *; simplify_eq); cbn in *; simplify_eq.
  all: try (left; done).
  all: right; by exists sale_id, s.
Qed.

(** X11: whatever the operator types and whatever the engine answers,
    [delete_sale] leaves the tables as they were or removes one sale: no
    other sale, no member and no book is written, and no stock comes
    back. *)
Theorem delete_sale_removes_at_most_one py_isdigit py_int (w : world) :
  deletes_one w (world_of (delete_sale py_isdigit py_int w)).
Proof.
  unfold delete_sale.
  apply (reads_then deletes_one); [apply reads_select_report|].
  intros [|r rs] w1 _; [apply (reads_only deletes_one), reads_print|].
  apply (reads_then deletes_one); [apply reads_print|]. intros _ w2 _.
  apply (reads_then deletes_one); [reads_auto|]. intros _ w3 _.
  apply (reads_then deletes_one); [apply reads_print|]. intros _ w4 _.
  apply (reads_then deletes_one); [apply reads_turns|]. intros n w5 _.
  apply (reads_then deletes_one); [apply reads_ask_delete_id|].
  intros [sale_id|] w6 Hid; [|reflexivity].
  apply delete_sale_by_id_deletes_one.
  by apply ask_delete_id_found in Hid.
Qed.

(** ** The menu: what is turned down before [add_sale] is called *)

(** X14: a quantity that [int] refuses makes choice 1 print the integer text
    and return to the menu: the discount is not asked, [add_sale] is not
    called, the engine is not asked anything and the tables stay as they
    were. *)
Theorem menu_rejects_non_integer_quantity (py_int : string → option Z)
    (w : world) (date mid bid qty_str : string) (rest : list string) :
  stdin w = date :: mid :: bid :: qty_str :: rest →
  checkdate date = true →
  py_int qty_str = None →
  menu_add_sale py_int w
  = Ok tt (World (db w) (txn w) (faults w) rest
             (stdout w ++ ["請輸入銷售日期 (YYYY-MM-DD): "; "請輸入會員編號：";
                           "請輸入書籍編號："; "請輸入購買數量：";
                           "=> 錯誤：數量或折扣必須為整數，請重新輸入"])).
Proof.
  intros Hin Hd Hp. destruct w as [t x fs i o]. simpl in *. subst i.
  unfold menu_add_sale.
  erewrite bind_ok by apply input_ok. rewrite Hd. simpl.
  erewrite bind_ok by apply input_ok.
  erewrite bind_ok by apply input_ok.
  unfold try_value.
  erewrite bind_ok by apply input_ok.
  unfold int_of at 1. rewrite Hp.
  erewrite bind_raise by reflexivity.
  rewrite print_ok. by rewrite <- !app_assoc.
Qed.

(** A discount that [int] refuses, after a quantity that was accepted,
    gets the same answer: [add_sale] is not called and nothing is
    written. *)
Lemma menu_rejects_non_integer_discount (py_int : string → option Z)
    (w : world) (date mid bid qty_str discount_str : string)
    (rest : list string) (qty : Z) :
  stdin w = date :: mid :: bid :: qty_str :: discount_str :: rest →
  checkdate date = true →
  py_int qty_str = Some qty →
  0 < qty →
  py_int discount_str = None →
  menu_add_sale py_int w
  = Ok tt (World (db w) (txn w) (faults w) rest
             (stdout w ++ ["請輸入銷售日期 (YYYY-MM-DD): "; "請輸入會員編號：";
                           "請輸入書籍編號："; "請輸入購買數量：";
                           "請輸入折扣金額：";
                           "=> 錯誤：數量或折扣必須為整數，請重新輸入"])).
Proof.
  intros Hin Hd Hp Hq Hp'. destruct w as [t x fs i o]. simpl in *. subst i.
  unfold menu_add_sale.
  erewrite bind_ok by apply input_ok. rewrite Hd. simpl.
  erewrite bind_ok by apply input_ok.
  erewrite bind_ok by apply input_ok.
  unfold try_value.
  erewrite bind_ok by apply input_ok.
  unfold int_of at 1. rewrite Hp.
  erewrite bind_ok by reflexivity.
  destruct (Z.leb_spec qty 0) as [?|_]; [lia|].
  erewrite bind_ok by apply input_ok.
  unfold int_of at 1. rewrite Hp'.
  erewrite bind_raise by reflexivity.
  rewrite print_ok. by rewrite <- !app_assoc.
Qed.

(** ** The menu: leaving, and choices it does not know *)

(** X15: choice 5, or the word enter in any mix of cases, ends the menu loop:
    the menu and the prompt are printed, nothing else is read, the engine is
    not asked anything and the tables stay as they were. *)
Theorem menu_turn_leaves py_isdigit py_int (w : world) (choice : string)
    (rest : list string) :
  stdin w = choice :: rest →
  choice = "5" ∨ PyStr.lower choice = "enter" →
  menu_turn py_isdigit py_int w
  = Ok false (World (db w) (txn w) (faults w) rest
                (stdout w ++ menu_text ++ ["請選擇功能: "])).
Proof.
  intros Hin Hc. destruct w as [t x fs i o]. simpl in *. subst i.
  unfold menu_turn.
  erewrite bind_ok by apply executemany_print.
  erewrite bind_ok by apply input_ok.
  rewrite <- app_assoc.
  destruct (String.eqb_spec choice "1") as [->|_]; [by destruct Hc|].
  destruct (String.eqb_spec choice "2") as [->|_]; [by destruct Hc|].
  destruct (String.eqb_spec choice "3") as [->|_]; [by destruct Hc|].
  destruct (String.eqb_spec choice "4") as [->|_]; [by destruct Hc|].
  destruct Hc as [->|Hc]; [done|].
  rewrite Hc. simpl. by rewrite orb_true_r.
Qed.

(** X16: any other line typed at the menu, apart from 1 to 4, is answered by
    the valid-option text and the menu comes again: nothing else is read,
    the engine is not asked anything and the tables stay as they were. *)
Theorem menu_turn_unknown_choice py_isdigit py_int (w : world)
    (choice : string) (rest : list string) :
  stdin w = choice :: rest →
  choice ∉ ["1"; "2"; "3"; "4"; "5"] →
  PyStr.lower choice ≠ "enter" →
  menu_turn py_isdigit py_int w
  = Ok true (World (db w) (txn w) (faults w) rest
               (stdout w ++ menu_text
                ++ ["請選擇功能: "; "=> 請輸入有效的選項（1-5）"])).
Proof.
  intros Hin Hc Hl. destruct w as [t x fs i o]. simpl in *. subst i.
  unfold menu_turn.
  erewrite bind_ok by apply executemany_print.
  erewrite bind_ok by apply input_ok.
  destruct (String.eqb_spec choice "1") as [->|_]; [set_solver|].
  destruct (String.eqb_spec choice "2") as [->|_]; [set_solver|].
  destruct (String.eqb_spec choice "3") as [->|_]; [set_solver|].
  destruct (String.eqb_spec choice "4") as [->|_]; [set_solver|].
  destruct (String.eqb_spec choice "5") as [->|_]; [set_solver|].
  destruct (String.eqb_spec (PyStr.lower choice) "enter") as [|_]; [done|].
  simpl. erewrite bind_ok by apply print_ok.
  unfold ret. by rewrite <- !app_assoc.
Qed.

(** ** [update_sale] and [delete_sale]: nothing to list, and cancelling *)

Lemma select_update_list_ok t x fs i o :
  quiet 1 fs = true →
  select_update_list (World t x fs i o)
  = Ok (update_listing t) (World t x (tail fs) i o).
Proof.
  intros Hq. unfold select_update_list.
  by erewrite bind_ok by (by apply engine_step_ok).
Qed.

Lemma update_listing_nil (t : tables) :
  (∀ k s, sale t !! k = Some s → member t !! sale_mid s = None) →
  update_listing t = [].
Proof.
  intros H. unfold update_listing.
  destruct (omap _ _) as [|r rs] eqn:E; [done|].
  assert (r ∈ r :: rs) as Hr by left. rewrite <- E in Hr.
  apply list_elem_of_omap in Hr as ([k s] & Hin & Hj).
  apply elem_of_rows_by_sid in Hin. unfold join_member in Hj. simpl in Hj.
  by rewrite (H k s Hin) in Hj.
Qed.

Lemma update_listing_cons (t : tables) (k : Z) (s : sale_row) (m : member_row) :
  sale t !! k = Some s → member t !! sale_mid s = Some m →
  update_listing t ≠ [].
Proof.
  intros Hs Hm E.
  assert ((k, mname m, sdate s) ∈ update_listing t) as Hin.
  { unfold update_listing. apply list_elem_of_omap. exists (k, s).
    split; [by apply elem_of_rows_by_sid|].
    unfold join_member. simpl. by rewrite Hm. }
  rewrite E in Hin. by apply elem_of_nil in Hin.
Qed.

Lemma report_rows_nil (t : tables) :
  (∀ k s, sale t !! k = Some s → orphan t s) → report_rows t = [].
Proof.
  intros H. destruct (report_rows t) as [|r rs] eqn:E; [done|].
  assert (r ∈ r :: rs) as Hr by left. rewrite <- E in Hr.
  apply elem_of_report_rows in Hr as (s & m & b & Hs & Hm & Hb & _).
  destruct (H _ _ Hs) as [H'|H']; congruence.
Qed.

Lemma report_rows_cons (t : tables) (k : Z) (s : sale_row) (m : member_row)
    (b : book_row) :
  sale t !! k = Some s → member t !! sale_mid s = Some m →
  book t !! sale_bid s = Some b →
  report_rows t ≠ [].
Proof.
  intros Hs Hm Hb E.
  assert (ReportRow k (sdate s) (mname m) (btitle b) (bprice b) (sqty s)
            (sdiscount s) (stotal s) ∈ report_rows t) as Hin.
  { apply elem_of_report_rows. by exists s, m, b. }
  rewrite E in Hin. by apply elem_of_nil in Hin.
Qed.

Lemma executemany_print_map {A} (f : A → string) t x fs i o (l : list A) :
  executemany (λ r, print (f r)) l (World t x fs i o)
  = Ok tt (World t x fs i (o ++ map f l)).
Proof.
  revert o. induction l as [|s l IH]; intros o; simpl.
  - unfold ret. by rewrite app_nil_r.
  - erewrite bind_ok by apply print_ok.
    rewrite IH. by rewrite <- app_assoc.
Qed.

(** X17: when no sale has its member, [update_sale] prints that there is
    nothing to update and returns: no line is read, nothing is written, and
    the sales whose member row is missing cannot be reached from the
    menu. *)
Theorem update_sale_nothing_to_update py_isdigit py_int (w : world) :
  quiet 1 (faults w) = true →
  (∀ k s, sale (db w) !! k = Some s → member (db w) !! sale_mid s = None) →
  update_sale py_isdigit py_int w
  = Ok tt (World (db w) (txn w) (tail (faults w)) (stdin w)
             (stdout w ++ [PyStr.nl +:+ "目前沒有銷售記錄可以更新。"])).
Proof.
  intros Hq H. destruct w as [t x fs i o]. simpl in *.
  unfold update_sale.
  erewrite bind_ok by (by apply select_update_list_ok).
  rewrite (update_listing_nil t H). apply print_ok.
Qed.

(** X18: when every sale lacks its member or its book, [delete_sale] prints
    that there is nothing to delete and returns: no line is read and
    nothing is written. *)
Theorem delete_sale_nothing_to_delete py_isdigit py_int (w : world) :
  quiet 1 (faults w) = true →
  (∀ k s, sale (db w) !! k = Some s → orphan (db w) s) →
  delete_sale py_isdigit py_int w
  = Ok tt (World (db w) (txn w) (tail (faults w)) (stdin w)
             (stdout w ++ [PyStr.nl +:+ "目前沒有銷售記錄可以刪除。"])).
Proof.
  intros Hq H. destruct w as [t x fs i o]. simpl in *.
  unfold delete_sale.
  erewrite bind_ok by (by apply select_report_ok).
  rewrite (report_rows_nil t H). apply print_ok.
Qed.

Lemma ask_update_id_cancel py_isdigit py_int (n : nat) t x fs rest o :
  ask_update_id py_isdigit py_int (S n) (World t x fs ("" :: rest) o)
  = Ok None (World t x fs rest (o ++ [update_prompt; "取消更新。"])).
Proof.
  simpl. erewrite bind_ok by apply input_ok. simpl.
  erewrite bind_ok by apply print_ok.
  unfold ret, update_prompt. by rewrite <- app_assoc.
Qed.

Lemma ask_delete_id_cancel py_isdigit py_int (n : nat) t x fs rest o :
  ask_delete_id py_isdigit py_int (S n) (World t x fs ("" :: rest) o)
  = Ok None (World t x fs rest (o ++ [delete_prompt; "取消刪除。"])).
Proof.
  simpl. erewrite bind_ok by apply input_ok. simpl.
  erewrite bind_ok by apply print_ok.
  unfold ret, delete_prompt. by rewrite <- app_assoc.
Qed.

(** X19: an empty line at the first prompt of [update_sale] cancels: the
    listing, the prompt and the cancellation text are printed, the new
    discount is not asked and nothing is written. *)
Theorem update_sale_cancel py_isdigit py_int (w : world) (rest : list string)
    (k : Z) (s : sale_row) (m : member_row) :
  quiet 1 (faults w) = true →
  sale (db w) !! k = Some s →
  member (db w) !! sale_mid s = Some m →
  stdin w = "" :: rest →
  update_sale py_isdigit py_int w
  = Ok tt (World (db w) (txn w) (tail (faults w)) rest
             (stdout w ++ [list_header]
              ++ map update_list_line (update_listing (db w))
              ++ [list_footer; update_prompt; "取消更新。"])).
Proof.
  intros Hq Hs Hm Hin. destruct w as [t x fs i o]. simpl in *. subst i.
  unfold update_sale.
  erewrite bind_ok by (by apply select_update_list_ok).
  pose proof (update_listing_cons t k s m Hs Hm) as Hne.
  destruct (update_listing t) as [|r rs] eqn:E; [done|].
  erewrite bind_ok by apply print_ok.
  erewrite bind_ok by apply executemany_print_map.
  erewrite bind_ok by apply print_ok.
  erewrite bind_ok by reflexivity.
  erewrite bind_ok by apply ask_update_id_cancel.
  unfold ret. by rewrite <- !app_assoc.
Qed.

(** An empty line at the prompt of [delete_sale] cancels: the listing,
    the prompt and the cancellation text are printed and nothing is
    deleted. *)
Lemma delete_sale_cancel py_isdigit py_int (w : world) (rest : list string)
    (k : Z) (s : sale_row) (m : member_row) (b : book_row) :
  quiet 1 (faults w) = true →
  sale (db w) !! k = Some s →
  member (db w) !! sale_mid s = Some m →
  book (db w) !! sale_bid s = Some b →
  stdin w = "" :: rest →
  delete_sale py_isdigit py_int w
  = Ok tt (World (db w) (txn w) (tail (faults w)) rest
             (stdout w ++ [list_header]
              ++ map delete_list_line (report_rows (db w))
              ++ [list_footer; delete_prompt; "取消刪除。"])).
Proof.
  intros Hq Hs Hm Hb Hin. destruct w as [t x fs i o]. simpl in *. subst i.
  unfold delete_sale.
  erewrite bind_ok by (by apply select_report_ok).
  pose proof (report_rows_cons t k s m b Hs Hm Hb) as Hne.
  destruct (report_rows t) as [|r rs] eqn:E; [done|].
  erewrite bind_ok by apply print_ok.
  erewrite bind_ok by apply executemany_print_map.
  erewrite bind_ok by apply print_ok.
  erewrite bind_ok by reflexivity.
  erewrite bind_ok by apply ask_delete_id_cancel.
  unfold ret. by rewrite <- !app_assoc.
Qed.

(** ** The prompts of [update_sale] and [delete_sale] *)

Lemma select_sale_ok t x fs i o sale_id :
  in_int64 sale_id = true →
  quiet 1 fs = true →
  select_sale sale_id (World t x fs i o)
  = Ok ((λ _, sale_id) <$> sale t !! sale_id) (World t x (tail fs) i o).
Proof.
  intros H1 Hq. unfold select_sale.
  erewrite bind_ok by (by apply bind_int_ok).
  by erewrite bind_ok by (by apply engine_step_ok).
Qed.

(** X20: the first loop of [update_sale] answers every line that is not empty
    and that [str.isdigit] refuses by the invalid-input text and asks
    again: the engine is not asked anything and nothing is written. *)
Theorem ask_update_id_asks_again py_isdigit py_int (bad : list string)
    (n : nat) (w : world) (rest : list string) :
  Forall (not_a_number py_isdigit) bad →
  stdin w = bad ++ rest →
  ask_update_id py_isdigit py_int (List.length bad + n) w
  = ask_update_id py_isdigit py_int n
      (World (db w) (txn w) (faults w) rest
         (stdout w
          ++ flat_map (λ _, [update_prompt;
                             "輸入無效，請輸入數字或按 Enter 取消。"]) bad)).
Proof.
  intros Hbad Hin. destruct w as [t x fs i o]. simpl in *. subst i.
  revert o. induction Hbad as [|l bad [Hl Hd] _ IH]; intros o.
  - simpl. by rewrite app_nil_r.
  - cbn [List.length Nat.add ask_update_id app].
    erewrite bind_ok by apply input_ok.
    destruct (String.eqb_spec l "") as [|_]; [done|].
    rewrite Hd.
    erewrite bind_ok by apply print_ok.
    rewrite IH. do 2 f_equal. simpl. by rewrite <- !app_assoc.
Qed.

(** X21: the second loop of [update_sale] answers every line that
    [str.isdigit] refuses (a sign, a space, nothing at all) by the
    enter-a-number text and asks again, keeping the sale id it has. *)
Theorem ask_discount_asks_again py_isdigit py_int (bad : list string)
    (n : nat) (w : world) (rest : list string) :
  Forall (λ l, py_isdigit l = false) bad →
  stdin w = bad ++ rest →
  ask_discount py_isdigit py_int (List.length bad + n) w
  = ask_discount py_isdigit py_int n
      (World (db w) (txn w) (faults w) rest
         (stdout w
          ++ flat_map (λ _, [discount_prompt; "輸入無效，請輸入數字。"]) bad)).
Proof.
  intros Hbad Hin. destruct w as [t x fs i o]. simpl in *. subst i.
  revert o. induction Hbad as [|l bad Hd _ IH]; intros o.
  - simpl. by rewrite app_nil_r.
  - cbn [List.length Nat.add ask_discount app].
    erewrite bind_ok by apply input_ok.
    rewrite Hd.
    erewrite bind_ok by apply print_ok.
    rewrite IH. do 2 f_equal. simpl. by rewrite <- !app_assoc.
Qed.

(** X22: a sale id that is in no row of [sale] is answered by the
    does-not-exist text, in [update_sale] as in [delete_sale], and the
    prompt comes again: one SELECT is run and nothing is written. *)
Theorem ask_id_unknown_sale py_isdigit py_int (n : nat) (w : world)
    (l : string) (rest : list string) (sale_id : Z) :
  stdin w = l :: rest →
  l ≠ "" →
  py_isdigit l = true →
  py_int l = Some sale_id →
  in_int64 sale_id = true →
  quiet 1 (faults w) = true →
  sale (db w) !! sale_id = None →
  ask_update_id py_isdigit py_int (S n) w
  = ask_update_id py_isdigit py_int n
      (World (db w) (txn w) (tail (faults w)) rest
         (stdout w ++ [update_prompt; "輸入的銷售編號不存在，請重新輸入。"])) ∧
  ask_delete_id py_isdigit py_int (S n) w
  = ask_delete_id py_isdigit py_int n
      (World (db w) (txn w) (tail (faults w)) rest
         (stdout w ++ [delete_prompt; "輸入的銷售編號不存在，請重新輸入。"])).
Proof.
  intros Hin Hl Hd Hp Hz Hq Hs. destruct w as [t x fs i o]. simpl in *. subst i.
  split.
  - erewrite bind_ok by apply input_ok.
    destruct (String.eqb_spec l "") as [|_]; [done|].
    rewrite Hd. unfold int_of. rewrite Hp.
    erewrite bind_ok by reflexivity.
    erewrite bind_ok by (by apply select_sale_ok).
    rewrite Hs. simpl.
    erewrite bind_ok by apply print_ok.
    by rewrite <- !app_assoc.
  - erewrite bind_ok by apply input_ok.
    destruct (String.eqb_spec l "") as [|_]; [done|].
    rewrite Hd. unfold int_of. rewrite Hp.
    erewrite bind_ok by reflexivity.
    erewrite bind_ok by (by apply select_sale_ok).
    rewrite Hs. simpl.
    erewrite bind_ok by apply print_ok.
    by rewrite <- !app_assoc.
Qed.

(** X23: [update_discount] on a sale id that has no row, or whose book has no
    row, prints that the sale information was not found: no exception, no
    UPDATE, no transaction begun, the tables as they were. *)
Theorem update_discount_not_found (w : world) (sale_id newdiscount : Z) :
  in_int64 sale_id = true →
  quiet 1 (faults w) = true →
  (∀ s, sale (db w) !! sale_id = Some s → book (db w) !! sale_bid s = None) →
  update_discount sale_id newdiscount w
  = Ok tt (World (db w) (txn w) (tail (faults w)) (stdin w)
             (stdout w ++ [msg_update_not_found])).
Proof.
  intros Hz Hq H. destruct w as [t x fs i o]. simpl in *.
  unfold update_discount.
  erewrite bind_ok by (by apply select_details_ok).
  destruct (sale t !! sale_id) as [s|]; simpl; [|apply print_ok].
  rewrite (H s eq_refl). simpl. apply print_ok.
Qed.

(** ** Exceptions that nothing catches *)

(** X24: a line that [str.isdigit] accepts and [int] refuses (Python has such
    strings: the superscript two is one) makes the id loops of
    [update_sale] and [delete_sale] raise [ValueError] right after the
    prompt: neither function has a handler for it. *)
Theorem ask_id_digit_no_integer py_isdigit py_int (n : nat) (w : world)
    (l : string) (rest : list string) :
  stdin w = l :: rest →
  l ≠ "" →
  py_isdigit l = true →
  py_int l = None →
  ask_update_id py_isdigit py_int (S n) w
  = Raise ValueError (World (db w) (txn w) (faults w) rest
                        (stdout w ++ [update_prompt])) ∧
  ask_delete_id py_isdigit py_int (S n) w
  = Raise ValueError (World (db w) (txn w) (faults w) rest
                        (stdout w ++ [delete_prompt])).
Proof.
  intros Hin Hl Hd Hp. destruct w as [t x fs i o]. simpl in *. subst i.
  split.
  - erewrite bind_ok by apply input_ok.
    destruct (String.eqb_spec l "") as [|_]; [done|].
    rewrite Hd. unfold int_of. by rewrite Hp.
  - erewrite bind_ok by apply input_ok.
    destruct (String.eqb_spec l "") as [|_]; [done|].
    rewrite Hd. unfold int_of. by rewrite Hp.
Qed.

Lemma select_sale_overflow (sale_id : Z) (w : world) :
  in_int64 sale_id = false → select_sale sale_id w = Raise OverflowError w.
Proof.
  intros H. unfold select_sale.
  by erewrite bind_raise by (by apply bind_int_overflow).
Qed.

(** X25: a sale id beyond the signed 64-bit integers makes the id loops of
    [update_sale] and [delete_sale] raise [OverflowError] when it is bound
    to the SELECT: the engine is not asked and nothing is written. *)
Theorem ask_id_beyond_int64 py_isdigit py_int (n : nat) (w : world)
    (l : string) (rest : list string) (sale_id : Z) :
  stdin w = l :: rest →
  l ≠ "" →
  py_isdigit l = true →
  py_int l = Some sale_id →
  in_int64 sale_id = false →
  ask_update_id py_isdigit py_int (S n) w
  = Raise OverflowError (World (db w) (txn w) (faults w) rest
                           (stdout w ++ [update_prompt])) ∧
  ask_delete_id py_isdigit py_int (S n) w
  = Raise OverflowError (World (db w) (txn w) (faults w) rest
                           (stdout w ++ [delete_prompt])).
Proof.
  intros Hin Hl Hd Hp Hz. destruct w as [t x fs i o]. simpl in *. subst i.
  split.
  - erewrite bind_ok by apply input_ok.
    destruct (String.eqb_spec l "") as [|_]; [done|].
    rewrite Hd. unfold int_of. rewrite Hp.
    erewrite bind_ok by reflexivity.
    by erewrite bind_raise by (by apply select_sale_overflow).
  - erewrite bind_ok by apply input_ok.
    destruct (String.eqb_spec l "") as [|_]; [done|].
    rewrite Hd. unfold int_of. rewrite Hp.
    erewrite bind_ok by reflexivity.
    by erewrite bind_raise by (by apply select_sale_overflow).
Qed.

(** X26: the report, [update_sale] and [delete_sale] have no handler for the
    engine's errors: an error at their first SELECT comes out of each of
    them as the exception it is, with nothing printed. *)
Theorem engine_error_outside_add_sale py_isdigit py_int (w : world)
    (e : string) (answers : list (option string)) :
  faults w = Some e :: answers →
  Forall (λ m : M unit,
            m w = Raise (SqliteError e)
                    (World (db w) (txn w) answers (stdin w) (stdout w)))
    [ print_sale_report; update_sale py_isdigit py_int;
      delete_sale py_isdigit py_int ].
Proof.
  intros Hf. destruct w as [t x fs i o]. simpl in *. subst fs.
  repeat constructor.
Qed.

(** X27: the menu catches nothing that choices 2, 3 and 4 raise: whatever
    exception the report, [update_sale] or [delete_sale] ends with ends the
    turn of the menu, and with it the loop. *)
Theorem menu_turn_catches_nothing py_isdigit py_int (w w' : world)
    (choice : string) (rest : list string) (m : M unit) (e : exn) :
  stdin w = choice :: rest →
  (choice, m) ∈ [ ("2", print_sale_report);
                  ("3", update_sale py_isdigit py_int);
                  ("4", delete_sale py_isdigit py_int) ] →
  m (World (db w) (txn w) (faults w) rest
       (stdout w ++ menu_text ++ ["請選擇功能: "])) = Raise e w' →
  menu_turn py_isdigit py_int w = Raise e w' ∧
  ∀ n, menu_loop py_isdigit py_int (S n) w = Raise e w'.
Proof.
  intros Hin Hm Hr. destruct w as [t x fs i o]. simpl in Hin. subst i.
  cbn [db txn faults stdout] in Hr.
  assert (menu_turn py_isdigit py_int (World t x fs (choice :: rest) o)
          = Raise e w') as Ht.
  { unfold menu_turn.
    erewrite bind_ok by apply executemany_print.
    erewrite bind_ok by apply input_ok.
    rewrite <- app_assoc.
    apply elem_of_cons in Hm as [[= -> ->]|Hm].
    { simpl (_ =? _)%string. cbv iota. by erewrite bind_raise by exact Hr. }
    apply elem_of_cons in Hm as [[= -> ->]|Hm].
    { simpl (_ =? _)%string. cbv iota. by erewrite bind_raise by exact Hr. }
    apply elem_of_cons in Hm as [[= -> ->]|Hm].
    { simpl (_ =? _)%string. cbv iota. by erewrite bind_raise by exact Hr. }
    by apply elem_of_nil in Hm. }
  split; [done|]. intros n. simpl. by erewrite bind_raise.
Qed.

(** ** From the prompts to the update and to the deletion *)

Lemma ask_update_id_known py_isdigit py_int (n : nat) t x fs l rest o
    (sale_id : Z) (s : sale_row) :
  l ≠ "" → py_isdigit l = true → py_int l = Some sale_id →
  in_int64 sale_id = true → quiet 1 fs = true →
  sale t !! sale_id = Some s →
  ask_update_id py_isdigit py_int (S n) (World t x fs (l :: rest) o)
  = Ok (Some sale_id) (World t x (tail fs) rest (o ++ [update_prompt])).
Proof.
  intros Hl Hd Hp Hz Hq Hs. simpl.
  erewrite bind_ok by apply input_ok.
  destruct (String.eqb_spec l "") as [|_]; [done|].
  rewrite Hd. unfold int_of. rewrite Hp.
  erewrite bind_ok by reflexivity.
  erewrite bind_ok by (by apply select_sale_ok).
  by rewrite Hs.
Qed.

Lemma ask_delete_id_known py_isdigit py_int (n : nat) t x fs l rest o
    (sale_id : Z) (s : sale_row) :
  l ≠ "" → py_isdigit l = true → py_int l = Some sale_id →
  in_int64 sale_id = true → quiet 1 fs = true →
  sale t !! sale_id = Some s →
  ask_delete_id py_isdigit py_int (S n) (World t x fs (l :: rest) o)
  = Ok (Some sale_id) (World t x (tail fs) rest (o ++ [delete_prompt])).
Proof.
  intros Hl Hd Hp Hz Hq Hs. simpl.
  erewrite bind_ok by apply input_ok.
  destruct (String.eqb_spec l "") as [|_]; [done|].
  rewrite Hd. unfold int_of. rewrite Hp.
  erewrite bind_ok by reflexivity.
  erewrite bind_ok by (by apply select_sale_ok).
  by rewrite Hs.
Qed.

Lemma ask_discount_known py_isdigit py_int (n : nat) t x fs l rest o
    (newdiscount : Z) :
  py_isdigit l = true → py_int l = Some newdiscount → 0 ≤ newdiscount →
  ask_discount py_isdigit py_int (S n) (World t x fs (l :: rest) o)
  = Ok newdiscount (World t x fs rest (o ++ [discount_prompt])).
Proof.
  intros Hd Hp Hn. simpl.
  erewrite bind_ok by apply input_ok.
  rewrite Hd. unfold int_of. rewrite Hp.
  erewrite bind_ok by reflexivity.
  by destruct (Z.leb_spec 0 newdiscount) as [_|?]; [|lia].
Qed.

(** X28: with a listing to show, a known sale id typed at the first prompt and
    a discount that is not negative typed at the second, [update_sale] does
    what [update_discount] does on that id and that discount, after two
    SELECTs and with the listing and both prompts printed. *)
Theorem update_sale_asks_then_updates py_isdigit py_int (w : world)
    (id_str discount_str : string) (rest : list string)
    (sale_id newdiscount k : Z) (s : sale_row) (m : member_row) :
  quiet 2 (faults w) = true →
  sale (db w) !! k = Some s →
  member (db w) !! sale_mid s = Some m →
  stdin w = id_str :: discount_str :: rest →
  id_str ≠ "" →
  py_isdigit id_str = true →
  py_int id_str = Some sale_id →
  in_int64 sale_id = true →
  is_Some (sale (db w) !! sale_id) →
  py_isdigit discount_str = true →
  py_int discount_str = Some newdiscount →
  0 ≤ newdiscount →
  update_sale py_isdigit py_int w
  = update_discount sale_id newdiscount
      (World (db w) (txn w) (drop 2 (faults w)) rest
         (stdout w ++ [list_header]
          ++ map update_list_line (update_listing (db w))
          ++ [list_footer; update_prompt; discount_prompt])).
Proof.
  intros Hq Hs Hm Hin Hl Hd Hp Hz [s' Hs'] Hd' Hp' Hn.
  destruct w as [t x fs i o]. simpl in *. subst i.
  unfold update_sale.
  erewrite bind_ok by (apply select_update_list_ok; by eapply quiet_one).
  apply quiet_tail in Hq.
  pose proof (update_listing_cons t k s m Hs Hm) as Hne.
  destruct (update_listing t) as [|r rs] eqn:E; [done|].
  erewrite bind_ok by apply print_ok.
  erewrite bind_ok by apply executemany_print_map.
  erewrite bind_ok by apply print_ok.
  erewrite bind_ok by reflexivity.
  erewrite bind_ok by (by eapply ask_update_id_known).
  cbv iota.
  erewrite bind_ok by reflexivity.
  erewrite bind_ok by (by eapply ask_discount_known).
  do 2 f_equal.
  - by destruct fs as [|? [|? ?]].
  - unfold update_prompt, discount_prompt. by rewrite <- !app_assoc.
Qed.

(** X29: with a listing to show and a known sale id typed at the prompt,
    [delete_sale] does what the deletion by id does, after two SELECTs and
    with the listing and the prompt printed: it asks for no confirmation. *)
Theorem delete_sale_asks_then_deletes py_isdigit py_int (w : world)
    (id_str : string) (rest : list string) (sale_id k : Z) (s : sale_row)
    (m : member_row) (b : book_row) :
  quiet 2 (faults w) = true →
  sale (db w) !! k = Some s →
  member (db w) !! sale_mid s = Some m →
  book (db w) !! sale_bid s = Some b →
  stdin w = id_str :: rest →
  id_str ≠ "" →
  py_isdigit id_str = true →
  py_int id_str = Some sale_id →
  in_int64 sale_id = true →
  is_Some (sale (db w) !! sale_id) →
  delete_sale py_isdigit py_int w
  = delete_sale_by_id sale_id
      (World (db w) (txn w) (drop 2 (faults w)) rest
         (stdout w ++ [list_header]
          ++ map delete_list_line (report_rows (db w))
          ++ [list_footer; delete_prompt])).
Proof.
  intros Hq Hs Hm Hb Hin Hl Hd Hp Hz [s' Hs'].
  destruct w as [t x fs i o]. simpl in *. subst i.
  unfold delete_sale.
  erewrite bind_ok by (apply select_report_ok; by eapply quiet_one).
  apply quiet_tail in Hq.
  pose proof (report_rows_cons t k s m b Hs Hm Hb) as Hne.
  destruct (report_rows t) as [|r rs] eqn:E; [done|].
  erewrite bind_ok by apply print_ok.
  erewrite bind_ok by apply executemany_print_map.
  erewrite bind_ok by apply print_ok.
  erewrite bind_ok by reflexivity.
  erewrite bind_ok by (by eapply ask_delete_id_known).
  cbv iota.
  do 2 f_equal.
  - by destruct fs as [|? [|? ?]].
  - unfold delete_prompt. by rewrite <- !app_assoc.
Qed.

(** ** Leaving [main] *)


(** ** The order of the report *)

Lemma sorted_strict (l : list (Z * sale_row)) :
  StronglySorted (λ a b, a.1 ≤ b.1) l → NoDup l.*1 →
  StronglySorted (λ a b, a.1 < b.1) l.
Proof.
  induction 1 as [|x l _ IH Hx]; intros Hnd; [constructor|].
  apply NoDup_cons in Hnd as [Hin Hnd]. constructor; [by apply IH|].
  rewrite Forall_forall in Hx. apply Forall_forall. intros y Hy.
  specialize (Hx y Hy). simpl in *.
  assert (y.1 ≠ x.1) as Hne.
  { intros E. apply Hin. rewrite <- E. by apply list_elem_of_fmap_2. }
  lia.
Qed.

Lemma rows_by_sid_strict (s : gmap Z sale_row) :
  StronglySorted (λ a b, a.1 < b.1) (rows_by_sid s).
Proof.
  apply sorted_strict; [apply rows_by_sid_sorted|].
  rewrite rows_by_sid_perm. apply NoDup_fst_map_to_list.
Qed.

Lemma join_member_book_sid (t : tables) (x : Z * sale_row) (r : report_row) :
  join_member_book t x = Some r → r_sid r = x.1.
Proof.
  unfold join_member_book. repeat case_match; try done. by intros [= <-].
Qed.

(** X4: the report lists the sales by ascending sale id, each id once. *)
Theorem report_rows_ascending (t : tables) :
  StronglySorted (λ a b, r_sid a < r_sid b) (report_rows t).
Proof.
  unfold report_rows.
  induction (rows_by_sid_strict (sale t)) as [|x l _ IH Hx]; [constructor|].
  cbn [omap list_omap].
  destruct (join_member_book t x) as [r|] eqn:E; [|done].
  constructor; [done|].
  apply Forall_forall. intros r' Hr'.
  apply list_elem_of_omap in Hr' as (y & Hy & Ey).
  rewrite Forall_forall in Hx. specialize (Hx y Hy).
  apply join_member_book_sid in E, Ey. lia.
Qed.

(** ** Sale ids after a deletion *)

Lemma delete_sale_by_id_ok_db (sale_id : Z) (w w' : world) :
  delete_sale_by_id sale_id w = Ok tt w' →
  db w' = with_sale (delete sale_id) (db w).
Proof.
  destruct w as [t x fs i o].
  unfold delete_sale_by_id, delete_sale_row, commit, bind, bind_int,
    engine_step, begin_dml, get_db, put_db, print, ret, raise. simpl.
  intros; repeat (case_match; simpl in *; simplify_eq);
    cbn in *; by simplify_eq.
Qed.

(** X30: AUTOINCREMENT does not hand out the id of a deleted sale again: when
    the counter of [sale] is at least the id, as it is for every id the
    counter handed out, the sale recorded after the deletion gets another
    id, and the deleted id stays without a row. *)
Theorem deleted_id_is_not_reused (w w1 w2 : world) (k : Z)
    (sdate mid bid msg : string) (sqty sdiscount : Z) :
  k ≤ sale_seq (db w) →
  delete_sale_by_id k w = Ok tt w1 →
  add_sale sdate mid bid sqty sdiscount w1 = Ok (true, msg) w2 →
  sale (db w2) !! k = None ∧
  size (sale (db w2)) = S (size (delete k (sale (db w)))).
Proof.
  intros Hk Hd Ha.
  apply delete_sale_by_id_ok_db in Hd.
  pose proof (add_sale_outcomes w1 sdate mid bid sqty sdiscount) as H.
  rewrite Ha in H. destruct H as (_ & b & _ & Hs & _).
  pose proof (next_sid_above_seq (db w1)) as Hseq.
  pose proof (next_sid_fresh (db w1)) as Hfresh.
  rewrite Hs, Hd in *. simpl in *. split.
  - rewrite lookup_insert_ne by lia. apply lookup_delete_eq.
  - by rewrite map_size_insert_None.
Qed.

(** ** The properties above on sample worlds *)


(** A discount of 10^30 on the first run: [OverflowError], and the tables as
    they were. *)
Lemma add_sale_lets_no_engine_error_out_witness :
  (∀ text, OverflowError ≠ SqliteError text) ∧
  (OverflowError = OverflowError →
   db (world_of (add_sale "2024-01-01" "M001" "B001" 2 (10 ^ 30) first_run))
   = db first_run).
Proof.
  apply (add_sale_lets_no_engine_error_out first_run _
           "2024-01-01" "M001" "B001" 2 (10 ^ 30)).
  by vm_compute.
Defined.

(** A first run on which the operator looks at the report, mistypes a choice
    and closes the input: the file is still empty. *)
Lemma interrupted_session_commits_nothing_witness :
  committed
    (world_of (main Ascii10.isdigit Ascii10.int "2024-01-01"
                 (connect_db empty_tables [] ["2"; "9"])))
  = empty_tables.
Proof.
  apply (interrupted_session_commits_nothing Ascii10.isdigit Ascii10.int
           "2024-01-01" empty_tables [] ["2"; "9"] EOFError).
  - repeat (constructor; [by repeat split|]). constructor.
  - by vm_compute.
Defined.


(** The keystrokes of the spec's scenario on an empty file. *)
Lemma session_keeps_stock_nonneg_witness :
  stocks_nonneg
    (db (world_of (main Ascii10.isdigit Ascii10.int "2024-01-01"
                     (connect_db empty_tables [] scenario_keys)))).
Proof.
  apply (session_keeps_stock_nonneg Ascii10.isdigit Ascii10.int "2024-01-01"
           empty_tables [] scenario_keys).
  intros bid b H. simpl in H. by rewrite lookup_empty in H.
Defined.

(** A quantity of 0 typed at choice 1. *)
Lemma menu_rejects_nonpositive_quantity_witness :
  menu_add_sale Ascii10.int
    (first_run_typing ["2024-01-01"; "M001"; "B001"; "0"; "100"])
  = Ok tt (World (db (first_run_typing ["2024-01-01"; "M001"; "B001"; "0"; "100"]))
             (txn (first_run_typing ["2024-01-01"; "M001"; "B001"; "0"; "100"]))
             (faults (first_run_typing ["2024-01-01"; "M001"; "B001"; "0"; "100"]))
             ["100"]
             (stdout (first_run_typing ["2024-01-01"; "M001"; "B001"; "0"; "100"])
              ++ ["請輸入銷售日期 (YYYY-MM-DD): "; "請輸入會員編號：";
                  "請輸入書籍編號："; "請輸入購買數量：";
                  "=> 錯誤：數量必須為正整數，請重新輸入"])).
Proof.
  apply (menu_rejects_nonpositive_quantity Ascii10.int
           (first_run_typing ["2024-01-01"; "M001"; "B001"; "0"; "100"])
           "2024-01-01" "M001" "B001" "0" ["100"] 0).
  - by vm_compute.
  - by vm_compute.
  - by vm_compute.
  - lia.
Defined.

(** A discount of -5 typed at choice 1. *)
Lemma menu_rejects_negative_discount_witness :
  menu_add_sale Ascii10.int
    (first_run_typing ["2024-01-01"; "M001"; "B001"; "2"; "-5"])
  = Ok tt (World (db (first_run_typing ["2024-01-01"; "M001"; "B001"; "2"; "-5"]))
             (txn (first_run_typing ["2024-01-01"; "M001"; "B001"; "2"; "-5"]))
             (faults (first_run_typing ["2024-01-01"; "M001"; "B001"; "2"; "-5"]))
             []
             (stdout (first_run_typing ["2024-01-01"; "M001"; "B001"; "2"; "-5"])
              ++ ["請輸入銷售日期 (YYYY-MM-DD): "; "請輸入會員編號：";
                  "請輸入書籍編號："; "請輸入購買數量：";
                  "請輸入折扣金額：";
                  "=> 錯誤：折扣金額不能為負數，請重新輸入"])).
Proof.
  apply (menu_rejects_negative_discount Ascii10.int
           (first_run_typing ["2024-01-01"; "M001"; "B001"; "2"; "-5"])
           "2024-01-01" "M001" "B001" "2" "-5" [] 2 (-5)).
  - by vm_compute.
  - by vm_compute.
  - by vm_compute.
  - lia.
  - by vm_compute.
  - lia.
Defined.

(** The quantity "two" typed at choice 1. *)
Lemma menu_rejects_non_integer_quantity_witness :
  menu_add_sale Ascii10.int
    (first_run_typing ["2024-01-01"; "M001"; "B001"; "two"; "0"])
  = Ok tt (World (db (first_run_typing ["2024-01-01"; "M001"; "B001"; "two"; "0"]))
             (txn (first_run_typing ["2024-01-01"; "M001"; "B001"; "two"; "0"]))
             (faults (first_run_typing ["2024-01-01"; "M001"; "B001"; "two"; "0"]))
             ["0"]
             (stdout (first_run_typing ["2024-01-01"; "M001"; "B001"; "two"; "0"])
              ++ ["請輸入銷售日期 (YYYY-MM-DD): "; "請輸入會員編號：";
                  "請輸入書籍編號："; "請輸入購買數量：";
                  "=> 錯誤：數量或折扣必須為整數，請重新輸入"])).
Proof.
  apply (menu_rejects_non_integer_quantity Ascii10.int
           (first_run_typing ["2024-01-01"; "M001"; "B001"; "two"; "0"])
           "2024-01-01" "M001" "B001" "two" ["0"]); by vm_compute.
Defined.

(** "Enter" typed at the menu. *)
Lemma menu_turn_leaves_witness :
  menu_turn Ascii10.isdigit Ascii10.int (first_run_typing ["Enter"; "1"])
  = Ok false (World (db (first_run_typing ["Enter"; "1"]))
                (txn (first_run_typing ["Enter"; "1"]))
                (faults (first_run_typing ["Enter"; "1"])) ["1"]
                (stdout (first_run_typing ["Enter"; "1"])
                 ++ menu_text ++ ["請選擇功能: "])).
Proof.
  apply (menu_turn_leaves Ascii10.isdigit Ascii10.int
           (first_run_typing ["Enter"; "1"]) "Enter" ["1"]).
  - by vm_compute.
  - right. by vm_compute.
Defined.

(** "9" typed at the menu. *)
Lemma menu_turn_unknown_choice_witness :
  menu_turn Ascii10.isdigit Ascii10.int (first_run_typing ["9"; "5"])
  = Ok true (World (db (first_run_typing ["9"; "5"]))
               (txn (first_run_typing ["9"; "5"]))
               (faults (first_run_typing ["9"; "5"])) ["5"]
               (stdout (first_run_typing ["9"; "5"])
                ++ menu_text
                ++ ["請選擇功能: "; "=> 請輸入有效的選項（1-5）"])).
Proof.
  apply (menu_turn_unknown_choice Ascii10.isdigit Ascii10.int
           (first_run_typing ["9"; "5"]) "9" ["5"]).
  - by vm_compute.
  - intros H. repeat (apply elem_of_cons in H as [H|H]; [discriminate H|]).
    by apply elem_of_nil in H.
  - by vm_compute.
Defined.

(** The only sale names the member M404, who has no row. *)
Lemma update_sale_nothing_to_update_witness :
  update_sale Ascii10.isdigit Ascii10.int orphan_world
  = Ok tt (World (db orphan_world) (txn orphan_world)
             (tail (faults orphan_world)) (stdin orphan_world)
             (stdout orphan_world ++ [PyStr.nl +:+ "目前沒有銷售記錄可以更新。"])).
Proof.
  apply (update_sale_nothing_to_update Ascii10.isdigit Ascii10.int
           orphan_world).
  - by vm_compute.
  - intros k s H. simpl in H.
    apply lookup_singleton_Some in H as [_ <-]. by vm_compute.
Defined.

Lemma delete_sale_nothing_to_delete_witness :
  delete_sale Ascii10.isdigit Ascii10.int orphan_world
  = Ok tt (World (db orphan_world) (txn orphan_world)
             (tail (faults orphan_world)) (stdin orphan_world)
             (stdout orphan_world ++ [PyStr.nl +:+ "目前沒有銷售記錄可以刪除。"])).
Proof.
  apply (delete_sale_nothing_to_delete Ascii10.isdigit Ascii10.int
           orphan_world).
  - by vm_compute.
  - intros k s H. simpl in H.
    apply lookup_singleton_Some in H as [_ <-]. left. by vm_compute.
Defined.

(** An empty line at the first prompt, on the first run: the next line is
    still to be read. *)
Lemma update_sale_cancel_witness :
  update_sale Ascii10.isdigit Ascii10.int cancelling
  = Ok tt (World (db cancelling) (txn cancelling) (tail (faults cancelling))
             ["3"]
             (stdout cancelling ++ [list_header]
              ++ map update_list_line (update_listing (db cancelling))
              ++ [list_footer; update_prompt; "取消更新。"])).
Proof.
  apply (update_sale_cancel Ascii10.isdigit Ascii10.int cancelling ["3"] 1
           first_sale alice); by vm_compute.
Defined.

(** "abc" and "-1" typed at the first prompt, then "1". *)
Lemma ask_update_id_asks_again_witness :
  ask_update_id Ascii10.isdigit Ascii10.int (2 + 2) mistyping
  = ask_update_id Ascii10.isdigit Ascii10.int 2
      (World (db mistyping) (txn mistyping) (faults mistyping) ["1"]
         (stdout mistyping
          ++ flat_map (λ _, [update_prompt;
                             "輸入無效，請輸入數字或按 Enter 取消。"])
               ["abc"; "-1"])).
Proof.
  apply (ask_update_id_asks_again Ascii10.isdigit Ascii10.int ["abc"; "-1"] 2
           mistyping ["1"]).
  - repeat (constructor; [by split|]). constructor.
  - by vm_compute.
Defined.

(** "abc" and "-1" typed at the second prompt, then "1". *)
Lemma ask_discount_asks_again_witness :
  ask_discount Ascii10.isdigit Ascii10.int (2 + 2) mistyping
  = ask_discount Ascii10.isdigit Ascii10.int 2
      (World (db mistyping) (txn mistyping) (faults mistyping) ["1"]
         (stdout mistyping
          ++ flat_map (λ _, [discount_prompt; "輸入無效，請輸入數字。"])
               ["abc"; "-1"])).
Proof.
  apply (ask_discount_asks_again Ascii10.isdigit Ascii10.int ["abc"; "-1"] 2
           mistyping ["1"]).
  - repeat (constructor; [done|]). constructor.
  - by vm_compute.
Defined.

(** The first run has the sales 1 to 4: 99 is asked again. *)
Lemma ask_id_unknown_sale_witness :
  ask_update_id Ascii10.isdigit Ascii10.int 2 asking_for_99
  = ask_update_id Ascii10.isdigit Ascii10.int 1
      (World (db asking_for_99) (txn asking_for_99)
         (tail (faults asking_for_99)) [""]
         (stdout asking_for_99
          ++ [update_prompt; "輸入的銷售編號不存在，請重新輸入。"])) ∧
  ask_delete_id Ascii10.isdigit Ascii10.int 2 asking_for_99
  = ask_delete_id Ascii10.isdigit Ascii10.int 1
      (World (db asking_for_99) (txn asking_for_99)
         (tail (faults asking_for_99)) [""]
         (stdout asking_for_99
          ++ [delete_prompt; "輸入的銷售編號不存在，請重新輸入。"])).
Proof.
  apply (ask_id_unknown_sale Ascii10.isdigit Ascii10.int 1 asking_for_99
           "99" [""] 99); by vm_compute.
Defined.

(** Sale 1 names the book B404, which has no row. *)
Lemma update_discount_not_found_witness :
  update_discount 1 200 bookless_world
  = Ok tt (World (db bookless_world) (txn bookless_world)
             (tail (faults bookless_world)) (stdin bookless_world)
             (stdout bookless_world ++ [msg_update_not_found])).
Proof.
  apply (update_discount_not_found bookless_world 1 200).
  - by vm_compute.
  - by vm_compute.
  - intros s H. simpl in H.
    apply lookup_singleton_Some in H as [_ <-]. by vm_compute.
Defined.

(** The superscript two typed as a sale id. *)
Lemma ask_id_digit_no_integer_witness :
  ask_update_id Superscript.isdigit Ascii10.int 2 typing_superscript
  = Raise ValueError
      (World (db typing_superscript) (txn typing_superscript)
         (faults typing_superscript) []
         (stdout typing_superscript ++ [update_prompt])) ∧
  ask_delete_id Superscript.isdigit Ascii10.int 2 typing_superscript
  = Raise ValueError
      (World (db typing_superscript) (txn typing_superscript)
         (faults typing_superscript) []
         (stdout typing_superscript ++ [delete_prompt])).
Proof.
  apply (ask_id_digit_no_integer Superscript.isdigit Ascii10.int 1
           typing_superscript "²" []); by vm_compute.
Defined.

(** Twenty nines typed as a sale id. *)
Lemma ask_id_beyond_int64_witness :
  ask_update_id Ascii10.isdigit Ascii10.int 2 typing_twenty_digits
  = Raise OverflowError
      (World (db typing_twenty_digits) (txn typing_twenty_digits)
         (faults typing_twenty_digits) []
         (stdout typing_twenty_digits ++ [update_prompt])) ∧
  ask_delete_id Ascii10.isdigit Ascii10.int 2 typing_twenty_digits
  = Raise OverflowError
      (World (db typing_twenty_digits) (txn typing_twenty_digits)
         (faults typing_twenty_digits) []
         (stdout typing_twenty_digits ++ [delete_prompt])).
Proof.
  apply (ask_id_beyond_int64 Ascii10.isdigit Ascii10.int 1
           typing_twenty_digits "99999999999999999999" []
           99999999999999999999); by vm_compute.
Defined.

(** A disk error at the next statement. *)
Lemma engine_error_outside_add_sale_witness :
  Forall (λ m : M unit,
            m failing_at_once
            = Raise (SqliteError "disk I/O error")
                (World (db failing_at_once) (txn failing_at_once) []
                   (stdin failing_at_once) (stdout failing_at_once)))
    [ print_sale_report; update_sale Ascii10.isdigit Ascii10.int;
      delete_sale Ascii10.isdigit Ascii10.int ].
Proof.
  apply (engine_error_outside_add_sale Ascii10.isdigit Ascii10.int
           failing_at_once "disk I/O error" []).
  by vm_compute.
Defined.

(** Choice 3, then the superscript two as the sale id: the [ValueError]
    ends the menu loop. *)
Lemma menu_turn_catches_nothing_witness :
  menu_turn Superscript.isdigit Ascii10.int (first_run_typing ["3"; "²"])
  = Raise ValueError
      (world_of (menu_turn Superscript.isdigit Ascii10.int
                   (first_run_typing ["3"; "²"]))) ∧
  ∀ n, menu_loop Superscript.isdigit Ascii10.int (S n)
         (first_run_typing ["3"; "²"])
       = Raise ValueError
           (world_of (menu_turn Superscript.isdigit Ascii10.int
                        (first_run_typing ["3"; "²"]))).
Proof.
  apply (menu_turn_catches_nothing Superscript.isdigit Ascii10.int
           (first_run_typing ["3"; "²"]) _ "3" ["²"]
           (update_sale Superscript.isdigit Ascii10.int) ValueError).
  - by vm_compute.
  - right. left.
  - by vm_compute.
Defined.

(** Sale 1 chosen and 200 typed as its new discount. *)
Lemma update_sale_asks_then_updates_witness :
  update_sale Ascii10.isdigit Ascii10.int updating_sale_1
  = update_discount 1 200
      (World (db updating_sale_1) (txn updating_sale_1)
         (drop 2 (faults updating_sale_1)) []
         (stdout updating_sale_1 ++ [list_header]
          ++ map update_list_line (update_listing (db updating_sale_1))
          ++ [list_footer; update_prompt; discount_prompt])).
Proof.
  apply (update_sale_asks_then_updates Ascii10.isdigit Ascii10.int
           updating_sale_1 "1" "200" [] 1 200 1 first_sale alice);
    try by vm_compute.
  exists first_sale. by vm_compute.
Defined.

(** Sale 4 chosen for deletion. *)
Lemma delete_sale_asks_then_deletes_witness :
  delete_sale Ascii10.isdigit Ascii10.int deleting_sale_4
  = delete_sale_by_id 4
      (World (db deleting_sale_4) (txn deleting_sale_4)
         (drop 2 (faults deleting_sale_4)) []
         (stdout deleting_sale_4 ++ [list_header]
          ++ map delete_list_line (report_rows (db deleting_sale_4))
          ++ [list_footer; delete_prompt])).
Proof.
  apply (delete_sale_asks_then_deletes Ascii10.isdigit Ascii10.int
           deleting_sale_4 "4" [] 4 1 first_sale alice python_book);
    try by vm_compute.
  exists (SaleRow "2024-01-01" "M003" "B001" 1 0 600). by vm_compute.
Defined.

(** Sale 4, the last one, is deleted on the first run: the next sale is
    sale 5, not sale 4. *)
Lemma deleted_id_is_not_reused_witness :
  sale (db (world_of (add_sale "2024-01-01" "M001" "B001" 2 100
                        (world_of (delete_sale_by_id 4 first_run))))) !! 4
  = None ∧
  size (sale (db (world_of (add_sale "2024-01-01" "M001" "B001" 2 100
                              (world_of (delete_sale_by_id 4 first_run))))))
  = S (size (delete 4 (sale (db first_run)))).
Proof.
  apply (deleted_id_is_not_reused first_run
           (world_of (delete_sale_by_id 4 first_run)) _ 4
           "2024-01-01" "M001" "B001" (msg_sale_added 1100) 2 100).
  - by vm_compute.
  - by vm_compute.
  - by vm_compute.
Defined.
